(** * Unusual options bot: signal detection and paper-trade lifecycle

    A shallow embedding of the TypeScript sources
    - [src/utils/calculations.ts]   (metric calculator, classifier),
    - [src/services/signalDetector.ts] (SignalDetector),
    - [src/services/paperTrading.ts]   (PaperTradingService),
    - [src/clients/supabase.ts] and the SQL schema (storage),
    followed by the properties of the specification that are checked
    against them. *)

From Stdlib Require Import QArith Qround Qabs ZArith List String Ascii Bool Lia Lqa.
Import ListNotations.

Local Open Scope Z_scope.

(* ================================================================== *)
(** ** JavaScript numbers *)
(* ================================================================== *)

(** A JavaScript [number] is modelled as an exact rational extended with
    the two infinities and NaN.  Finite arithmetic is exact (binary
    rounding of doubles is idealised away); the special values follow
    IEEE 754 as JavaScript exposes it.  There is a single zero, which
    behaves as [+0].  What is stated of a computed number is kept to what
    the rounding of doubles preserves: comparisons, signs, order, case
    distinctions and the values the code itself compares or stores, not
    the exact value of a rounded result. *)
Module JS.

Inductive num : Type :=
| Fin (q : Q)
| PInf
| NInf
| NaN.

(** Finite results are kept in lowest terms, so that equal values are
    syntactically equal. *)
Definition fin (q : Q) : num := Fin (Qred q).

Definition of_Z (z : Z) : num := Fin (inject_Z z).

Definition Qltb (a b : Q) : bool := negb (Qle_bool b a).

Definition is_finite (x : num) : bool :=
  match x with Fin _ => true | _ => false end.

(** [x + y] *)
Definition add (x y : num) : num :=
  match x, y with
  | NaN, _ | _, NaN => NaN
  | Fin a, Fin b => fin (a + b)
  | PInf, NInf | NInf, PInf => NaN
  | PInf, _ | _, PInf => PInf
  | NInf, _ | _, NInf => NInf
  end.

(** [x - y] *)
Definition sub (x y : num) : num :=
  match x, y with
  | NaN, _ | _, NaN => NaN
  | Fin a, Fin b => fin (a - b)
  | PInf, PInf | NInf, NInf => NaN
  | PInf, _ | _, NInf => PInf
  | NInf, _ | _, PInf => NInf
  end.

(** An infinity scaled by a finite factor: the sign of the factor
    decides, and a zero factor gives NaN. *)
Definition scale_inf (positive : bool) (q : Q) : num :=
  if Qeq_bool q 0 then NaN
  else if Bool.eqb positive (Qltb 0 q) then PInf else NInf.

(** [x * y] *)
Definition mul (x y : num) : num :=
  match x, y with
  | NaN, _ | _, NaN => NaN
  | Fin a, Fin b => fin (a * b)
  | PInf, Fin b => scale_inf true b
  | NInf, Fin b => scale_inf false b
  | Fin a, PInf => scale_inf true a
  | Fin a, NInf => scale_inf false a
  | PInf, PInf | NInf, NInf => PInf
  | PInf, NInf | NInf, PInf => NInf
  end.

(** [x / y]: a finite non-zero dividend over zero is an infinity of the
    dividend's sign, [0 / 0] is NaN. *)
Definition div (x y : num) : num :=
  match x, y with
  | NaN, _ | _, NaN => NaN
  | Fin a, Fin b =>
      if Qeq_bool b 0 then
        (if Qeq_bool a 0 then NaN else if Qltb 0 a then PInf else NInf)
      else fin (a / b)
  | Fin _, (PInf | NInf) => fin 0
  | PInf, Fin b => if Qltb b 0 then NInf else PInf
  | NInf, Fin b => if Qltb b 0 then PInf else NInf
  | (PInf | NInf), (PInf | NInf) => NaN
  end.

(** [x < y]; every comparison with NaN is false. *)
Definition lt (x y : num) : bool :=
  match x, y with
  | NaN, _ | _, NaN => false
  | Fin a, Fin b => Qltb a b
  | NInf, (Fin _ | PInf) => true
  | Fin _, PInf => true
  | _, _ => false
  end.

(** [x <= y] *)
Definition le (x y : num) : bool :=
  match x, y with
  | NaN, _ | _, NaN => false
  | Fin a, Fin b => Qle_bool a b
  | NInf, _ => true
  | _, PInf => true
  | _, _ => false
  end.

(** [x > y] and [x >= y] *)
Definition gt (x y : num) : bool := lt y x.
Definition ge (x y : num) : bool := le y x.

(** [Math.abs] *)
Definition abs (x : num) : num :=
  match x with
  | Fin q => fin (Qabs q)
  | PInf | NInf => PInf
  | NaN => NaN
  end.

(** [Math.round]: the nearest integer, ties towards [+Infinity]. *)
Definition round (x : num) : num :=
  match x with
  | Fin q => of_Z (Qfloor (q + (1 # 2)))
  | other => other
  end.

(** [Math.floor] *)
Definition floor (x : num) : num :=
  match x with
  | Fin q => of_Z (Qfloor q)
  | other => other
  end.

(** [Math.max] and [Math.min] of two arguments: NaN is contagious. *)
Definition max (x y : num) : num :=
  match x, y with
  | NaN, _ | _, NaN => NaN
  | _, _ => if lt x y then y else x
  end.

Definition min (x y : num) : num :=
  match x, y with
  | NaN, _ | _, NaN => NaN
  | _, _ => if lt y x then y else x
  end.

(** Truthiness of a number: [0] and [NaN] are falsy. *)
Definition truthy (x : num) : bool :=
  match x with
  | Fin q => negb (Qeq_bool q 0)
  | PInf | NInf => true
  | NaN => false
  end.

(** [x || y] where [x : number | null] and [y : number]. *)
Definition or_else (x : option num) (y : num) : num :=
  match x with
  | Some v => if truthy v then v else y
  | None => y
  end.

(** [x || null] where [x : number | null | undefined]. *)
Definition or_null (x : option num) : option num :=
  match x with
  | Some v => if truthy v then Some v else None
  | None => None
  end.

(** Truthiness of a [string | undefined]: the empty string is falsy. *)
Definition truthy_str (s : option string) : bool :=
  match s with
  | Some EmptyString => false
  | Some _ => true
  | None => false
  end.

(** [x || null] where [x : string | undefined]. *)
Definition str_or_null (s : option string) : option string :=
  if truthy_str s then s else None.

(** [JSON.stringify] of a number, as the storage client sends it and as
    it comes back: a finite number travels as itself, NaN and the
    infinities become [null]. *)
Definition to_json (x : num) : option Q :=
  match x with
  | Fin q => Some q
  | _ => None
  end.

End JS.

Import JS.

(* ================================================================== *)
(** ** Types (src/types/index.ts) *)
(* ================================================================== *)

Inductive OptionType := call | put.
Inductive QuoteType := stock | option_ | etf | index.
Inductive MoneynessCategory := deep_itm | itm | atm | otm | deep_otm.
Inductive SignalStrength := high | medium | low.

(* ================================================================== *)
(** ** Metric calculator and classifier (src/utils/calculations.ts) *)
(* ================================================================== *)

(** [calculatePremium] *)
Definition calculatePremium (lastPrice volume contractSize : num) : num :=
  mul (mul lastPrice volume) contractSize.

(** [calculateBidAskSpread] *)
Definition calculateBidAskSpread (bid ask : num) : num :=
  if le bid (of_Z 0) || le ask (of_Z 0) then of_Z 0
  else
    let mid := div (add bid ask) (of_Z 2) in
    mul (div (sub ask bid) mid) (of_Z 100).

(** [calculateMoneyness] *)
Definition calculateMoneyness (strike underlyingPrice : num)
    (optionType : OptionType) : num :=
  match optionType with
  | call => mul (div (sub strike underlyingPrice) underlyingPrice) (of_Z 100)
  | put => mul (div (sub underlyingPrice strike) underlyingPrice) (of_Z 100)
  end.

(** [categorizeMoneyness] *)
Definition categorizeMoneyness (moneynessPercent : num) : MoneynessCategory :=
  let abs := JS.abs moneynessPercent in
  if lt moneynessPercent (of_Z (-10)) then deep_itm
  else if lt moneynessPercent (of_Z (-2)) then itm
  else if le abs (of_Z 2) then atm
  else if le moneynessPercent (of_Z 10) then otm
  else deep_otm.

(** [calculateSignalStrength] *)
Definition calculateSignalStrength
    (volumeOiRatio premium dte moneynessPercent : num) : SignalStrength :=
  let absMoneyness := JS.abs moneynessPercent in
  if ge volumeOiRatio (of_Z 5) && ge premium (of_Z 100000)
     && le dte (of_Z 30) && ge absMoneyness (of_Z 10)
  then high
  else if ge volumeOiRatio (of_Z 3) && ge premium (of_Z 25000)
          && le dte (of_Z 45)
  then medium
  else low.

(** [calculateMidPrice] *)
Definition calculateMidPrice (bid ask : num) : num :=
  if le bid (of_Z 0) || le ask (of_Z 0) then of_Z 0
  else div (add bid ask) (of_Z 2).

(** The result object of [calculatePnL]. *)
Record PnL := mkPnL { pnl_value : num; pnl_pctValue : num }.

(** [calculatePnL] *)
Definition calculatePnL (entryPrice exitPrice quantity contractSize : num)
  : PnL :=
  let pnl := mul (mul (sub exitPrice entryPrice) quantity) contractSize in
  let pnlPct := mul (div (sub exitPrice entryPrice) entryPrice) (of_Z 100) in
  {| pnl_value := div (round (mul pnl (of_Z 100))) (of_Z 100);
     pnl_pctValue := div (round (mul pnlPct (of_Z 100))) (of_Z 100) |}.

(** Why [meetsUnusualCriteria] rejected.  The source carries a formatted
    message; only its kind is kept here. *)
Inductive RejectReason :=
| VolumeBelowMinimum
| OpenInterestZero
| RatioBelowMinimum
| PremiumBelowMinimum
| DteOutsideRange.

(** The [config] argument of [meetsUnusualCriteria], which is also
    [SignalConfig].  Thresholds are numbers proper. *)
Record SignalConfig := mkSignalConfig {
  minPremium : Q;
  minVolumeOiRatio : Q;
  minAbsoluteVolume : Q;
  maxDte : Q;
  minOtmPercent : Q
}.

Record CriteriaCheck := mkCriteriaCheck {
  meets : bool;
  reason : option RejectReason
}.

(** [meetsUnusualCriteria] *)
Definition meetsUnusualCriteria (volume openInterest premium dte : num)
    (config : SignalConfig) : CriteriaCheck :=
  if lt volume (Fin (minAbsoluteVolume config)) then
    {| meets := false; reason := Some VolumeBelowMinimum |}
  else if le openInterest (of_Z 0) then
    {| meets := false; reason := Some OpenInterestZero |}
  else
    let volumeOiRatio := div volume openInterest in
    if lt volumeOiRatio (Fin (minVolumeOiRatio config)) then
      {| meets := false; reason := Some RatioBelowMinimum |}
    else if lt premium (Fin (minPremium config)) then
      {| meets := false; reason := Some PremiumBelowMinimum |}
    else if gt dte (Fin (maxDte config)) || lt dte (of_Z 0) then
      {| meets := false; reason := Some DteOutsideRange |}
    else {| meets := true; reason := None |}.

(** Database identities are UUIDs; they are modelled by numbers. *)
Definition uuid := N.

(** Instants are milliseconds since the epoch. *)
Definition instant := Z.

(** [TradierGreeks] *)
Module TradierGreeks.
Record t := mk {
  delta : Q;
  gamma : Q;
  theta : Q;
  vega : Q;
  rho : Q;
  phi : Q;
  bid_iv : Q;
  mid_iv : Q;
  ask_iv : Q;
  smv_vol : Q;
  updated_at : string
}.
End TradierGreeks.

(** [TradierQuote], decoded from JSON: its numbers are finite.  Only the
    fields the detector and the paper-trading service read are kept;
    [volume] is optional because the detector tests it against
    [undefined]. *)
Module TradierQuote.
Record t := mk {
  symbol : string;
  description : string;
  exch : string;
  type : QuoteType;
  last : Q;
  change : Q;
  volume : option Q;
  bid : Q;
  ask : Q;
  underlying : option string;
  strike : option Q;
  change_percentage : Q;
  trade_date : Q;
  bidsize : Q;
  asksize : Q;
  open_interest : option Q;
  contract_size : option Q;
  expiration_date : option string;
  option_type : option OptionType;
  greeks : option TradierGreeks.t
}.
End TradierQuote.

(** [UnusualSignal] *)
Module UnusualSignal.
Record t := mk {
  id : option uuid;
  symbol : string;
  ticker : string;
  description : option string;
  option_type : OptionType;
  strike : num;
  expiration_date : string;
  dte : num;
  contract_size : num;
  volume : num;
  open_interest : num;
  volume_oi_ratio : num;
  premium : num;
  last_price : num;
  bid : option num;
  ask : option num;
  bid_size : option num;
  ask_size : option num;
  bid_ask_spread_pct : option num;
  underlying_price : num;
  underlying_change : option num;
  underlying_change_pct : option num;
  delta : option num;
  gamma : option num;
  theta : option num;
  vega : option num;
  rho : option num;
  phi : option num;
  implied_volatility : option num;
  greeks_updated_at : option string;
  moneyness : option num;
  moneyness_category : option MoneynessCategory;
  signal_strength : option SignalStrength;
  detected_at : option instant;
  trade_date : option num;
  exchange : option string
}.
End UnusualSignal.

(* ================================================================== *)
(** ** Signal detector (src/services/signalDetector.ts) *)
(* ================================================================== *)

Definition is_option_quote (t : QuoteType) : bool :=
  match t with option_ => true | _ => false end.

Definition is_stock_or_etf (t : QuoteType) : bool :=
  match t with stock | etf => true | _ => false end.

(** [greeks?.f || null] *)
Definition greek (g : option TradierGreeks.t) (f : TradierGreeks.t -> Q)
  : option num :=
  match g with
  | Some g => or_null (Some (Fin (f g)))
  | None => None
  end.

Section Detector.

(** [calculateDTE] reads the clock and parses the date with date-fns;
    it is taken as given.  It returns a number of days, or NaN when the
    date does not parse ([differenceInDays] of an invalid date). *)
Variable calculateDTE : string -> num.

(** [SignalDetector.analyzeQuote] *)
Definition analyzeQuote (config : SignalConfig)
    (optionQuote underlyingQuote : TradierQuote.t)
  : option UnusualSignal.t :=
  match TradierQuote.option_type optionQuote with
  | None => None
  | Some option_type =>
  if negb (is_option_quote (TradierQuote.type optionQuote)) then None
  else if negb (is_stock_or_etf (TradierQuote.type underlyingQuote)) then None
  else
  let symbol := TradierQuote.symbol optionQuote in
  let description := TradierQuote.description optionQuote in
  let last := Fin (TradierQuote.last optionQuote) in
  let bid := Fin (TradierQuote.bid optionQuote) in
  let ask := Fin (TradierQuote.ask optionQuote) in
  let bidsize := Fin (TradierQuote.bidsize optionQuote) in
  let asksize := Fin (TradierQuote.asksize optionQuote) in
  let contract_size :=
    match TradierQuote.contract_size optionQuote with
    | Some c => Fin c
    | None => of_Z 100
    end in
  let greeks := TradierQuote.greeks optionQuote in
  let trade_date := Fin (TradierQuote.trade_date optionQuote) in
  let exch := TradierQuote.exch optionQuote in
  match TradierQuote.expiration_date optionQuote,
        TradierQuote.strike optionQuote,
        TradierQuote.volume optionQuote,
        TradierQuote.open_interest optionQuote,
        TradierQuote.underlying optionQuote with
  | Some expiration_date, Some strikeQ, Some volumeQ, Some oiQ,
    Some underlying =>
    if negb (truthy_str (Some expiration_date))
       || negb (truthy (Fin strikeQ))
       || negb (truthy_str (Some underlying))
    then None
    else
    let strike := Fin strikeQ in
    let volume := Fin volumeQ in
    let open_interest := Fin oiQ in
    let underlyingLast := Fin (TradierQuote.last underlyingQuote) in
    let dte := calculateDTE expiration_date in
    let premium := calculatePremium last volume contract_size in
    let volumeOiRatio :=
      if gt open_interest (of_Z 0) then div volume open_interest
      else of_Z 0 in
    let bidAskSpread :=
      if truthy bid && truthy ask
      then Some (calculateBidAskSpread bid ask) else None in
    let moneyness := calculateMoneyness strike underlyingLast option_type in
    let moneynessCategory := categorizeMoneyness moneyness in
    let signalStrength :=
      calculateSignalStrength volumeOiRatio premium dte moneyness in
    let criteriaCheck :=
      meetsUnusualCriteria volume open_interest premium dte config in
    if negb (meets criteriaCheck) then None
    else
    (* the minOtmPercent filter has an empty body: nothing is rejected *)
    Some {|
      UnusualSignal.id := None;
      UnusualSignal.symbol := symbol;
      UnusualSignal.ticker := underlying;
      UnusualSignal.description := str_or_null (Some description);
      UnusualSignal.option_type := option_type;
      UnusualSignal.strike := strike;
      UnusualSignal.expiration_date := expiration_date;
      UnusualSignal.dte := dte;
      UnusualSignal.contract_size := contract_size;
      UnusualSignal.volume := volume;
      UnusualSignal.open_interest := open_interest;
      UnusualSignal.volume_oi_ratio :=
        div (round (mul volumeOiRatio (of_Z 100))) (of_Z 100);
      UnusualSignal.premium :=
        div (round (mul premium (of_Z 100))) (of_Z 100);
      UnusualSignal.last_price := last;
      UnusualSignal.bid := or_null (Some bid);
      UnusualSignal.ask := or_null (Some ask);
      UnusualSignal.bid_size := or_null (Some bidsize);
      UnusualSignal.ask_size := or_null (Some asksize);
      UnusualSignal.bid_ask_spread_pct := bidAskSpread;
      UnusualSignal.underlying_price := underlyingLast;
      UnusualSignal.underlying_change :=
        or_null (Some (Fin (TradierQuote.change underlyingQuote)));
      UnusualSignal.underlying_change_pct :=
        or_null (Some (Fin (TradierQuote.change_percentage underlyingQuote)));
      UnusualSignal.delta := greek greeks TradierGreeks.delta;
      UnusualSignal.gamma := greek greeks TradierGreeks.gamma;
      UnusualSignal.theta := greek greeks TradierGreeks.theta;
      UnusualSignal.vega := greek greeks TradierGreeks.vega;
      UnusualSignal.rho := greek greeks TradierGreeks.rho;
      UnusualSignal.phi := greek greeks TradierGreeks.phi;
      UnusualSignal.implied_volatility :=
        match greek greeks TradierGreeks.mid_iv with
        | Some v => Some v
        | None => greek greeks TradierGreeks.smv_vol
        end;
      UnusualSignal.greeks_updated_at :=
        match greeks with
        | Some g => str_or_null (Some (TradierGreeks.updated_at g))
        | None => None
        end;
      UnusualSignal.moneyness :=
        Some (div (round (mul moneyness (of_Z 100))) (of_Z 100));
      UnusualSignal.moneyness_category := Some moneynessCategory;
      UnusualSignal.signal_strength := Some signalStrength;
      UnusualSignal.detected_at := None;
      UnusualSignal.trade_date := or_null (Some trade_date);
      UnusualSignal.exchange := str_or_null (Some exch)
    |}
  | _, _, _, _, _ => None
  end
  end.

(** [SignalDetector.analyzeMultipleQuotes] *)
Fixpoint analyzeMultipleQuotes (config : SignalConfig)
    (optionQuotes : list TradierQuote.t) (underlyingQuote : TradierQuote.t)
  : list UnusualSignal.t :=
  match optionQuotes with
  | [] => []
  | optionQuote :: rest =>
      match analyzeQuote config optionQuote underlyingQuote with
      | Some signal =>
          signal :: analyzeMultipleQuotes config rest underlyingQuote
      | None => analyzeMultipleQuotes config rest underlyingQuote
      end
  end.

End Detector.

(* ================================================================== *)
(** ** Paper trades: types (src/types/index.ts, paper_trades table) *)
(* ================================================================== *)

Inductive TradeDirection := long | short.

Module ExitReason.
Inductive t := manual | time_limit | expired | stop_loss | take_profit.
End ExitReason.

Module TradeStatus.
Inductive t := open | closed | expired.
End TradeStatus.

Module ExitStrategy.
Inductive t := time_limit | manual.
End ExitStrategy.

(** A [PaperTrade] as the database returns it (a row of [paper_trades],
    decoded from JSON: numbers are finite or [null]). *)
Module PaperTrade.
Record t := mk {
  id : uuid;
  signal_id : uuid;
  direction : TradeDirection;
  quantity : Z;
  entry_price : Q;
  entry_time : instant;
  entry_underlying_price : option Q;
  exit_price : option Q;
  exit_time : option instant;
  exit_underlying_price : option Q;
  exit_reason : option ExitReason.t;
  pnl : option Q;
  pnl_pct : option Q;
  max_pnl : option Q;
  max_pnl_pct : option Q;
  min_pnl : option Q;
  min_pnl_pct : option Q;
  status : TradeStatus.t;
  notes : option string;
  created_at : instant;
  updated_at : instant
}.
End PaperTrade.

(** [Omit<PaperTrade, 'id' | 'created_at' | 'updated_at'>]: what
    [enterTrade] hands to [createPaperTrade].  [signal_id] is
    [signal.id!], which may be undefined at run time. *)
Module NewPaperTrade.
Record t := mk {
  signal_id : option uuid;
  direction : TradeDirection;
  quantity : Z;
  entry_price : num;
  entry_underlying_price : option num;
  exit_price : option num;
  exit_time : option instant;
  exit_underlying_price : option num;
  exit_reason : option ExitReason.t;
  pnl : option num;
  pnl_pct : option num;
  max_pnl : option num;
  max_pnl_pct : option num;
  min_pnl : option num;
  min_pnl_pct : option num;
  status : TradeStatus.t;
  notes : option string
}.
End NewPaperTrade.

(** [Partial<PaperTrade>] restricted to the columns the service
    updates; [None] is an absent key. *)
Module TradeUpdates.
Record t := mk {
  exit_price : option num;
  exit_time : option instant;
  exit_underlying_price : option num;
  exit_reason : option ExitReason.t;
  pnl : option num;
  pnl_pct : option num;
  max_pnl : option num;
  max_pnl_pct : option num;
  min_pnl : option num;
  min_pnl_pct : option num;
  status : option TradeStatus.t
}.
End TradeUpdates.

(** A row of the [performance_summary] view. *)
Module PerformanceSummary.
Record t := mk {
  total_trades : Z;
  winning_trades : Z;
  losing_trades : Z;
  breakeven_trades : Z;
  avg_pnl : option Q;
  avg_pnl_pct : option Q;
  max_pnl : option Q;
  min_pnl : option Q;
  total_pnl : option Q;
  win_rate_pct : option Q
}.
End PerformanceSummary.

(** The result of [getPerformanceStats]. *)
Module PerformanceStats.
Record t := mk {
  totalTrades : num;
  openTrades : num;
  closedTrades : num;
  winningTrades : num;
  losingTrades : num;
  winRate : num;
  totalPnL : num;
  avgPnL : num;
  bestTrade : num;
  worstTrade : num
}.
End PerformanceStats.

(** [PaperTradeConfig] *)
Record PaperTradeConfig := mkPaperTradeConfig {
  autoEnter : bool;
  exitStrategy : ExitStrategy.t;
  timeLimitHours : Q;
  defaultQuantity : Z
}.

(** The defaults of the [PaperTradingService] constructor. *)
Definition defaultPaperTradeConfig : PaperTradeConfig :=
  {| autoEnter := true;
     exitStrategy := ExitStrategy.time_limit;
     timeLimitHours := 24;
     defaultQuantity := 1 |}.

(* ================================================================== *)
(** ** The world the services act on *)
(* ================================================================== *)

(** The two tables the paper-trading service touches, the clock, and the
    market-data API ([None]: the request fails).  The storage is
    reliable: a call fails only on a constraint or on a missing row.
    The precision and scale of the NUMERIC columns are not modelled by
    the storage functions: a value is stored as it is sent.  A statement
    that depends on a write being accepted and on the value it leaves
    assumes that the values sent fit their columns ([updates_fit] and
    [fits_numeric] below).  The clock stands still during a call and
    moves only in [sleep]. *)
Record World := mkWorld {
  unusual_signals : list UnusualSignal.t;
  paper_trades : list PaperTrade.t;
  now : instant;
  market : string -> option (list TradierQuote.t)
}.

Definition set_paper_trades (w : World) (rows : list PaperTrade.t) : World :=
  {| unusual_signals := unusual_signals w;
     paper_trades := rows;
     now := now w;
     market := market w |}.

Definition set_now (w : World) (t : instant) : World :=
  {| unusual_signals := unusual_signals w;
     paper_trades := paper_trades w;
     now := t;
     market := market w |}.

(** What can be thrown. *)
Inductive error :=
| PGRST116            (* .single(): no row, or more than one *)
| NotNullViolation    (* 23502 *)
| ForeignKeyViolation (* 23503 *)
| UniqueViolation     (* 23505 *)
| FetchFailed.        (* the market-data request failed *)

Inductive outcome (A : Type) :=
| Returned (a : A)
| Thrown (e : error).
Arguments Returned {A} a.
Arguments Thrown {A} e.

(** An asynchronous computation: it transforms the world and either
    returns or throws. *)
Definition IO (A : Type) : Type := World -> outcome A * World.

Definition ret {A} (a : A) : IO A := fun w => (Returned a, w).

Definition bind {A B} (m : IO A) (k : A -> IO B) : IO B :=
  fun w =>
    match m w with
    | (Returned a, w') => k a w'
    | (Thrown e, w') => (Thrown e, w')
    end.

(** [try { m } catch (error) { h error }] *)
Definition try_catch {A} (m : IO A) (h : error -> IO A) : IO A :=
  fun w =>
    match m w with
    | (Returned a, w') => (Returned a, w')
    | (Thrown e, w') => h e w'
    end.

Notation "x <- m ;; k" := (bind m (fun x => k))
  (at level 61, m at next level, right associativity).
Notation "m ;;; k" := (bind m (fun _ => k))
  (at level 61, right associativity).

(** [Date.now()] *)
Definition Date_now : IO instant := fun w => (Returned (now w), w).

(** [await new Promise(resolve => setTimeout(resolve, ms))] *)
Definition sleep (ms : Z) : IO unit :=
  fun w => (Returned tt, set_now w (now w + ms)).

(** [for (const x of xs) { body x }] *)
Fixpoint for_each {A} (xs : list A) (body : A -> IO unit) : IO unit :=
  match xs with
  | [] => ret tt
  | x :: rest => body x ;;; for_each rest body
  end.

(** [ORDER BY ... DESC]: [before a b] says that [a] sorts no later than
    [b]. *)
Fixpoint insert_sorted {A} (before : A -> A -> bool) (x : A) (l : list A)
  : list A :=
  match l with
  | [] => [x]
  | y :: l' => if before x y then x :: l else y :: insert_sorted before x l'
  end.

Definition order_by {A} (before : A -> A -> bool) (l : list A) : list A :=
  fold_right (insert_sorted before) [] l.

(** Descending order on nullable instants; NULL sorts first. *)
Definition desc_nullable (a b : option instant) : bool :=
  match a, b with
  | None, _ => true
  | Some _, None => false
  | Some x, Some y => y <=? x
  end.

(* ================================================================== *)
(** ** Storage (src/clients/supabase.ts over the SQL schema) *)
(* ================================================================== *)

(** Column values travel as JSON. *)
Definition json_opt (x : option num) : option Q :=
  match x with
  | Some v => to_json v
  | None => None
  end.

Definition pick {A} (update : option A) (old : option A) : option A :=
  match update with
  | Some v => Some v
  | None => old
  end.

Definition pick_num (update : option num) (old : option Q) : option Q :=
  match update with
  | Some v => to_json v
  | None => old
  end.

(** [UPDATE paper_trades SET ...] on one row; the trigger
    [update_paper_trades_updated_at] stamps [updated_at]. *)
Definition apply_updates (u : TradeUpdates.t) (at_ : instant)
    (r : PaperTrade.t) : PaperTrade.t :=
  {| PaperTrade.id := PaperTrade.id r;
     PaperTrade.signal_id := PaperTrade.signal_id r;
     PaperTrade.direction := PaperTrade.direction r;
     PaperTrade.quantity := PaperTrade.quantity r;
     PaperTrade.entry_price := PaperTrade.entry_price r;
     PaperTrade.entry_time := PaperTrade.entry_time r;
     PaperTrade.entry_underlying_price := PaperTrade.entry_underlying_price r;
     PaperTrade.exit_price :=
       pick_num (TradeUpdates.exit_price u) (PaperTrade.exit_price r);
     PaperTrade.exit_time :=
       pick (TradeUpdates.exit_time u) (PaperTrade.exit_time r);
     PaperTrade.exit_underlying_price :=
       pick_num (TradeUpdates.exit_underlying_price u)
                (PaperTrade.exit_underlying_price r);
     PaperTrade.exit_reason :=
       pick (TradeUpdates.exit_reason u) (PaperTrade.exit_reason r);
     PaperTrade.pnl := pick_num (TradeUpdates.pnl u) (PaperTrade.pnl r);
     PaperTrade.pnl_pct :=
       pick_num (TradeUpdates.pnl_pct u) (PaperTrade.pnl_pct r);
     PaperTrade.max_pnl :=
       pick_num (TradeUpdates.max_pnl u) (PaperTrade.max_pnl r);
     PaperTrade.max_pnl_pct :=
       pick_num (TradeUpdates.max_pnl_pct u) (PaperTrade.max_pnl_pct r);
     PaperTrade.min_pnl :=
       pick_num (TradeUpdates.min_pnl u) (PaperTrade.min_pnl r);
     PaperTrade.min_pnl_pct :=
       pick_num (TradeUpdates.min_pnl_pct u) (PaperTrade.min_pnl_pct r);
     PaperTrade.status :=
       match TradeUpdates.status u with
       | Some s => s
       | None => PaperTrade.status r
       end;
     PaperTrade.notes := PaperTrade.notes r;
     PaperTrade.created_at := PaperTrade.created_at r;
     PaperTrade.updated_at := at_ |}.

(** [uuid_generate_v4()]: an identity no row of the table has. *)
Definition fresh_uuid (rows : list PaperTrade.t) : uuid :=
  N.succ (fold_right N.max 0%N (map PaperTrade.id rows)).

Definition has_signal_id (sid : uuid) (r : PaperTrade.t) : bool :=
  N.eqb (PaperTrade.signal_id r) sid.

Definition has_id (i : uuid) (r : PaperTrade.t) : bool :=
  N.eqb (PaperTrade.id r) i.

Definition signal_has_id (sid : uuid) (s : UnusualSignal.t) : bool :=
  match UnusualSignal.id s with
  | Some i => N.eqb i sid
  | None => false
  end.

Definition is_open (r : PaperTrade.t) : bool :=
  match PaperTrade.status r with TradeStatus.open => true | _ => false end.

Definition is_closed (r : PaperTrade.t) : bool :=
  match PaperTrade.status r with TradeStatus.closed => true | _ => false end.

(** [SupabaseService.createPaperTrade]: the insert is refused when
    [signal_id] or [entry_price] is null (NOT NULL), when no signal has
    that identity (REFERENCES unusual_signals) or when a trade for the
    signal exists ([unique_trade]); the refusal is rethrown.  The
    defaults fill [id], [entry_time], [created_at] and [updated_at]. *)
Definition createPaperTrade (trade : NewPaperTrade.t)
  : IO (option PaperTrade.t) :=
  fun w =>
    match NewPaperTrade.signal_id trade,
          to_json (NewPaperTrade.entry_price trade) with
    | None, _ | _, None => (Thrown NotNullViolation, w)
    | Some sid, Some price =>
      if negb (existsb (signal_has_id sid) (unusual_signals w)) then
        (Thrown ForeignKeyViolation, w)
      else if existsb (has_signal_id sid) (paper_trades w) then
        (Thrown UniqueViolation, w)
      else
        let row :=
          {| PaperTrade.id := fresh_uuid (paper_trades w);
             PaperTrade.signal_id := sid;
             PaperTrade.direction := NewPaperTrade.direction trade;
             PaperTrade.quantity := NewPaperTrade.quantity trade;
             PaperTrade.entry_price := price;
             PaperTrade.entry_time := now w;
             PaperTrade.entry_underlying_price :=
               json_opt (NewPaperTrade.entry_underlying_price trade);
             PaperTrade.exit_price := json_opt (NewPaperTrade.exit_price trade);
             PaperTrade.exit_time := NewPaperTrade.exit_time trade;
             PaperTrade.exit_underlying_price :=
               json_opt (NewPaperTrade.exit_underlying_price trade);
             PaperTrade.exit_reason := NewPaperTrade.exit_reason trade;
             PaperTrade.pnl := json_opt (NewPaperTrade.pnl trade);
             PaperTrade.pnl_pct := json_opt (NewPaperTrade.pnl_pct trade);
             PaperTrade.max_pnl := json_opt (NewPaperTrade.max_pnl trade);
             PaperTrade.max_pnl_pct :=
               json_opt (NewPaperTrade.max_pnl_pct trade);
             PaperTrade.min_pnl := json_opt (NewPaperTrade.min_pnl trade);
             PaperTrade.min_pnl_pct :=
               json_opt (NewPaperTrade.min_pnl_pct trade);
             PaperTrade.status := NewPaperTrade.status trade;
             PaperTrade.notes := NewPaperTrade.notes trade;
             PaperTrade.created_at := now w;
             PaperTrade.updated_at := now w |} in
        (Returned (Some row), set_paper_trades w (paper_trades w ++ [row]))
    end.

(** [SupabaseService.updatePaperTrade]: [.update(updates).eq('id',
    tradeId).select().single()].  Unless exactly one row has the
    identity, [.single()] reports PGRST116, nothing is written, and the
    error is rethrown. *)
Definition updatePaperTrade (tradeId : uuid) (updates : TradeUpdates.t)
  : IO (option PaperTrade.t) :=
  fun w =>
    match filter (has_id tradeId) (paper_trades w) with
    | [r] =>
        let data := apply_updates updates (now w) r in
        (Returned (Some data),
         set_paper_trades w
           (map (fun x => if has_id tradeId x
                          then apply_updates updates (now w) x else x)
                (paper_trades w)))
    | _ => (Thrown PGRST116, w)
    end.

(** [SupabaseService.getOpenTrades] *)
Definition getOpenTrades : IO (list PaperTrade.t) :=
  fun w =>
    (Returned
       (order_by (fun a b => PaperTrade.entry_time b <=? PaperTrade.entry_time a)
                 (filter is_open (paper_trades w))),
     w).

(** [SupabaseService.getTradeBySignalId]: [null] when no row matches
    (PGRST116), and [null] again from the catch block on any other
    error. *)
Definition getTradeBySignalId (signalId : uuid) : IO (option PaperTrade.t) :=
  fun w =>
    match filter (has_signal_id signalId) (paper_trades w) with
    | [r] => (Returned (Some r), w)
    | _ => (Returned None, w)
    end.

(** [SupabaseService.getSignalsByTicker] *)
Definition getSignalsByTicker (ticker : string) (limit : nat)
  : IO (list UnusualSignal.t) :=
  fun w =>
    (Returned
       (firstn limit
          (order_by (fun a b => desc_nullable (UnusualSignal.detected_at a)
                                              (UnusualSignal.detected_at b))
             (filter (fun s => String.eqb (UnusualSignal.ticker s) ticker)
                     (unusual_signals w)))),
     w).

(** [TradierClient.getQuotes] *)
Definition getQuotes (symbols : string) : IO (list TradierQuote.t) :=
  fun w =>
    match market w symbols with
    | Some quotes => (Returned quotes, w)
    | None => (Thrown FetchFailed, w)
    end.

(** *** The [performance_summary] view *)

(** [ROUND(x, 2)] on NUMERIC: half away from zero. *)
Definition sql_round2 (x : Q) : Q :=
  if Qle_bool 0 x
  then Qred (inject_Z (Qfloor (x * 100 + (1 # 2))) / 100)
  else Qred (- (inject_Z (Qfloor (- x * 100 + (1 # 2))) / 100)).

(** The non-null values of a column. *)
Fixpoint non_null {A} (col : list (option A)) : list A :=
  match col with
  | [] => []
  | Some v :: rest => v :: non_null rest
  | None :: rest => non_null rest
  end.

Definition Qsum (l : list Q) : Q := fold_right Qplus 0%Q l.

Definition Qmax (a b : Q) : Q := if Qle_bool a b then b else a.
Definition Qmin (a b : Q) : Q := if Qle_bool a b then a else b.

(** SUM, AVG, MAX and MIN are NULL over no value. *)
Definition sql_sum (l : list Q) : option Q :=
  match l with [] => None | _ => Some (Qsum l) end.

Definition sql_avg (l : list Q) : option Q :=
  match l with
  | [] => None
  | _ => Some (Qsum l / inject_Z (Z.of_nat (List.length l)))%Q
  end.

Definition sql_max (l : list Q) : option Q :=
  match l with [] => None | x :: rest => Some (fold_right Qmax x rest) end.

Definition sql_min (l : list Q) : option Q :=
  match l with [] => None | x :: rest => Some (fold_right Qmin x rest) end.

(** [COUNT( * ) FILTER (WHERE status = 'closed' AND pnl <op> 0)] *)
Definition count_closed (test : Q -> bool) (rows : list PaperTrade.t) : Z :=
  Z.of_nat
    (List.length
       (filter (fun r => is_closed r &&
                         match PaperTrade.pnl r with
                         | Some p => test p
                         | None => false
                         end) rows)).

(** [CREATE VIEW performance_summary].  NUMERIC arithmetic is taken to
    be exact. *)
Definition performance_summary (rows : list PaperTrade.t)
  : PerformanceSummary.t :=
  let closed := filter is_closed rows in
  let pnls := non_null (map PaperTrade.pnl closed) in
  let pcts := non_null (map PaperTrade.pnl_pct closed) in
  let winning := count_closed (fun p => Qltb 0 p) rows in
  {| PerformanceSummary.total_trades := Z.of_nat (List.length rows);
     PerformanceSummary.winning_trades := winning;
     PerformanceSummary.losing_trades := count_closed (fun p => Qltb p 0) rows;
     PerformanceSummary.breakeven_trades :=
       count_closed (fun p => Qeq_bool p 0) rows;
     PerformanceSummary.avg_pnl := option_map sql_round2 (sql_avg pnls);
     PerformanceSummary.avg_pnl_pct := option_map sql_round2 (sql_avg pcts);
     PerformanceSummary.max_pnl := option_map sql_round2 (sql_max pnls);
     PerformanceSummary.min_pnl := option_map sql_round2 (sql_min pnls);
     PerformanceSummary.total_pnl := option_map sql_round2 (sql_sum pnls);
     PerformanceSummary.win_rate_pct :=
       match List.length closed with
       | O => None
       | n => Some (sql_round2
                      (inject_Z winning / inject_Z (Z.of_nat n) * 100)%Q)
       end |}.

(** [SupabaseService.getPerformanceSummary] *)
Definition getPerformanceSummary : IO (option PerformanceSummary.t) :=
  fun w => (Returned (Some (performance_summary (paper_trades w))), w).

(* ================================================================== *)
(** ** Paper-trading service (src/services/paperTrading.ts) *)
(* ================================================================== *)

Definition strength_text (s : option SignalStrength) : string :=
  match s with
  | Some high => "high"
  | Some medium => "medium"
  | Some low => "low"
  | None => "null"
  end.

Definition as_num (x : option Q) : option num := option_map Fin x.

Section PaperTradingService.

Variable config : PaperTradeConfig.

(** [new Date(s).getTime()] for a date string; parsing is taken as
    given. *)
Variable dateMs : string -> instant.

(** [PaperTradingService.enterTrade] *)
Definition enterTrade (signal : UnusualSignal.t) : IO (option PaperTrade.t) :=
  try_catch
    (existing <-
       match UnusualSignal.id signal with
       | Some sid => getTradeBySignalId sid
       | None => ret None
       end ;;
     match existing with
     | Some existingTrade => ret (Some existingTrade)
     | None =>
       let entryPrice :=
         match UnusualSignal.bid signal, UnusualSignal.ask signal with
         | Some bid, Some ask =>
             if truthy bid && truthy ask then calculateMidPrice bid ask
             else UnusualSignal.last_price signal
         | _, _ => UnusualSignal.last_price signal
         end in
       let trade :=
         {| NewPaperTrade.signal_id := UnusualSignal.id signal;
            NewPaperTrade.direction := long;
            NewPaperTrade.quantity := defaultQuantity config;
            NewPaperTrade.entry_price := entryPrice;
            NewPaperTrade.entry_underlying_price :=
              Some (UnusualSignal.underlying_price signal);
            NewPaperTrade.exit_price := None;
            NewPaperTrade.exit_time := None;
            NewPaperTrade.exit_underlying_price := None;
            NewPaperTrade.exit_reason := None;
            NewPaperTrade.pnl := None;
            NewPaperTrade.pnl_pct := None;
            NewPaperTrade.max_pnl := None;
            NewPaperTrade.max_pnl_pct := None;
            NewPaperTrade.min_pnl := None;
            NewPaperTrade.min_pnl_pct := None;
            NewPaperTrade.status := TradeStatus.open;
            NewPaperTrade.notes :=
              Some ("Auto-entered from "
                    ++ strength_text (UnusualSignal.signal_strength signal)
                    ++ " strength signal")%string |} in
       insertedTrade <- createPaperTrade trade ;;
       ret insertedTrade
     end)
    (fun _ => ret None).

(** [PaperTradingService.updateTrade] *)
Definition updateTrade (trade : PaperTrade.t)
    (currentPrice underlyingPrice : num) : IO unit :=
  try_catch
    (let r := calculatePnL (Fin (PaperTrade.entry_price trade)) currentPrice
                (of_Z (PaperTrade.quantity trade)) (of_Z 100) in
     let pnl := pnl_value r in
     let pnlPct := pnl_pctValue r in
     let maxPnl := JS.max (or_else (as_num (PaperTrade.max_pnl trade)) pnl) pnl in
     let minPnl := JS.min (or_else (as_num (PaperTrade.min_pnl trade)) pnl) pnl in
     let maxPnlPct :=
       JS.max (or_else (as_num (PaperTrade.max_pnl_pct trade)) pnlPct) pnlPct in
     let minPnlPct :=
       JS.min (or_else (as_num (PaperTrade.min_pnl_pct trade)) pnlPct) pnlPct in
     updatePaperTrade (PaperTrade.id trade)
       {| TradeUpdates.exit_price := None;
          TradeUpdates.exit_time := None;
          TradeUpdates.exit_underlying_price := None;
          TradeUpdates.exit_reason := None;
          TradeUpdates.pnl := None;
          TradeUpdates.pnl_pct := None;
          TradeUpdates.max_pnl := Some maxPnl;
          TradeUpdates.max_pnl_pct := Some maxPnlPct;
          TradeUpdates.min_pnl := Some minPnl;
          TradeUpdates.min_pnl_pct := Some minPnlPct;
          TradeUpdates.status := None |} ;;;
     ret tt)
    (fun _ => ret tt).

(** [PaperTradingService.exitTrade] *)
Definition exitTrade (trade : PaperTrade.t) (exitPrice underlyingPrice : num)
    (reason : ExitReason.t) : IO (option PaperTrade.t) :=
  try_catch
    (let r := calculatePnL (Fin (PaperTrade.entry_price trade)) exitPrice
                (of_Z (PaperTrade.quantity trade)) (of_Z 100) in
     let pnl := pnl_value r in
     let pnlPct := pnl_pctValue r in
     exitTime <- Date_now ;;
     updatedTrade <-
       updatePaperTrade (PaperTrade.id trade)
         {| TradeUpdates.exit_price := Some exitPrice;
            TradeUpdates.exit_time := Some exitTime;
            TradeUpdates.exit_underlying_price := Some underlyingPrice;
            TradeUpdates.exit_reason := Some reason;
            TradeUpdates.pnl := Some pnl;
            TradeUpdates.pnl_pct := Some pnlPct;
            TradeUpdates.max_pnl := None;
            TradeUpdates.max_pnl_pct := None;
            TradeUpdates.min_pnl := None;
            TradeUpdates.min_pnl_pct := None;
            TradeUpdates.status := Some TradeStatus.closed |} ;;
     ret updatedTrade)
    (fun _ => ret None).

(** The auto-exit checks that end the loop body of
    [monitorOpenTrades]: the time limit, then the expiration. *)
Definition autoExit (trade : PaperTrade.t) (signal : UnusualSignal.t)
    (currentPrice underlyingPrice : num) : IO unit :=
  match exitStrategy config with
  | ExitStrategy.time_limit =>
      let entryTime := PaperTrade.entry_time trade in
      now <- Date_now ;;
      let hoursOpen :=
        div (of_Z (now - entryTime)) (of_Z (1000 * 60 * 60)) in
      if ge hoursOpen (Fin (timeLimitHours config)) then
        exitTrade trade currentPrice underlyingPrice ExitReason.time_limit ;;;
        ret tt
      else ret tt
  | ExitStrategy.manual => ret tt
  end ;;;
  now <- Date_now ;;
  let daysToExpiry :=
    floor (div (of_Z (dateMs (UnusualSignal.expiration_date signal) - now))
               (of_Z (1000 * 60 * 60 * 24))) in
  if le daysToExpiry (of_Z 0) then
    exitTrade trade currentPrice underlyingPrice ExitReason.expired ;;;
    ret tt
  else ret tt.

(** The body of the loop of [monitorOpenTrades], for one trade of the
    list fetched at the start of the pass. *)
Definition monitorTrade (trade : PaperTrade.t) : IO unit :=
  try_catch
    (signals <- getSignalsByTicker "" 1000 ;;
     match find (signal_has_id (PaperTrade.signal_id trade)) signals with
     | None => ret tt
     | Some signal =>
       quotes <- getQuotes (UnusualSignal.symbol signal) ;;
       match quotes with
       | [] => ret tt
       | quote :: _ =>
         let bid := Fin (TradierQuote.bid quote) in
         let ask := Fin (TradierQuote.ask quote) in
         let currentPrice :=
           if truthy bid && truthy ask then calculateMidPrice bid ask
           else Fin (TradierQuote.last quote) in
         underlyingQuotes <- getQuotes (UnusualSignal.ticker signal) ;;
         let underlyingPrice :=
           or_else (match underlyingQuotes with
                    | u :: _ => Some (Fin (TradierQuote.last u))
                    | [] => None
                    end) (of_Z 0) in
         (* the profit computed here is only printed *)
         updateTrade trade currentPrice underlyingPrice ;;;
         autoExit trade signal currentPrice underlyingPrice ;;;
         sleep 500
       end
     end)
    (fun _ => ret tt).

(** [PaperTradingService.monitorOpenTrades] *)
Definition monitorOpenTrades : IO unit :=
  try_catch
    (openTrades <- getOpenTrades ;;
     match openTrades with
     | [] => ret tt
     | _ => for_each openTrades monitorTrade
     end)
    (fun _ => ret tt).

(** [summary?.field || 0] *)
Definition field_or_zero {A} (summary : option A) (field : A -> option num)
  : num :=
  or_else (match summary with Some s => field s | None => None end) (of_Z 0).

(** [PaperTradingService.getPerformanceStats] *)
Definition getPerformanceStats : IO PerformanceStats.t :=
  try_catch
    (summary <- getPerformanceSummary ;;
     let total_trades :=
       field_or_zero summary
         (fun s => Some (of_Z (PerformanceSummary.total_trades s))) in
     let winning_trades :=
       field_or_zero summary
         (fun s => Some (of_Z (PerformanceSummary.winning_trades s))) in
     let losing_trades :=
       field_or_zero summary
         (fun s => Some (of_Z (PerformanceSummary.losing_trades s))) in
     ret {| PerformanceStats.totalTrades := total_trades;
            PerformanceStats.openTrades :=
              sub (sub total_trades winning_trades) losing_trades;
            PerformanceStats.closedTrades := add winning_trades losing_trades;
            PerformanceStats.winningTrades := winning_trades;
            PerformanceStats.losingTrades := losing_trades;
            PerformanceStats.winRate :=
              field_or_zero summary
                (fun s => as_num (PerformanceSummary.win_rate_pct s));
            PerformanceStats.totalPnL :=
              field_or_zero summary
                (fun s => as_num (PerformanceSummary.total_pnl s));
            PerformanceStats.avgPnL :=
              field_or_zero summary
                (fun s => as_num (PerformanceSummary.avg_pnl s));
            PerformanceStats.bestTrade :=
              field_or_zero summary
                (fun s => as_num (PerformanceSummary.max_pnl s));
            PerformanceStats.worstTrade :=
              field_or_zero summary
                (fun s => as_num (PerformanceSummary.min_pnl s)) |})
    (fun _ =>
       ret {| PerformanceStats.totalTrades := of_Z 0;
              PerformanceStats.openTrades := of_Z 0;
              PerformanceStats.closedTrades := of_Z 0;
              PerformanceStats.winningTrades := of_Z 0;
              PerformanceStats.losingTrades := of_Z 0;
              PerformanceStats.winRate := of_Z 0;
              PerformanceStats.totalPnL := of_Z 0;
              PerformanceStats.avgPnL := of_Z 0;
              PerformanceStats.bestTrade := of_Z 0;
              PerformanceStats.worstTrade := of_Z 0 |}).

(** [PaperTradingService.autoEnterSignals] *)
Fixpoint enterEach (signals : list UnusualSignal.t) : IO (list PaperTrade.t) :=
  match signals with
  | [] => ret []
  | signal :: rest =>
      match UnusualSignal.id signal with
      | None => enterEach rest
      | Some _ =>
          trade <- enterTrade signal ;;
          trades <- enterEach rest ;;
          ret (match trade with
               | Some t => t :: trades
               | None => trades
               end)
      end
  end.

Definition autoEnterSignals (signals : list UnusualSignal.t)
  : IO (list PaperTrade.t) :=
  if negb (autoEnter config) then ret [] else enterEach signals.

End PaperTradingService.

(* ================================================================== *)
(** ** Vocabulary of the statements *)
(* ================================================================== *)

(** What the days-to-expiration test of [meetsUnusualCriteria] lets
    through: a number of days from 0 to [maxDte], and NaN. *)
Definition dte_passes (config : SignalConfig) (dte : num) : Prop :=
  dte = NaN \/
  exists d : Q, dte = Fin d /\ (0 <= d)%Q /\ (d <= maxDte config)%Q.

(** The five checks of [meetsUnusualCriteria], as propositions. *)
Definition passes_all_five (config : SignalConfig)
    (volume openInterest premium : Q) (dte : num) : Prop :=
  (minAbsoluteVolume config <= volume)%Q /\
  (0 < openInterest)%Q /\
  (minVolumeOiRatio config <= volume / openInterest)%Q /\
  (minPremium config <= premium)%Q /\
  dte_passes config dte.

(** [contract_size = 100] in the destructuring of the option quote. *)
Definition contractSizeOf (optionQuote : TradierQuote.t) : Q :=
  match TradierQuote.contract_size optionQuote with
  | Some c => c
  | None => 100
  end.

(** The same quote with one field replaced. *)
Definition with_volume (q : TradierQuote.t) (v : Q) : TradierQuote.t :=
  {| TradierQuote.symbol := TradierQuote.symbol q;
     TradierQuote.description := TradierQuote.description q;
     TradierQuote.exch := TradierQuote.exch q;
     TradierQuote.type := TradierQuote.type q;
     TradierQuote.last := TradierQuote.last q;
     TradierQuote.change := TradierQuote.change q;
     TradierQuote.volume := Some v;
     TradierQuote.bid := TradierQuote.bid q;
     TradierQuote.ask := TradierQuote.ask q;
     TradierQuote.underlying := TradierQuote.underlying q;
     TradierQuote.strike := TradierQuote.strike q;
     TradierQuote.change_percentage := TradierQuote.change_percentage q;
     TradierQuote.trade_date := TradierQuote.trade_date q;
     TradierQuote.bidsize := TradierQuote.bidsize q;
     TradierQuote.asksize := TradierQuote.asksize q;
     TradierQuote.open_interest := TradierQuote.open_interest q;
     TradierQuote.contract_size := TradierQuote.contract_size q;
     TradierQuote.expiration_date := TradierQuote.expiration_date q;
     TradierQuote.option_type := TradierQuote.option_type q;
     TradierQuote.greeks := TradierQuote.greeks q |}.

Definition with_open_interest (q : TradierQuote.t) (oi : Q) : TradierQuote.t :=
  {| TradierQuote.symbol := TradierQuote.symbol q;
     TradierQuote.description := TradierQuote.description q;
     TradierQuote.exch := TradierQuote.exch q;
     TradierQuote.type := TradierQuote.type q;
     TradierQuote.last := TradierQuote.last q;
     TradierQuote.change := TradierQuote.change q;
     TradierQuote.volume := TradierQuote.volume q;
     TradierQuote.bid := TradierQuote.bid q;
     TradierQuote.ask := TradierQuote.ask q;
     TradierQuote.underlying := TradierQuote.underlying q;
     TradierQuote.strike := TradierQuote.strike q;
     TradierQuote.change_percentage := TradierQuote.change_percentage q;
     TradierQuote.trade_date := TradierQuote.trade_date q;
     TradierQuote.bidsize := TradierQuote.bidsize q;
     TradierQuote.asksize := TradierQuote.asksize q;
     TradierQuote.open_interest := Some oi;
     TradierQuote.contract_size := TradierQuote.contract_size q;
     TradierQuote.expiration_date := TradierQuote.expiration_date q;
     TradierQuote.option_type := TradierQuote.option_type q;
     TradierQuote.greeks := TradierQuote.greeks q |}.

Definition with_last (q : TradierQuote.t) (l : Q) : TradierQuote.t :=
  {| TradierQuote.symbol := TradierQuote.symbol q;
     TradierQuote.description := TradierQuote.description q;
     TradierQuote.exch := TradierQuote.exch q;
     TradierQuote.type := TradierQuote.type q;
     TradierQuote.last := l;
     TradierQuote.change := TradierQuote.change q;
     TradierQuote.volume := TradierQuote.volume q;
     TradierQuote.bid := TradierQuote.bid q;
     TradierQuote.ask := TradierQuote.ask q;
     TradierQuote.underlying := TradierQuote.underlying q;
     TradierQuote.strike := TradierQuote.strike q;
     TradierQuote.change_percentage := TradierQuote.change_percentage q;
     TradierQuote.trade_date := TradierQuote.trade_date q;
     TradierQuote.bidsize := TradierQuote.bidsize q;
     TradierQuote.asksize := TradierQuote.asksize q;
     TradierQuote.open_interest := TradierQuote.open_interest q;
     TradierQuote.contract_size := TradierQuote.contract_size q;
     TradierQuote.expiration_date := TradierQuote.expiration_date q;
     TradierQuote.option_type := TradierQuote.option_type q;
     TradierQuote.greeks := TradierQuote.greeks q |}.

Definition with_expiration_date (q : TradierQuote.t) (d : string)
  : TradierQuote.t :=
  {| TradierQuote.symbol := TradierQuote.symbol q;
     TradierQuote.description := TradierQuote.description q;
     TradierQuote.exch := TradierQuote.exch q;
     TradierQuote.type := TradierQuote.type q;
     TradierQuote.last := TradierQuote.last q;
     TradierQuote.change := TradierQuote.change q;
     TradierQuote.volume := TradierQuote.volume q;
     TradierQuote.bid := TradierQuote.bid q;
     TradierQuote.ask := TradierQuote.ask q;
     TradierQuote.underlying := TradierQuote.underlying q;
     TradierQuote.strike := TradierQuote.strike q;
     TradierQuote.change_percentage := TradierQuote.change_percentage q;
     TradierQuote.trade_date := TradierQuote.trade_date q;
     TradierQuote.bidsize := TradierQuote.bidsize q;
     TradierQuote.asksize := TradierQuote.asksize q;
     TradierQuote.open_interest := TradierQuote.open_interest q;
     TradierQuote.contract_size := TradierQuote.contract_size q;
     TradierQuote.expiration_date := Some d;
     TradierQuote.option_type := TradierQuote.option_type q;
     TradierQuote.greeks := TradierQuote.greeks q |}.

(** The metrics [analyzeQuote] computes before rounding. *)
Definition rawVolumeOiRatio (volume openInterest : Q) : num :=
  if gt (Fin openInterest) (of_Z 0) then div (Fin volume) (Fin openInterest)
  else of_Z 0.

(** [Math.round(x * 100) / 100] *)
Definition roundCents (x : num) : num :=
  div (round (mul x (of_Z 100))) (of_Z 100).


(** The signal as the storage returns it once inserted: with its
    identity and detection time. *)
Definition persisted (s : UnusualSignal.t) (sid : uuid) (at_ : instant)
  : UnusualSignal.t :=
  {| UnusualSignal.id := Some sid;
     UnusualSignal.symbol := UnusualSignal.symbol s;
     UnusualSignal.ticker := UnusualSignal.ticker s;
     UnusualSignal.description := UnusualSignal.description s;
     UnusualSignal.option_type := UnusualSignal.option_type s;
     UnusualSignal.strike := UnusualSignal.strike s;
     UnusualSignal.expiration_date := UnusualSignal.expiration_date s;
     UnusualSignal.dte := UnusualSignal.dte s;
     UnusualSignal.contract_size := UnusualSignal.contract_size s;
     UnusualSignal.volume := UnusualSignal.volume s;
     UnusualSignal.open_interest := UnusualSignal.open_interest s;
     UnusualSignal.volume_oi_ratio := UnusualSignal.volume_oi_ratio s;
     UnusualSignal.premium := UnusualSignal.premium s;
     UnusualSignal.last_price := UnusualSignal.last_price s;
     UnusualSignal.bid := UnusualSignal.bid s;
     UnusualSignal.ask := UnusualSignal.ask s;
     UnusualSignal.bid_size := UnusualSignal.bid_size s;
     UnusualSignal.ask_size := UnusualSignal.ask_size s;
     UnusualSignal.bid_ask_spread_pct := UnusualSignal.bid_ask_spread_pct s;
     UnusualSignal.underlying_price := UnusualSignal.underlying_price s;
     UnusualSignal.underlying_change := UnusualSignal.underlying_change s;
     UnusualSignal.underlying_change_pct :=
       UnusualSignal.underlying_change_pct s;
     UnusualSignal.delta := UnusualSignal.delta s;
     UnusualSignal.gamma := UnusualSignal.gamma s;
     UnusualSignal.theta := UnusualSignal.theta s;
     UnusualSignal.vega := UnusualSignal.vega s;
     UnusualSignal.rho := UnusualSignal.rho s;
     UnusualSignal.phi := UnusualSignal.phi s;
     UnusualSignal.implied_volatility := UnusualSignal.implied_volatility s;
     UnusualSignal.greeks_updated_at := UnusualSignal.greeks_updated_at s;
     UnusualSignal.moneyness := UnusualSignal.moneyness s;
     UnusualSignal.moneyness_category := UnusualSignal.moneyness_category s;
     UnusualSignal.signal_strength := UnusualSignal.signal_strength s;
     UnusualSignal.detected_at := Some at_;
     UnusualSignal.trade_date := UnusualSignal.trade_date s;
     UnusualSignal.exchange := UnusualSignal.exchange s |}.

(* ================================================================== *)
(** ** Sample data *)
(* ================================================================== *)

Module Sample.

(** The default thresholds of [loadConfig]. *)
Definition config : SignalConfig :=
  {| minPremium := 25000;
     minVolumeOiRatio := 3;
     minAbsoluteVolume := 100;
     maxDte := 45;
     minOtmPercent := 10 |}.

(** Thresholds with no minimum premium. *)
Definition configNoPremium : SignalConfig :=
  {| minPremium := 0;
     minVolumeOiRatio := 3;
     minAbsoluteVolume := 100;
     maxDte := 45;
     minOtmPercent := 10 |}.

(** Ten days to expiration, whatever the date. *)
Definition tenDays : string -> num := fun _ => of_Z 10.

(** Ten days to expiration for a date of the form YYYY-MM-DD, NaN for
    any other string. *)
Definition isoDays : string -> num :=
  fun d =>
    match list_ascii_of_string d with
    | [y1; y2; y3; y4; "-"%char; m1; m2; "-"%char; d1; d2] =>
        if forallb (fun c => (48 <=? nat_of_ascii c)%nat
                             && (nat_of_ascii c <=? 57)%nat)
                   [y1; y2; y3; y4; m1; m2; d1; d2]
        then of_Z 10 else NaN
    | _ => NaN
    end.

(** An NVDA 175 call. *)
Definition optionQuote (last bid ask volume openInterest : Q)
  : TradierQuote.t :=
  {| TradierQuote.symbol := "NVDA250919C00175000";
     TradierQuote.description := "NVDA Sep 19 2025 $175.00 Call";
     TradierQuote.exch := "Z";
     TradierQuote.type := option_;
     TradierQuote.last := last;
     TradierQuote.change := 0;
     TradierQuote.volume := Some volume;
     TradierQuote.bid := bid;
     TradierQuote.ask := ask;
     TradierQuote.underlying := Some "NVDA"%string;
     TradierQuote.strike := Some 175%Q;
     TradierQuote.change_percentage := 0;
     TradierQuote.trade_date := 1757000000000;
     TradierQuote.bidsize := 10;
     TradierQuote.asksize := 12;
     TradierQuote.open_interest := Some openInterest;
     TradierQuote.contract_size := Some 100%Q;
     TradierQuote.expiration_date := Some "2025-09-19"%string;
     TradierQuote.option_type := Some call;
     TradierQuote.greeks := None |}.

(** Last 2.345, bid 2.30, ask 2.40, volume 1000 on an open interest of
    100. *)
Definition nvdaCall : TradierQuote.t :=
  optionQuote (469 # 200) (23 # 10) (12 # 5) 1000 100.

(** The same contract quoted with a negative bid. *)
Definition negativeBidCall : TradierQuote.t :=
  optionQuote 5 (-1) (26 # 5) 1000 100.

(** The same contract with no bid, no ask and a last price of 0. *)
Definition unquotedCall : TradierQuote.t :=
  optionQuote 0 0 0 1000 100.

Definition nvda : TradierQuote.t :=
  {| TradierQuote.symbol := "NVDA";
     TradierQuote.description := "NVIDIA Corp";
     TradierQuote.exch := "Q";
     TradierQuote.type := stock;
     TradierQuote.last := 150;
     TradierQuote.change := 3 # 2;
     TradierQuote.volume := Some 1000000%Q;
     TradierQuote.bid := 1499 # 10;
     TradierQuote.ask := 1501 # 10;
     TradierQuote.underlying := None;
     TradierQuote.strike := None;
     TradierQuote.change_percentage := 1;
     TradierQuote.trade_date := 1757000000000;
     TradierQuote.bidsize := 1;
     TradierQuote.asksize := 1;
     TradierQuote.open_interest := None;
     TradierQuote.contract_size := None;
     TradierQuote.expiration_date := None;
     TradierQuote.option_type := None;
     TradierQuote.greeks := None |}.

(** No market data. *)
Definition noMarket : string -> option (list TradierQuote.t) :=
  fun _ => None.

(** A world holding the given signals and trades at instant [t]. *)
Definition world (signals : list UnusualSignal.t)
    (trades : list PaperTrade.t) (t : instant) : World :=
  {| unusual_signals := signals;
     paper_trades := trades;
     now := t;
     market := noMarket |}.

(** One hour, in milliseconds. *)
Definition hour : Z := 1000 * 60 * 60.

(** A trade on signal [sid], entered at instant 0 at the given price. *)
Definition trade (i sid : uuid) (entry : Q) (st : TradeStatus.t)
    (exitPrice : option Q) (reason : option ExitReason.t)
    (pnl pnlPct maxPnl minPnl : option Q) : PaperTrade.t :=
  {| PaperTrade.id := i;
     PaperTrade.signal_id := sid;
     PaperTrade.direction := long;
     PaperTrade.quantity := 1;
     PaperTrade.entry_price := entry;
     PaperTrade.entry_time := 0;
     PaperTrade.entry_underlying_price := Some 150%Q;
     PaperTrade.exit_price := exitPrice;
     PaperTrade.exit_time :=
       match exitPrice with Some _ => Some hour | None => None end;
     PaperTrade.exit_underlying_price :=
       match exitPrice with Some _ => Some 151%Q | None => None end;
     PaperTrade.exit_reason := reason;
     PaperTrade.pnl := pnl;
     PaperTrade.pnl_pct := pnlPct;
     PaperTrade.max_pnl := maxPnl;
     PaperTrade.max_pnl_pct := None;
     PaperTrade.min_pnl := minPnl;
     PaperTrade.min_pnl_pct := None;
     PaperTrade.status := st;
     PaperTrade.notes := None;
     PaperTrade.created_at := 0;
     PaperTrade.updated_at :=
       match exitPrice with Some _ => hour | None => 0 end |}.

(** The signal of [nvdaCall], stored with identity 1. *)
Definition storedSignal (ticker : string) : UnusualSignal.t :=
  {| UnusualSignal.id := Some 1%N;
     UnusualSignal.symbol := "NVDA250919C00175000";
     UnusualSignal.ticker := ticker;
     UnusualSignal.description := Some "NVDA Sep 19 2025 $175.00 Call"%string;
     UnusualSignal.option_type := call;
     UnusualSignal.strike := Fin 175;
     UnusualSignal.expiration_date := "2025-09-19";
     UnusualSignal.dte := Fin 10;
     UnusualSignal.contract_size := Fin 100;
     UnusualSignal.volume := Fin 1000;
     UnusualSignal.open_interest := Fin 100;
     UnusualSignal.volume_oi_ratio := Fin 10;
     UnusualSignal.premium := Fin 234500;
     UnusualSignal.last_price := Fin (469 # 200);
     UnusualSignal.bid := Some (Fin (23 # 10));
     UnusualSignal.ask := Some (Fin (12 # 5));
     UnusualSignal.bid_size := Some (Fin 10);
     UnusualSignal.ask_size := Some (Fin 12);
     UnusualSignal.bid_ask_spread_pct := Some (Fin (200 # 47));
     UnusualSignal.underlying_price := Fin 150;
     UnusualSignal.underlying_change := Some (Fin (3 # 2));
     UnusualSignal.underlying_change_pct := Some (Fin 1);
     UnusualSignal.delta := None;
     UnusualSignal.gamma := None;
     UnusualSignal.theta := None;
     UnusualSignal.vega := None;
     UnusualSignal.rho := None;
     UnusualSignal.phi := None;
     UnusualSignal.implied_volatility := None;
     UnusualSignal.greeks_updated_at := None;
     UnusualSignal.moneyness := Some (Fin (1667 # 100));
     UnusualSignal.moneyness_category := Some deep_otm;
     UnusualSignal.signal_strength := Some high;
     UnusualSignal.detected_at := Some 0;
     UnusualSignal.trade_date := Some (Fin 1757000000000);
     UnusualSignal.exchange := Some "Z"%string |}.

(** An open trade on signal 1, entered at 2.00 at instant 0, whose
    running extrema are given. *)
Definition openTrade (maxPnl minPnl : option Q) : PaperTrade.t :=
  trade 1%N 1%N 2 TradeStatus.open None None None None maxPnl minPnl.

(** A trade on signal [sid] closed by hand at the given price, with the
    given profit in dollars and in percent. *)
Definition closedTrade (i sid : uuid) (exitPrice pnl pnlPct : Q)
  : PaperTrade.t :=
  trade i sid 2 TradeStatus.closed (Some exitPrice) (Some ExitReason.manual)
        (Some pnl) (Some pnlPct) None None.

(** Trade 1 on signal 1, closed by hand at 3.00 with a profit of 100,
    and the same trade marked expired. *)
Definition closed1 : PaperTrade.t := closedTrade 1%N 1%N 3 100 50.
Definition expired1 : PaperTrade.t :=
  trade 1%N 1%N 2 TradeStatus.expired (Some 3%Q) (Some ExitReason.expired)
        (Some 100%Q) (Some 50%Q) None None.

(** Three closed trades with profits 100, -50 and 0. *)
Definition threeClosed : list PaperTrade.t :=
  [closedTrade 1%N 1%N 3 100 50;
   closedTrade 2%N 2%N (3 # 2) (-50) (-25);
   closedTrade 3%N 3%N 2 0 0].

(** Twenty-five hours after instant 0. *)
Definition after25h : instant := 25 * hour.

(** An open trade whose running extrema are both 0. *)
Definition flatTrade : PaperTrade.t := openTrade (Some 0%Q) (Some 0%Q).

(** The expiration date is instant 0: every contract has expired. *)
Definition expiredAtZero : string -> instant := fun _ => 0.

(** The expiration date is thirty days after instant 0. *)
Definition expiresInThirtyDays : string -> instant :=
  fun _ => 30 * 24 * hour.

(** A market quoting the NVDA call at 2.30 / 2.40 and NVDA at 150. *)
Definition nvdaMarket : string -> option (list TradierQuote.t) :=
  fun symbol =>
    if String.eqb symbol "NVDA250919C00175000" then Some [nvdaCall]
    else if String.eqb symbol "NVDA" then Some [nvda]
    else Some [].

(** The stored NVDA signal and its open trade, twenty-five hours after
    the entry, with a live market. *)
Definition monitoredWorld (ticker : string) : World :=
  {| unusual_signals := [storedSignal ticker];
     paper_trades := [openTrade None None];
     now := after25h;
     market := nvdaMarket |}.

End Sample.

(** The entry price [enterTrade] computes and the row it asks the
    storage to insert. *)
Definition entryPriceOf (signal : UnusualSignal.t) : num :=
  match UnusualSignal.bid signal, UnusualSignal.ask signal with
  | Some bid, Some ask =>
      if truthy bid && truthy ask then calculateMidPrice bid ask
      else UnusualSignal.last_price signal
  | _, _ => UnusualSignal.last_price signal
  end.

Definition newTradeOf (config : PaperTradeConfig) (signal : UnusualSignal.t)
  : NewPaperTrade.t :=
  {| NewPaperTrade.signal_id := UnusualSignal.id signal;
     NewPaperTrade.direction := long;
     NewPaperTrade.quantity := defaultQuantity config;
     NewPaperTrade.entry_price := entryPriceOf signal;
     NewPaperTrade.entry_underlying_price :=
       Some (UnusualSignal.underlying_price signal);
     NewPaperTrade.exit_price := None;
     NewPaperTrade.exit_time := None;
     NewPaperTrade.exit_underlying_price := None;
     NewPaperTrade.exit_reason := None;
     NewPaperTrade.pnl := None;
     NewPaperTrade.pnl_pct := None;
     NewPaperTrade.max_pnl := None;
     NewPaperTrade.max_pnl_pct := None;
     NewPaperTrade.min_pnl := None;
     NewPaperTrade.min_pnl_pct := None;
     NewPaperTrade.status := TradeStatus.open;
     NewPaperTrade.notes :=
       Some ("Auto-entered from "
             ++ strength_text (UnusualSignal.signal_strength signal)
             ++ " strength signal")%string |}.

(** The updates [exitTrade] sends. *)
Definition exitUpdates (trade : PaperTrade.t) (exitPrice underlyingPrice : num)
    (reason : ExitReason.t) (at_ : instant) : TradeUpdates.t :=
  let r := calculatePnL (Fin (PaperTrade.entry_price trade)) exitPrice
             (of_Z (PaperTrade.quantity trade)) (of_Z 100) in
  {| TradeUpdates.exit_price := Some exitPrice;
     TradeUpdates.exit_time := Some at_;
     TradeUpdates.exit_underlying_price := Some underlyingPrice;
     TradeUpdates.exit_reason := Some reason;
     TradeUpdates.pnl := Some (pnl_value r);
     TradeUpdates.pnl_pct := Some (pnl_pctValue r);
     TradeUpdates.max_pnl := None;
     TradeUpdates.max_pnl_pct := None;
     TradeUpdates.min_pnl := None;
     TradeUpdates.min_pnl_pct := None;
     TradeUpdates.status := Some TradeStatus.closed |}.

(** A trade is in a terminal state. *)
Definition terminal (t : PaperTrade.t) : Prop :=
  PaperTrade.status t = TradeStatus.closed \/
  PaperTrade.status t = TradeStatus.expired.

(** [hoursOpen] and [daysToExpiry] of the monitoring pass, as exact
    numbers. *)
Definition hoursOpenOf (trade : PaperTrade.t) (t : instant) : Q :=
  inject_Z (t - PaperTrade.entry_time trade) / inject_Z (1000 * 60 * 60).

Definition daysToExpiryOf (dateMs : string -> instant)
    (signal : UnusualSignal.t) (t : instant) : Z :=
  Qfloor (inject_Z (dateMs (UnusualSignal.expiration_date signal) - t)
          / inject_Z (1000 * 60 * 60 * 24)).

(** The row after an exit, and the table after the exit of the row with
    the trade's identity. *)
Definition exitedRow (trade : PaperTrade.t) (exitPrice underlyingPrice : num)
    (reason : ExitReason.t) (at_ : instant) (r : PaperTrade.t)
  : PaperTrade.t :=
  apply_updates (exitUpdates trade exitPrice underlyingPrice reason at_) at_ r.

Definition exitedTable (trade : PaperTrade.t) (exitPrice underlyingPrice : num)
    (reason : ExitReason.t) (at_ : instant) (rows : list PaperTrade.t)
  : list PaperTrade.t :=
  map (fun x => if has_id (PaperTrade.id trade) x
                then exitedRow trade exitPrice underlyingPrice reason at_ x
                else x) rows.

(** The updates [updateTrade] sends. *)
Definition extremaUpdates (trade : PaperTrade.t) (currentPrice : num)
  : TradeUpdates.t :=
  let r := calculatePnL (Fin (PaperTrade.entry_price trade)) currentPrice
             (of_Z (PaperTrade.quantity trade)) (of_Z 100) in
  let pnl := pnl_value r in
  let pnlPct := pnl_pctValue r in
  {| TradeUpdates.exit_price := None;
     TradeUpdates.exit_time := None;
     TradeUpdates.exit_underlying_price := None;
     TradeUpdates.exit_reason := None;
     TradeUpdates.pnl := None;
     TradeUpdates.pnl_pct := None;
     TradeUpdates.max_pnl :=
       Some (JS.max (or_else (as_num (PaperTrade.max_pnl trade)) pnl) pnl);
     TradeUpdates.max_pnl_pct :=
       Some (JS.max (or_else (as_num (PaperTrade.max_pnl_pct trade)) pnlPct)
                    pnlPct);
     TradeUpdates.min_pnl :=
       Some (JS.min (or_else (as_num (PaperTrade.min_pnl trade)) pnl) pnl);
     TradeUpdates.min_pnl_pct :=
       Some (JS.min (or_else (as_num (PaperTrade.min_pnl_pct trade)) pnlPct)
                    pnlPct);
     TradeUpdates.status := None |}.

(** The dollar profit [updateTrade] computes. *)
Definition currentPnl (trade : PaperTrade.t) (currentPrice : num) : num :=
  pnl_value (calculatePnL (Fin (PaperTrade.entry_price trade)) currentPrice
               (of_Z (PaperTrade.quantity trade)) (of_Z 100)).

(** [NUMERIC(precision, scale)] keeps a value as it is sent when the
    value has at most [scale] decimal places and, written without the
    point, at most [precision] digits.  The database rounds any other
    value to the scale, or refuses it (numeric field overflow). *)
Definition fits_numeric (precision scale : nat) (q : Q) : bool :=
  let scaled := (q * inject_Z (10 ^ Z.of_nat scale))%Q in
  Qeq_bool (inject_Z (Qfloor scaled)) scaled
  && (Z.abs (Qfloor scaled) <? 10 ^ Z.of_nat precision).

(** A value sent to a nullable NUMERIC column is kept: the key is
    absent, or the value travels as null (NaN, an infinity), or it
    fits. *)
Definition column_keeps (precision scale : nat) (x : option num) : bool :=
  match x with
  | Some (Fin q) => fits_numeric precision scale q
  | _ => true
  end.

(** The numbers of an update fit the columns of [paper_trades]:
    NUMERIC(10,4) for the prices, NUMERIC(12,2) for the profits in
    dollars, NUMERIC(8,3) for the profits in percent. *)
Definition updates_fit (u : TradeUpdates.t) : bool :=
  column_keeps 10 4 (TradeUpdates.exit_price u)
  && column_keeps 10 4 (TradeUpdates.exit_underlying_price u)
  && column_keeps 12 2 (TradeUpdates.pnl u)
  && column_keeps 8 3 (TradeUpdates.pnl_pct u)
  && column_keeps 12 2 (TradeUpdates.max_pnl u)
  && column_keeps 8 3 (TradeUpdates.max_pnl_pct u)
  && column_keeps 12 2 (TradeUpdates.min_pnl u)
  && column_keeps 8 3 (TradeUpdates.min_pnl_pct u).

(* ================================================================== *)
(** ** OCC option symbols (src/utils/calculations.ts) *)
(* ================================================================== *)

Module OccSymbol.
Record t := mk {
  ticker : string;
  year : Z;
  month : Z;
  day : Z;
  optionType : OptionType;
  strike : num
}.
End OccSymbol.

(** [[A-Z]] and [\d] *)
Definition is_upper (c : ascii) : bool :=
  (65 <=? nat_of_ascii c)%nat && (nat_of_ascii c <=? 90)%nat.

Definition is_digit (c : ascii) : bool :=
  (48 <=? nat_of_ascii c)%nat && (nat_of_ascii c <=? 57)%nat.

(** [[A-Z]+] at the head of a string, greedy: the longest run of capital
    letters and what follows it.  The pattern puts a digit next, so no
    shorter run can match. *)
Fixpoint take_upper (s : string) : string * string :=
  match s with
  | String c rest =>
      if is_upper c then
        let (run, after) := take_upper rest in (String c run, after)
      else (EmptyString, s)
  | EmptyString => (EmptyString, EmptyString)
  end.

(** [\d{n}] at the head of a string. *)
Fixpoint take_digits (n : nat) (s : string) : option (string * string) :=
  match n with
  | O => Some (EmptyString, s)
  | S n' =>
      match s with
      | String c rest =>
          if is_digit c then
            match take_digits n' rest with
            | Some (ds, after) => Some (String c ds, after)
            | None => None
            end
          else None
      | EmptyString => None
      end
  end.

(** [parseInt(s, 10)] on a string of digits. *)
Fixpoint parseInt_from (acc : Z) (s : string) : Z :=
  match s with
  | String c rest =>
      parseInt_from (acc * 10 + Z.of_nat (nat_of_ascii c - 48)) rest
  | EmptyString => acc
  end.

Definition parseInt (s : string) : Z := parseInt_from 0 s.

(** [parseOccSymbol]: the match of
    [/^([A-Z]+)(\d{2})(\d{2})(\d{2})([CP])(\d{8})$/]. *)
Definition parseOccSymbol (symbol : string) : option OccSymbol.t :=
  match take_upper symbol with
  | (EmptyString, _) => None
  | (ticker, r0) =>
    match take_digits 2 r0 with
    | None => None
    | Some (yy, r1) =>
    match take_digits 2 r1 with
    | None => None
    | Some (mm, r2) =>
    match take_digits 2 r2 with
    | None => None
    | Some (dd, r3) =>
    match r3 with
    | EmptyString => None
    | String type r4 =>
      if Ascii.eqb type "C" || Ascii.eqb type "P" then
        match take_digits 8 r4 with
        | Some (strikeStr, EmptyString) =>
            Some {| OccSymbol.ticker := ticker;
                    OccSymbol.year := 2000 + parseInt yy;
                    OccSymbol.month := parseInt mm;
                    OccSymbol.day := parseInt dd;
                    OccSymbol.optionType :=
                      if Ascii.eqb type "C" then call else put;
                    OccSymbol.strike :=
                      div (of_Z (parseInt strikeStr)) (of_Z 1000) |}
        | _ => None
        end
      else None
    end
    end
    end
    end
  end.

(* ================================================================== *)
(** ** The database's own classifier (schema, calculate_signal_strength) *)
(* ================================================================== *)

(** SQL truth values: [None] is NULL. *)
Definition sql_and (a b : option bool) : option bool :=
  match a, b with
  | Some false, _ | _, Some false => Some false
  | Some true, Some true => Some true
  | _, _ => None
  end.

Definition sql_ge (a b : option Q) : option bool :=
  match a, b with
  | Some x, Some y => Some (Qle_bool y x)
  | _, _ => None
  end.

Definition sql_le (a b : option Q) : option bool := sql_ge b a.

(** An IF branch is taken only when its condition is TRUE. *)
Definition sql_true (c : option bool) : bool :=
  match c with Some true => true | _ => false end.

(** [calculate_signal_strength(p_volume_oi_ratio, p_premium, p_dte,
    p_moneyness)] *)
Definition calculate_signal_strength
    (p_volume_oi_ratio p_premium : option Q) (p_dte : option Z)
    (p_moneyness : option Q) : SignalStrength :=
  if sql_true
       (sql_and (sql_and (sql_and (sql_ge p_volume_oi_ratio (Some 5%Q))
                                  (sql_ge p_premium (Some 100000%Q)))
                         (sql_le (option_map inject_Z p_dte) (Some 30%Q)))
                (sql_ge (option_map Qabs p_moneyness) (Some 10%Q)))
  then high
  else if sql_true
            (sql_and (sql_and (sql_ge p_volume_oi_ratio (Some 3%Q))
                              (sql_ge p_premium (Some 25000%Q)))
                     (sql_le (option_map inject_Z p_dte) (Some 45%Q)))
  then medium
  else low.

(* ================================================================== *)
(** ** Further vocabulary *)
(* ================================================================== *)

(** The tiers in order of conviction. *)
Definition strength_rank (s : SignalStrength) : nat :=
  match s with low => 0 | medium => 1 | high => 2 end.

(** The decimal digits of [n], [k] of them, most significant first. *)
Fixpoint pad (k : nat) (n : Z) : string :=
  match k with
  | O => EmptyString
  | S k' =>
      String (ascii_of_nat (48 + Z.to_nat ((n / 10 ^ Z.of_nat k') mod 10)))
             (pad k' n)
  end.

(** The OCC symbol of a contract: ticker, two digits each for year,
    month and day, C or P, and the strike in thousandths on eight
    digits. *)
Definition occSymbol (ticker : string) (yy mm dd : Z) (ot : OptionType)
    (strikeThousandths : Z) : string :=
  (ticker ++ pad 2 yy ++ pad 2 mm ++ pad 2 dd
   ++ String (match ot with call => "C" | put => "P" end)
             (pad 8 strikeThousandths))%string.

Definition all_upper (s : string) : bool :=
  forallb is_upper (list_ascii_of_string s).

(** The columns of a trade that are fixed at entry. *)
Definition entry_columns (r : PaperTrade.t)
  : uuid * uuid * TradeDirection * Z * Q * instant * option Q :=
  (PaperTrade.id r, PaperTrade.signal_id r, PaperTrade.direction r,
   PaperTrade.quantity r, PaperTrade.entry_price r, PaperTrade.entry_time r,
   PaperTrade.entry_underlying_price r).

(** Each trade has its own identity and its own signal. *)
Definition well_keyed (rows : list PaperTrade.t) : Prop :=
  NoDup (map PaperTrade.id rows) /\ NoDup (map PaperTrade.signal_id rows).

(** How many rows pass a test. *)
Definition count_rows (test : PaperTrade.t -> bool) (rows : list PaperTrade.t)
  : Z :=
  Z.of_nat (List.length (filter test rows)).

Definition all_digits (s : string) : bool :=
  forallb is_digit (list_ascii_of_string s).

(** The columns of a trade that an exit writes. *)
Definition outcome_columns (r : PaperTrade.t)
  : TradeStatus.t * option Q * option instant * option Q
    * option ExitReason.t * option Q * option Q :=
  (PaperTrade.status r, PaperTrade.exit_price r, PaperTrade.exit_time r,
   PaperTrade.exit_underlying_price r, PaperTrade.exit_reason r,
   PaperTrade.pnl r, PaperTrade.pnl_pct r).

(** The larger, and the smaller, of a stored extremum and the current
    profit; a missing extremum gives the current profit. *)
Definition running_max (prior : option Q) (pnl : Q) : Q :=
  match prior with
  | Some m => if Qltb m pnl then pnl else m
  | None => pnl
  end.

Definition running_min (prior : option Q) (pnl : Q) : Q :=
  match prior with
  | Some m => if Qltb pnl m then pnl else m
  | None => pnl
  end.

(** An extremum that [||] keeps: missing, or not 0. *)
Definition kept_extremum (prior : option Q) : Prop :=
  match prior with
  | Some m => ~ (m == 0)%Q
  | None => True
  end.

(** Further sample data. *)
Module MoreSamples.

(** NVDA quoted with a last price of 0. *)
Definition nvdaAtZero : TradierQuote.t :=
  {| TradierQuote.symbol := "NVDA";
     TradierQuote.description := "NVIDIA Corp";
     TradierQuote.exch := "Q";
     TradierQuote.type := stock;
     TradierQuote.last := 0;
     TradierQuote.change := 0;
     TradierQuote.volume := Some 0%Q;
     TradierQuote.bid := 0;
     TradierQuote.ask := 0;
     TradierQuote.underlying := None;
     TradierQuote.strike := None;
     TradierQuote.change_percentage := 0;
     TradierQuote.trade_date := 1757000000000;
     TradierQuote.bidsize := 0;
     TradierQuote.asksize := 0;
     TradierQuote.open_interest := None;
     TradierQuote.contract_size := None;
     TradierQuote.expiration_date := None;
     TradierQuote.option_type := None;
     TradierQuote.greeks := None |}.

(** An open trade entered at 2.00 whose running maximum is 40 and
    minimum -30. *)
Definition trackedTrade : PaperTrade.t :=
  Sample.openTrade (Some 40%Q) (Some (-30)%Q).

(** An open trade and a closed one, on two signals. *)
Definition openAndClosed : list PaperTrade.t :=
  [Sample.openTrade None None; Sample.closedTrade 2%N 2%N 3 100 50].

(** The stored signal and an open trade, with the market API down. *)
Definition marketDown : World :=
  Sample.world [Sample.storedSignal ""] [Sample.openTrade None None]
               Sample.after25h.

End MoreSamples.

(** What a call on the trade with identity [i] may change: nothing
    outside the paper trades, no entry column, no row with another
    identity. *)
Definition frame (i : uuid) (w w' : World) : Prop :=
  unusual_signals w' = unusual_signals w /\
  market w' = market w /\
  now w' = now w /\
  map entry_columns (paper_trades w') = map entry_columns (paper_trades w) /\
  (forall r, In r (paper_trades w) -> PaperTrade.id r <> i ->
             In r (paper_trades w')).

(** What monitoring the trade with identity [i] may change: as [frame],
    but the clock may have moved on. *)
Definition monitored (i : uuid) (w w' : World) : Prop :=
  unusual_signals w' = unusual_signals w /\
  market w' = market w /\
  now w <= now w' /\
  map entry_columns (paper_trades w') = map entry_columns (paper_trades w) /\
  (forall r, In r (paper_trades w) -> PaperTrade.id r <> i ->
             In r (paper_trades w')).

(* ================================================================== *)
(** * Properties *)
(* ================================================================== *)

(** ** Numbers *)

Lemma Qltb_lt (a b : Q) : Qltb a b = true <-> (a < b)%Q.
Proof.
  unfold Qltb. rewrite negb_true_iff. split; intro H.
  - apply Qnot_le_lt. intro Hle. apply Qle_bool_iff in Hle. congruence.
  - destruct (Qle_bool b a) eqn:E; [|reflexivity].
    apply Qle_bool_iff in E. exfalso. revert E. apply Qlt_not_le, H.
Qed.

Lemma Qltb_ge (a b : Q) : Qltb a b = false <-> (b <= a)%Q.
Proof.
  unfold Qltb. rewrite negb_false_iff. apply Qle_bool_iff.
Qed.

Lemma Qle_bool_gt (a b : Q) : Qle_bool a b = false <-> (b < a)%Q.
Proof.
  rewrite <- Qltb_lt. unfold Qltb. now rewrite negb_true_iff.
Qed.

Lemma Qeq_bool_false (a b : Q) : Qeq_bool a b = false <-> ~ (a == b)%Q.
Proof.
  split.
  - apply Qeq_bool_neq.
  - intro H. destruct (Qeq_bool a b) eqn:E; [|reflexivity].
    apply Qeq_bool_iff in E. contradiction.
Qed.

Lemma Qltb_red_l (a b : Q) : Qltb (Qred a) b = Qltb a b.
Proof. unfold Qltb. now rewrite (Qred_correct a). Qed.

Lemma Qle_bool_red_l (a b : Q) : Qle_bool (Qred a) b = Qle_bool a b.
Proof. now rewrite (Qred_correct a). Qed.

Lemma Qle_bool_red_r (a b : Q) : Qle_bool a (Qred b) = Qle_bool a b.
Proof. now rewrite (Qred_correct b). Qed.

Lemma Qeq_bool_red_l (a b : Q) : Qeq_bool (Qred a) b = Qeq_bool a b.
Proof. now rewrite (Qred_correct a). Qed.

(** Boolean comparisons of rationals, turned into propositions. *)
Ltac qbool :=
  repeat match goal with
  | H : context [Qltb (Qred _) _] |- _ => rewrite Qltb_red_l in H
  | H : context [Qle_bool (Qred _) _] |- _ => rewrite Qle_bool_red_l in H
  | H : context [Qle_bool _ (Qred _)] |- _ => rewrite Qle_bool_red_r in H
  | H : context [Qeq_bool (Qred _) _] |- _ => rewrite Qeq_bool_red_l in H
  | H : Qltb _ _ = true |- _ => apply Qltb_lt in H
  | H : Qltb _ _ = false |- _ => apply Qltb_ge in H
  | H : Qle_bool _ _ = true |- _ => apply Qle_bool_iff in H
  | H : Qle_bool _ _ = false |- _ => apply Qle_bool_gt in H
  | H : Qeq_bool _ _ = true |- _ => apply Qeq_bool_iff in H
  | H : Qeq_bool _ _ = false |- _ => apply Qeq_bool_false in H
  end.

(** ** Moneyness categories *)

(** C6: [categorizeMoneyness] sends every real percent value to exactly
    one category: deep_itm below -10, itm from -10 (included) to -2
    (excluded), atm from -2 to 2 (both included), otm above 2 up to 10
    (included), deep_otm above 10; so -10 is itm, -2 and 2 are atm and
    10 is otm. *)
Theorem categorizeMoneyness_partition :
  forall q : Q,
    (categorizeMoneyness (Fin q) = deep_itm <-> (q < -10)%Q) /\
    (categorizeMoneyness (Fin q) = itm <-> (-10 <= q /\ q < -2)%Q) /\
    (categorizeMoneyness (Fin q) = atm <-> (-2 <= q /\ q <= 2)%Q) /\
    (categorizeMoneyness (Fin q) = otm <-> (2 < q /\ q <= 10)%Q) /\
    (categorizeMoneyness (Fin q) = deep_otm <-> (10 < q)%Q) /\
    categorizeMoneyness (of_Z (-10)) = itm /\
    categorizeMoneyness (of_Z (-2)) = atm /\
    categorizeMoneyness (of_Z 2) = atm /\
    categorizeMoneyness (of_Z 10) = otm.
Proof.
  intro q.
  repeat match goal with |- _ /\ _ => split end;
    try reflexivity.
  all: unfold categorizeMoneyness, JS.abs, fin, lt, le, of_Z.
  all: destruct (Qltb q (inject_Z (-10))) eqn:E1;
       [| destruct (Qltb q (inject_Z (-2))) eqn:E2;
          [| destruct (Qle_bool (Qred (Qabs q)) (inject_Z 2)) eqn:E3;
             [| destruct (Qle_bool q (inject_Z 10)) eqn:E4 ] ] ].
  all: qbool.
  all: try (apply Qabs_Qle_condition in E3).
  all: try (assert (E3' : ~ (- inject_Z 2 <= q <= inject_Z 2)%Q)
              by (intro HH; apply Qabs_Qle_condition in HH;
                  revert HH; apply Qlt_not_le, E3); clear E3).
  all: change (inject_Z (-10)) with (-10)%Q in *;
       change (inject_Z (-2)) with (-2)%Q in *;
       change (inject_Z 2) with 2%Q in *;
       change (inject_Z 10) with 10%Q in *.
  all: split; intro H; try discriminate; try reflexivity; try lra.
  all: try (exfalso; apply E3'; lra).
Qed.

(** ** Profit and loss *)

(** The percentage of [calculatePnL] at an entry price of 0. *)
Lemma pnlPct_zero_entry (x : Q) (n m : num) :
  pnl_pctValue (calculatePnL (Fin 0) (Fin x) n m)
  = if Qeq_bool x 0 then NaN else if Qltb 0 x then PInf else NInf.
Proof.
  unfold calculatePnL, pnl_pctValue, of_Z, sub, fin.
  unfold div at 2.
  replace (Qeq_bool 0 0) with true by reflexivity.
  assert (Hx : (x - 0 == x)%Q) by ring.
  rewrite Qeq_bool_red_l.
  replace (Qeq_bool (x - 0) 0) with (Qeq_bool x 0) by (now rewrite Hx).
  destruct (Qeq_bool x 0) eqn:E0; [reflexivity|].
  replace (Qltb 0 (Qred (x - 0))) with (Qltb 0 x)
    by (unfold Qltb; now rewrite Qred_correct, Hx).
  destruct (Qltb 0 x); reflexivity.
Qed.

Lemma pnlPct_zero_entry_not_finite (x : Q) (n m : num) :
  is_finite (pnl_pctValue (calculatePnL (Fin 0) (Fin x) n m)) = false.
Proof.
  rewrite pnlPct_zero_entry.
  destruct (Qeq_bool x 0); [reflexivity|]. destruct (Qltb 0 x); reflexivity.
Qed.

(** C4: with an entry price of 0, [calculatePnL] raises nothing: it
    returns a result whose percentage is NaN when the exit price is 0
    too, and an infinity of the exit price's sign otherwise. *)
Theorem calculatePnL_zero_entry :
  forall exitPrice quantity contractSize : Q,
    exists p : Q,
      calculatePnL (of_Z 0) (Fin exitPrice) (Fin quantity) (Fin contractSize)
      = {| pnl_value := Fin p;
           pnl_pctValue :=
             if Qeq_bool exitPrice 0 then NaN
             else if Qltb 0 exitPrice then PInf else NInf |}.
Proof.
  intros x n m.
  pose proof (pnlPct_zero_entry x (Fin n) (Fin m)) as Hpct.
  change (Fin 0) with (of_Z 0) in Hpct.
  destruct (calculatePnL (of_Z 0) (Fin x) (Fin n) (Fin m)) as [v pct] eqn:E.
  cbn [pnl_pctValue] in Hpct. subst pct.
  unfold calculatePnL in E. injection E as Hv _.
  eexists. f_equal. rewrite <- Hv. reflexivity.
Qed.

(** ** Signal detection *)

Lemma premium_finite (l v c : Q) :
  calculatePremium (Fin l) (Fin v) (Fin c) = Fin (Qred (Qred (l * v) * c)).
Proof. reflexivity. Qed.

Lemma premium_value (l v c : Q) :
  (Qred (Qred (l * v) * c) == l * v * c)%Q.
Proof. now rewrite !Qred_correct. Qed.

(** [meetsUnusualCriteria] accepts exactly when the five checks hold. *)
Lemma meets_iff (config : SignalConfig) (v oi p : Q) (dte : num) :
  meets (meetsUnusualCriteria (Fin v) (Fin oi) (Fin p) dte config) = true
  <-> passes_all_five config v oi p dte.
Proof.
  unfold meetsUnusualCriteria, passes_all_five, dte_passes.
  unfold lt at 1. unfold le at 1. unfold of_Z at 1.
  destruct (Qltb v (minAbsoluteVolume config)) eqn:E1; cbn [meets].
  { qbool. split; [discriminate|]. intros (H & _). lra. }
  destruct (Qle_bool oi (inject_Z 0)) eqn:E2; cbn [meets].
  { qbool. change (inject_Z 0) with 0%Q in E2.
    split; [discriminate|]. intros (_ & H & _). lra. }
  assert (Hoi : Qeq_bool oi 0 = false).
  { qbool. change (inject_Z 0) with 0%Q in E2. apply Qeq_bool_false. lra. }
  unfold div, fin. rewrite Hoi. unfold lt at 1.
  destruct (Qltb (Qred (v / oi)) (minVolumeOiRatio config)) eqn:E3;
    cbn [meets].
  { qbool. split; [discriminate|]. intros (_ & _ & H & _). lra. }
  unfold lt at 1.
  destruct (Qltb p (minPremium config)) eqn:E4; cbn [meets].
  { qbool. split; [discriminate|]. intros (_ & _ & _ & H & _). lra. }
  qbool. change (inject_Z 0) with 0%Q in E2.
  destruct dte as [d| | |]; unfold gt, lt, of_Z.
  - destruct (Qltb (maxDte config) d) eqn:E5; cbn [orb meets].
    { qbool. split; [discriminate|].
      intros (_ & _ & _ & _ & [Hn|(d' & Hd & _ & H)]); [discriminate|].
      injection Hd as <-. lra. }
    destruct (Qltb d (inject_Z 0)) eqn:E6; cbn [meets].
    { qbool. change (inject_Z 0) with 0%Q in E6. split; [discriminate|].
      intros (_ & _ & _ & _ & [Hn|(d' & Hd & H & _)]); [discriminate|].
      injection Hd as <-. lra. }
    qbool. change (inject_Z 0) with 0%Q in E6.
    split; [|reflexivity]. intros _. repeat split; try lra.
    right. exists d. repeat split; lra.
  - cbn [orb meets]. split; [discriminate|].
    intros (_ & _ & _ & _ & [Hn|(d' & Hd & _)]); discriminate.
  - cbn [orb meets]. split; [discriminate|].
    intros (_ & _ & _ & _ & [Hn|(d' & Hd & _)]); discriminate.
  - cbn [orb meets]. split; [|reflexivity]. intros _.
    repeat split; try lra. left. reflexivity.
Qed.

(** With NaN for the days to expiration the strength is low. *)
Lemma strength_nan_dte (r p m : num) :
  calculateSignalStrength r p NaN m = low.
Proof.
  unfold calculateSignalStrength.
  replace (le NaN (of_Z 30)) with false by reflexivity.
  replace (le NaN (of_Z 45)) with false by reflexivity.
  rewrite !andb_false_r. cbn [andb]. reflexivity.
Qed.





Section DetectorProperties.

Variable calculateDTE : string -> num.

(** What an accepted quote looks like, and what the signal carries. *)
Lemma analyzeQuote_Some (config : SignalConfig)
    (oq uq : TradierQuote.t) (s : UnusualSignal.t) :
  analyzeQuote calculateDTE config oq uq = Some s ->
  exists (ot : OptionType) (exp : string) (k v oi : Q),
    TradierQuote.option_type oq = Some ot /\
    TradierQuote.expiration_date oq = Some exp /\
    TradierQuote.strike oq = Some k /\
    TradierQuote.volume oq = Some v /\
    TradierQuote.open_interest oq = Some oi /\
    meets (meetsUnusualCriteria (Fin v) (Fin oi)
             (calculatePremium (Fin (TradierQuote.last oq)) (Fin v)
                (Fin (contractSizeOf oq)))
             (calculateDTE exp) config) = true /\
    UnusualSignal.volume_oi_ratio s = roundCents (rawVolumeOiRatio v oi) /\
    UnusualSignal.premium s =
      roundCents (calculatePremium (Fin (TradierQuote.last oq)) (Fin v)
                    (Fin (contractSizeOf oq))) /\
    UnusualSignal.moneyness s =
      Some (roundCents
              (calculateMoneyness (Fin k) (Fin (TradierQuote.last uq)) ot)) /\
    UnusualSignal.moneyness_category s =
      Some (categorizeMoneyness
              (calculateMoneyness (Fin k) (Fin (TradierQuote.last uq)) ot)) /\
    UnusualSignal.signal_strength s =
      Some (calculateSignalStrength (rawVolumeOiRatio v oi)
              (calculatePremium (Fin (TradierQuote.last oq)) (Fin v)
                 (Fin (contractSizeOf oq)))
              (calculateDTE exp)
              (calculateMoneyness (Fin k) (Fin (TradierQuote.last uq)) ot)) /\
    UnusualSignal.dte s = calculateDTE exp /\
    UnusualSignal.last_price s = Fin (TradierQuote.last oq) /\
    UnusualSignal.bid_ask_spread_pct s =
      (if truthy (Fin (TradierQuote.bid oq)) && truthy (Fin (TradierQuote.ask oq))
       then Some (calculateBidAskSpread (Fin (TradierQuote.bid oq))
                    (Fin (TradierQuote.ask oq)))
       else None).
Proof.
  unfold analyzeQuote, contractSizeOf, roundCents, rawVolumeOiRatio.
  intro H.
  destruct (TradierQuote.option_type oq) as [ot|]; [|discriminate].
  destruct (negb (is_option_quote (TradierQuote.type oq))); [discriminate|].
  destruct (negb (is_stock_or_etf (TradierQuote.type uq))); [discriminate|].
  destruct (TradierQuote.expiration_date oq) as [exp|]; [|discriminate].
  destruct (TradierQuote.strike oq) as [k|]; [|discriminate].
  destruct (TradierQuote.volume oq) as [v|]; [|discriminate].
  destruct (TradierQuote.open_interest oq) as [oi|]; [|discriminate].
  destruct (TradierQuote.underlying oq) as [und|]; [|discriminate].
  cbv zeta in H.
  match type of H with
  | (if ?b then _ else _) = _ => destruct b; [discriminate|]
  end.
  assert (Hc : match TradierQuote.contract_size oq with
               | Some c => Fin c
               | None => of_Z 100
               end
               = Fin match TradierQuote.contract_size oq with
                     | Some c => c
                     | None => 100
                     end)
    by (destruct (TradierQuote.contract_size oq); reflexivity).
  rewrite Hc in H.
  match type of H with
  | (if negb ?b then _ else _) = _ => destruct b eqn:Hm; [|discriminate]
  end.
  cbn [negb] in H. injection H as <-.
  exists ot, exp, k, v, oi. cbn [UnusualSignal.volume_oi_ratio
    UnusualSignal.premium UnusualSignal.moneyness
    UnusualSignal.moneyness_category UnusualSignal.signal_strength
    UnusualSignal.dte UnusualSignal.last_price
    UnusualSignal.bid_ask_spread_pct].
  repeat split; try reflexivity. exact Hm.
Qed.

(** A quote is accepted on its type, its required fields and the five
    checks alone. *)
Lemma analyzeQuote_accepts (config : SignalConfig) (oq uq : TradierQuote.t)
    (ot : OptionType) (exp und : string) (k v oi : Q) :
  TradierQuote.option_type oq = Some ot ->
  TradierQuote.type oq = option_ ->
  is_stock_or_etf (TradierQuote.type uq) = true ->
  TradierQuote.expiration_date oq = Some exp -> exp <> ""%string ->
  TradierQuote.strike oq = Some k -> ~ (k == 0)%Q ->
  TradierQuote.volume oq = Some v ->
  TradierQuote.open_interest oq = Some oi ->
  TradierQuote.underlying oq = Some und -> und <> ""%string ->
  meets (meetsUnusualCriteria (Fin v) (Fin oi)
           (calculatePremium (Fin (TradierQuote.last oq)) (Fin v)
              (Fin (contractSizeOf oq)))
           (calculateDTE exp) config) = true ->
  exists s : UnusualSignal.t,
    analyzeQuote calculateDTE config oq uq = Some s.
Proof.
  intros Hot Hty Hu Hexp Hne Hk Hk0 Hv Hoi Hund Hune Hm.
  unfold analyzeQuote.
  rewrite Hot, Hty, Hu, Hexp, Hk, Hv, Hoi, Hund. cbn [is_option_quote negb].
  cbv zeta.
  assert (Te : truthy_str (Some exp) = true)
    by (destruct exp; [contradiction|reflexivity]).
  assert (Tn : truthy_str (Some und) = true)
    by (destruct und; [contradiction|reflexivity]).
  assert (Tk : truthy (Fin k) = true)
    by (cbn [truthy]; apply negb_true_iff, Qeq_bool_false; exact Hk0).
  rewrite Te, Tn, Tk. cbn [negb orb].
  assert (Hc : match TradierQuote.contract_size oq with
               | Some c => Fin c
               | None => of_Z 100
               end = Fin (contractSizeOf oq))
    by (unfold contractSizeOf; destruct (TradierQuote.contract_size oq);
        reflexivity).
  rewrite Hc, Hm. cbn [negb]. eexists. reflexivity.
Qed.

(** What the quote of a signal looks like. *)
Lemma analyzeQuote_valid (config : SignalConfig) (oq uq : TradierQuote.t)
    (s : UnusualSignal.t) :
  analyzeQuote calculateDTE config oq uq = Some s ->
  TradierQuote.type oq = option_ /\
  is_stock_or_etf (TradierQuote.type uq) = true /\
  (exists exp, TradierQuote.expiration_date oq = Some exp /\
               exp <> ""%string) /\
  (exists k, TradierQuote.strike oq = Some k /\ ~ (k == 0)%Q) /\
  (exists und, TradierQuote.underlying oq = Some und /\ und <> ""%string).
Proof.
  intro H. unfold analyzeQuote in H.
  destruct (TradierQuote.option_type oq) as [ot|]; [|discriminate].
  destruct (TradierQuote.type oq); try discriminate.
  cbn [is_option_quote negb] in H.
  destruct (is_stock_or_etf (TradierQuote.type uq)); [|discriminate].
  cbn [negb] in H.
  destruct (TradierQuote.expiration_date oq) as [exp|]; [|discriminate].
  destruct (TradierQuote.strike oq) as [k|]; [|discriminate].
  destruct (TradierQuote.volume oq) as [v|]; [|discriminate].
  destruct (TradierQuote.open_interest oq) as [oi|]; [|discriminate].
  destruct (TradierQuote.underlying oq) as [und|]; [|discriminate].
  cbv zeta in H.
  destruct (truthy_str (Some exp)) eqn:Te; [|discriminate].
  destruct (truthy (Fin k)) eqn:Tk; [|discriminate].
  destruct (truthy_str (Some und)) eqn:Tn; [|discriminate].
  clear H. split; [reflexivity|]. split; [reflexivity|].
  split; [exists exp; split; [reflexivity|intros ->; discriminate]|].
  split; [|exists und; split; [reflexivity|intros ->; discriminate]].
  exists k. split; [reflexivity|].
  cbn [truthy] in Tk. apply negb_true_iff in Tk.
  apply Qeq_bool_false. exact Tk.
Qed.

(** The days-to-expiration test does not stop NaN. *)
Lemma meets_nan_dte (config : SignalConfig) (v oi p dte : num) :
  meets (meetsUnusualCriteria v oi p dte config) = true ->
  meets (meetsUnusualCriteria v oi p NaN config) = true.
Proof.
  unfold meetsUnusualCriteria.
  destruct (lt v _); [discriminate|].
  destruct (le oi _); [discriminate|].
  destruct (lt (div v oi) _); [discriminate|].
  destruct (lt p _); [discriminate|].
  intros _. reflexivity.
Qed.

(** The ratio test of [meetsUnusualCriteria], on a positive open
    interest. *)
Lemma ratio_test (v oi m : Q) :
  (0 < oi)%Q ->
  ge (div (Fin v) (Fin oi)) (Fin m) = true <-> (m <= v / oi)%Q.
Proof.
  intro Hoi. unfold ge, le, div, fin.
  replace (Qeq_bool oi 0) with false
    by (symmetry; apply Qeq_bool_false; lra).
  rewrite Qle_bool_red_r. apply Qle_bool_iff.
Qed.

Lemma premium_test (l v c m : Q) :
  ge (calculatePremium (Fin l) (Fin v) (Fin c)) (Fin m) = true
  <-> (m <= l * v * c)%Q.
Proof.
  rewrite premium_finite. unfold ge, le.
  rewrite Qle_bool_iff, premium_value. reflexivity.
Qed.

Lemma lt_not_ge (x m : Q) : lt (Fin x) (Fin m) = true -> ~ (m <= x)%Q.
Proof. unfold lt. intros H Hle. qbool. lra. Qed.

(** The part of C1 that holds.  [analyzeQuote] returns a signal only if
    the volume is at least the minimum, the open interest is positive,
    the computed volume over open interest is at least the minimum
    ratio, the computed premium is at least the minimum, and the days to
    expiration are a number from 0 to the maximum, or NaN.  From a quote
    that yields a signal, moving the volume below its minimum, the open
    interest to 0 or to where the ratio falls below its minimum, the last
    price to where the premium falls below its minimum, or the days to
    expiration to a number out of range, yields no signal. *)
Lemma analyzeQuote_criteria (config : SignalConfig)
    (oq uq : TradierQuote.t) (s : UnusualSignal.t) :
  analyzeQuote calculateDTE config oq uq = Some s ->
  exists (v oi : Q) (exp : string),
    TradierQuote.volume oq = Some v /\
    TradierQuote.open_interest oq = Some oi /\
    TradierQuote.expiration_date oq = Some exp /\
    (minAbsoluteVolume config <= v)%Q /\
    (0 < oi)%Q /\
    ge (div (Fin v) (Fin oi)) (Fin (minVolumeOiRatio config)) = true /\
    ge (calculatePremium (Fin (TradierQuote.last oq)) (Fin v)
          (Fin (contractSizeOf oq))) (Fin (minPremium config)) = true /\
    dte_passes config (calculateDTE exp) /\
    (forall v' : Q,
        (v' < minAbsoluteVolume config)%Q ->
        analyzeQuote calculateDTE config (with_volume oq v') uq = None) /\
    (forall oi' : Q,
        (oi' <= 0)%Q ->
        analyzeQuote calculateDTE config (with_open_interest oq oi') uq
        = None) /\
    (forall oi' : Q,
        lt (div (Fin v) (Fin oi')) (Fin (minVolumeOiRatio config)) = true ->
        analyzeQuote calculateDTE config (with_open_interest oq oi') uq
        = None) /\
    (forall l' : Q,
        lt (calculatePremium (Fin l') (Fin v) (Fin (contractSizeOf oq)))
           (Fin (minPremium config)) = true ->
        analyzeQuote calculateDTE config (with_last oq l') uq = None) /\
    (forall (exp' : string) (d : Q),
        calculateDTE exp' = Fin d ->
        (d < 0)%Q \/ (maxDte config < d)%Q ->
        analyzeQuote calculateDTE config (with_expiration_date oq exp') uq
        = None).
Proof.
  intro H.
  destruct (analyzeQuote_Some _ _ _ _ H)
    as (ot & exp & k & v & oi & Hot & Hexp & Hk & Hv & Hoi & Hm & _).
  rewrite premium_finite in Hm. apply meets_iff in Hm.
  destruct Hm as (H1 & H2 & H3 & H4 & H5).
  exists v, oi, exp. repeat match goal with |- _ /\ _ => split end; auto.
  - apply ratio_test; assumption.
  - apply premium_test. now rewrite premium_value in H4.
  - intros v' Hlt.
    destruct (analyzeQuote calculateDTE config (with_volume oq v') uq)
      as [s'|] eqn:E; [exfalso|reflexivity].
    destruct (analyzeQuote_Some _ _ _ _ E)
      as (_ & exp1 & _ & v1 & oi1 & _ & _ & _ & Hv1 & _ & Hm1 & _).
    cbn in Hv1. injection Hv1 as <-.
    rewrite premium_finite in Hm1. apply meets_iff in Hm1.
    destruct Hm1 as (G1 & _). lra.
  - intros oi' Hle.
    destruct (analyzeQuote calculateDTE config (with_open_interest oq oi') uq)
      as [s'|] eqn:E; [exfalso|reflexivity].
    destruct (analyzeQuote_Some _ _ _ _ E)
      as (_ & exp1 & _ & v1 & oi1 & _ & _ & _ & _ & Hoi1 & Hm1 & _).
    cbn in Hoi1. injection Hoi1 as <-.
    rewrite premium_finite in Hm1. apply meets_iff in Hm1.
    destruct Hm1 as (_ & G2 & _). lra.
  - intros oi' Hlt.
    destruct (analyzeQuote calculateDTE config (with_open_interest oq oi') uq)
      as [s'|] eqn:E; [exfalso|reflexivity].
    destruct (analyzeQuote_Some _ _ _ _ E)
      as (_ & exp1 & _ & v1 & oi1 & _ & _ & _ & Hv1 & Hoi1 & Hm1 & _).
    cbn in Hv1, Hoi1. rewrite Hv in Hv1.
    injection Hv1 as <-. injection Hoi1 as <-.
    rewrite premium_finite in Hm1. apply meets_iff in Hm1.
    destruct Hm1 as (_ & G2 & G3 & _).
    apply (ratio_test v oi' _ G2) in G3. unfold ge, le in G3.
    unfold lt in Hlt.
    destruct (div (Fin v) (Fin oi')) as [x| | |]; try discriminate.
    qbool. lra.
  - intros l' Hlt.
    destruct (analyzeQuote calculateDTE config (with_last oq l') uq)
      as [s'|] eqn:E; [exfalso|reflexivity].
    destruct (analyzeQuote_Some _ _ _ _ E)
      as (_ & exp1 & _ & v1 & oi1 & _ & _ & _ & Hv1 & _ & Hm1 & _).
    cbn in Hv1. rewrite Hv in Hv1. injection Hv1 as <-.
    rewrite premium_finite in Hm1. apply meets_iff in Hm1.
    destruct Hm1 as (_ & _ & _ & G4 & _).
    change (TradierQuote.last (with_last oq l')) with l' in G4.
    change (contractSizeOf (with_last oq l')) with (contractSizeOf oq) in G4.
    rewrite premium_finite in Hlt. apply lt_not_ge in Hlt. contradiction.
  - intros exp' d Hd Hout.
    destruct (analyzeQuote calculateDTE config (with_expiration_date oq exp') uq)
      as [s'|] eqn:E; [exfalso|reflexivity].
    destruct (analyzeQuote_Some _ _ _ _ E)
      as (_ & exp1 & _ & v1 & oi1 & _ & Hexp1 & _ & _ & _ & Hm1 & _).
    cbn in Hexp1. injection Hexp1 as <-.
    rewrite premium_finite in Hm1. apply meets_iff in Hm1.
    destruct Hm1 as (_ & _ & _ & _ & [Hn|(d' & Hd' & G5 & G6)]).
    + congruence.
    + rewrite Hd in Hd'. injection Hd' as <-.
      destruct Hout as [Hneg|Hbig]; lra.
Qed.

(** C1: the days-to-expiration check does not hold back a date that
    does not parse.  From any quote that yields a signal, replacing the
    expiration date by a non-empty string for which [calculateDTE] gives
    NaN still yields a signal: its days to expiration are NaN, for which
    neither [0 <= dte] nor [dte <= maxDte] holds, and its strength is
    low. *)
Theorem analyzeQuote_accepts_unparsable_date :
  forall (config : SignalConfig) (oq uq : TradierQuote.t)
         (s : UnusualSignal.t) (exp' : string),
    analyzeQuote calculateDTE config oq uq = Some s ->
    exp' <> ""%string ->
    calculateDTE exp' = NaN ->
    exists s' : UnusualSignal.t,
      analyzeQuote calculateDTE config (with_expiration_date oq exp') uq
      = Some s' /\
      UnusualSignal.expiration_date s' = exp' /\
      UnusualSignal.dte s' = NaN /\
      le (of_Z 0) (UnusualSignal.dte s') = false /\
      le (UnusualSignal.dte s') (Fin (maxDte config)) = false /\
      UnusualSignal.signal_strength s' = Some low.
Proof.
  intros config oq uq s exp' H Hne Hnan.
  destruct (analyzeQuote_valid _ _ _ _ H)
    as (Hty & Hu & _ & (k & Hk & Hk0) & (und & Hund & Hune)).
  destruct (analyzeQuote_Some _ _ _ _ H)
    as (ot & exp & k1 & v & oi & Hot & Hexp & _ & Hv & Hoi & Hm & _).
  apply meets_nan_dte in Hm.
  destruct (analyzeQuote_accepts config (with_expiration_date oq exp') uq
              ot exp' und k v oi) as [s' Hs']; try assumption.
  - reflexivity.
  - rewrite Hnan. exact Hm.
  - exists s'. split; [exact Hs'|].
    destruct (analyzeQuote_Some _ _ _ _ Hs')
      as (ot2 & exp2 & k2 & v2 & oi2 & _ & Hexp2 & _ & _ & _ & _ & _ & _ & _
          & _ & Hg & Hd & _).
    cbn in Hexp2. injection Hexp2 as <-.
    rewrite Hnan in Hd, Hg. rewrite strength_nan_dte in Hg.
    assert (He : UnusualSignal.expiration_date s' = exp').
    { unfold analyzeQuote in Hs'.
      cbn [with_expiration_date TradierQuote.option_type TradierQuote.type
           TradierQuote.expiration_date TradierQuote.strike
           TradierQuote.volume TradierQuote.open_interest
           TradierQuote.underlying] in Hs'.
      rewrite Hot, Hty, Hu, Hk, Hv, Hoi, Hund in Hs'.
      cbn [is_option_quote negb] in Hs'. cbv zeta in Hs'.
      match type of Hs' with
      | (if ?b then _ else _) = _ => destruct b; [discriminate|]
      end.
      match type of Hs' with
      | (if ?b then _ else _) = _ => destruct b; [discriminate|]
      end.
      injection Hs' as <-. reflexivity. }
    rewrite Hd. repeat split; assumption.
Qed.


End DetectorProperties.

Lemma analyzeQuote_accepts_unparsable_date_witness :
  exists s' : UnusualSignal.t,
    analyzeQuote Sample.isoDays Sample.config
      (with_expiration_date Sample.nvdaCall "not-a-date") Sample.nvda
    = Some s' /\
    UnusualSignal.expiration_date s' = "not-a-date"%string /\
    UnusualSignal.dte s' = NaN /\
    le (of_Z 0) (UnusualSignal.dte s') = false /\
    le (UnusualSignal.dte s') (Fin (maxDte Sample.config)) = false /\
    UnusualSignal.signal_strength s' = Some low.
Proof.
  eapply (analyzeQuote_accepts_unparsable_date Sample.isoDays Sample.config
            Sample.nvdaCall Sample.nvda).
  - vm_compute. reflexivity.
  - discriminate.
  - reflexivity.
Defined.



(** ** Paper-trade lifecycle *)

Lemma existsb_false_filter {A} (f : A -> bool) (l : list A) :
  existsb f l = false -> filter f l = [].
Proof.
  induction l as [|x l IH]; cbn; [reflexivity|].
  destruct (f x); cbn; [discriminate|exact IH].
Qed.

Lemma filter_cons_existsb {A} (f : A -> bool) (l : list A) (x : A)
    (r : list A) :
  filter f l = x :: r -> existsb f l = true.
Proof.
  intro H. destruct (existsb f l) eqn:E; [reflexivity|].
  rewrite (existsb_false_filter _ _ E) in H. discriminate.
Qed.

(** [enterTrade], with its monadic plumbing unfolded. *)
Lemma enterTrade_unfold (config : PaperTradeConfig) (signal : UnusualSignal.t)
    (w : World) :
  enterTrade config signal w =
  match match UnusualSignal.id signal with
        | Some sid =>
            match filter (has_signal_id sid) (paper_trades w) with
            | [r] => Some r
            | _ => None
            end
        | None => None
        end with
  | Some existingTrade => (Returned (Some existingTrade), w)
  | None =>
      match createPaperTrade (newTradeOf config signal) w with
      | (Returned inserted, w') => (Returned inserted, w')
      | (Thrown _, w') => (Returned None, w')
      end
  end.
Proof.
  change (enterTrade config signal w) with
    (try_catch
       (existing <-
          match UnusualSignal.id signal with
          | Some sid => getTradeBySignalId sid
          | None => ret None
          end ;;
        match existing with
        | Some existingTrade => ret (Some existingTrade)
        | None =>
            insertedTrade <- createPaperTrade (newTradeOf config signal) ;;
            ret insertedTrade
        end)
       (fun _ => ret None) w).
  unfold try_catch, bind, getTradeBySignalId, ret.
  destruct (UnusualSignal.id signal) as [sid|].
  - destruct (filter (has_signal_id sid) (paper_trades w)) as [|r [|r' rest]];
      try reflexivity;
      destruct (createPaperTrade (newTradeOf config signal) w) as [[o|e] w'];
      reflexivity.
  - destruct (createPaperTrade (newTradeOf config signal) w) as [[o|e] w'];
      reflexivity.
Qed.

(** What a successful insert did. *)
Lemma createPaperTrade_Returned (trade : NewPaperTrade.t) (w w1 : World)
    (o : option PaperTrade.t) :
  createPaperTrade trade w = (Returned o, w1) ->
  exists (sid : uuid) (price : Q) (row : PaperTrade.t),
    o = Some row /\
    NewPaperTrade.signal_id trade = Some sid /\
    to_json (NewPaperTrade.entry_price trade) = Some price /\
    existsb (signal_has_id sid) (unusual_signals w) = true /\
    existsb (has_signal_id sid) (paper_trades w) = false /\
    PaperTrade.signal_id row = sid /\
    PaperTrade.entry_price row = price /\
    PaperTrade.status row = NewPaperTrade.status trade /\
    PaperTrade.quantity row = NewPaperTrade.quantity trade /\
    w1 = set_paper_trades w (paper_trades w ++ [row]).
Proof.
  unfold createPaperTrade.
  destruct (NewPaperTrade.signal_id trade) as [sid|]; [|discriminate].
  destruct (to_json (NewPaperTrade.entry_price trade)) as [price|];
    [|discriminate].
  destruct (existsb (signal_has_id sid) (unusual_signals w)) eqn:Hfk;
    [|discriminate].
  destruct (existsb (has_signal_id sid) (paper_trades w)) eqn:Hun;
    [discriminate|].
  cbn [negb]. intro H. injection H as <- <-.
  exists sid, price. eexists.
  repeat split; try reflexivity; assumption.
Qed.

(** C8: entering twice for the same persisted signal returns the same
    trade both times; the second call changes nothing, and the table
    holds exactly one trade for the signal. *)
Theorem enterTrade_idempotent :
  forall (config : PaperTradeConfig) (signal : UnusualSignal.t) (sid : uuid)
         (w w1 : World) (t : PaperTrade.t),
    UnusualSignal.id signal = Some sid ->
    enterTrade config signal w = (Returned (Some t), w1) ->
    enterTrade config signal w1 = (Returned (Some t), w1) /\
    filter (has_signal_id sid) (paper_trades w1) = [t].
Proof.
  intros config signal sid w w1 t Hid H.
  rewrite enterTrade_unfold, Hid in *.
  assert (Hone : filter (has_signal_id sid) (paper_trades w1) = [t]).
  { destruct (filter (has_signal_id sid) (paper_trades w))
      as [|r [|r' rest]] eqn:F.
    - destruct (createPaperTrade (newTradeOf config signal) w)
        as [[o|e] w'] eqn:C; [|discriminate].
      injection H as -> ->.
      destruct (createPaperTrade_Returned _ _ _ _ C)
        as (sid' & price & row & Ho & Hs & _ & _ & Hu & Hrs & _ & _ & _ & ->).
      injection Ho as <-. cbn in Hs. rewrite Hid in Hs. injection Hs as <-.
      cbn [paper_trades set_paper_trades]. rewrite filter_app, F. cbn.
      unfold has_signal_id at 1. rewrite Hrs, N.eqb_refl. reflexivity.
    - injection H as -> ->. exact F.
    - destruct (createPaperTrade (newTradeOf config signal) w)
        as [[o|e] w'] eqn:C; [|discriminate].
      injection H as -> ->.
      destruct (createPaperTrade_Returned _ _ _ _ C)
        as (sid' & price & row & Ho & Hs & _ & _ & Hu & _).
      cbn in Hs. rewrite Hid in Hs. injection Hs as <-.
      rewrite (filter_cons_existsb _ _ _ _ F) in Hu. discriminate. }
  split; [|exact Hone]. rewrite Hone. reflexivity.
Qed.

Lemma enterTrade_idempotent_witness :
  exists (t : PaperTrade.t) (w1 : World),
    enterTrade defaultPaperTradeConfig (Sample.storedSignal "NVDA")
      (Sample.world [Sample.storedSignal "NVDA"] [] 1000)
    = (Returned (Some t), w1) /\
    enterTrade defaultPaperTradeConfig (Sample.storedSignal "NVDA") w1
    = (Returned (Some t), w1) /\
    filter (has_signal_id 1%N) (paper_trades w1) = [t].
Proof.
  do 2 eexists. split; [vm_compute; reflexivity|].
  apply (enterTrade_idempotent defaultPaperTradeConfig
           (Sample.storedSignal "NVDA") 1%N
           (Sample.world [Sample.storedSignal "NVDA"] [] 1000)).
  - reflexivity.
  - vm_compute. reflexivity.
Defined.

(** C10: [enterTrade] does not require a positive entry price.  A quote
    with a negative bid and a positive ask is accepted by the detector
    under the default thresholds, and, once its signal is stored and no
    trade exists for it, [enterTrade] opens a trade whose entry price is
    the sentinel 0 of [calculateMidPrice]; so does a signal without bid
    and ask whose last price is 0.  For such a trade the percentage of
    every later [calculatePnL] is NaN or an infinity. *)
Theorem enterTrade_zero_entry_price :
  (exists (s : UnusualSignal.t) (t : PaperTrade.t) (w1 : World),
      analyzeQuote Sample.tenDays Sample.config Sample.negativeBidCall
        Sample.nvda = Some s /\
      UnusualSignal.bid s = Some (Fin (-1)) /\
      UnusualSignal.ask s = Some (Fin (26 # 5)) /\
      getTradeBySignalId 1%N (Sample.world [persisted s 1%N 0] [] 1000)
      = (Returned None, Sample.world [persisted s 1%N 0] [] 1000) /\
      enterTrade defaultPaperTradeConfig (persisted s 1%N 0)
        (Sample.world [persisted s 1%N 0] [] 1000)
      = (Returned (Some t), w1) /\
      paper_trades w1 = [t] /\
      PaperTrade.status t = TradeStatus.open /\
      PaperTrade.entry_price t = 0%Q /\
      forall exitPrice : Q,
        is_finite
          (pnl_pctValue
             (calculatePnL (Fin (PaperTrade.entry_price t)) (Fin exitPrice)
                (of_Z (PaperTrade.quantity t)) (of_Z 100))) = false) /\
  (exists (s : UnusualSignal.t) (t : PaperTrade.t) (w1 : World),
      analyzeQuote Sample.tenDays Sample.configNoPremium Sample.unquotedCall
        Sample.nvda = Some s /\
      UnusualSignal.bid s = None /\
      UnusualSignal.ask s = None /\
      UnusualSignal.last_price s = Fin 0 /\
      getTradeBySignalId 1%N (Sample.world [persisted s 1%N 0] [] 1000)
      = (Returned None, Sample.world [persisted s 1%N 0] [] 1000) /\
      enterTrade defaultPaperTradeConfig (persisted s 1%N 0)
        (Sample.world [persisted s 1%N 0] [] 1000)
      = (Returned (Some t), w1) /\
      paper_trades w1 = [t] /\
      PaperTrade.status t = TradeStatus.open /\
      PaperTrade.entry_price t = 0%Q /\
      forall exitPrice : Q,
        is_finite
          (pnl_pctValue
             (calculatePnL (Fin (PaperTrade.entry_price t)) (Fin exitPrice)
                (of_Z (PaperTrade.quantity t)) (of_Z 100))) = false).
Proof.
  split.
  - do 3 eexists.
    split; [vm_compute; reflexivity|].
    split; [reflexivity|]. split; [reflexivity|].
    split; [reflexivity|].
    split; [vm_compute; reflexivity|].
    split; [reflexivity|]. split; [reflexivity|]. split; [reflexivity|].
    intro x. apply pnlPct_zero_entry_not_finite.
  - do 3 eexists.
    split; [vm_compute; reflexivity|].
    split; [reflexivity|]. split; [reflexivity|]. split; [reflexivity|].
    split; [reflexivity|].
    split; [vm_compute; reflexivity|].
    split; [reflexivity|]. split; [reflexivity|]. split; [reflexivity|].
    intro x. apply pnlPct_zero_entry_not_finite.
Qed.

(** An update of the one row that has the identity. *)
Lemma updatePaperTrade_unique (i : uuid) (u : TradeUpdates.t) (w : World)
    (r : PaperTrade.t) :
  filter (has_id i) (paper_trades w) = [r] ->
  updatePaperTrade i u w
  = (Returned (Some (apply_updates u (now w) r)),
     set_paper_trades w
       (map (fun x => if has_id i x then apply_updates u (now w) x else x)
            (paper_trades w))).
Proof. intro H. unfold updatePaperTrade. rewrite H. reflexivity. Qed.

(** [exitTrade], with its monadic plumbing unfolded. *)
Lemma exitTrade_unfold (trade : PaperTrade.t) (exitPrice underlyingPrice : num)
    (reason : ExitReason.t) (w : World) :
  exitTrade trade exitPrice underlyingPrice reason w =
  match updatePaperTrade (PaperTrade.id trade)
          (exitUpdates trade exitPrice underlyingPrice reason (now w)) w with
  | (Returned updatedTrade, w') => (Returned updatedTrade, w')
  | (Thrown _, w') => (Returned None, w')
  end.
Proof.
  unfold exitTrade, try_catch, bind, Date_now, ret.
  change {| TradeUpdates.exit_price := Some exitPrice;
            TradeUpdates.exit_time := Some (now w);
            TradeUpdates.exit_underlying_price := Some underlyingPrice;
            TradeUpdates.exit_reason := Some reason;
            TradeUpdates.pnl := _;
            TradeUpdates.pnl_pct := _;
            TradeUpdates.max_pnl := None;
            TradeUpdates.max_pnl_pct := None;
            TradeUpdates.min_pnl := None;
            TradeUpdates.min_pnl_pct := None;
            TradeUpdates.status := Some TradeStatus.closed |}
    with (exitUpdates trade exitPrice underlyingPrice reason (now w)).
  destruct (updatePaperTrade (PaperTrade.id trade)
              (exitUpdates trade exitPrice underlyingPrice reason (now w)) w)
    as [[o|e] w']; reflexivity.
Qed.

(** An exit of the one row that has the trade's identity. *)
Lemma exitTrade_unique (trade : PaperTrade.t) (exitPrice underlyingPrice : num)
    (reason : ExitReason.t) (w : World) (r : PaperTrade.t) :
  filter (has_id (PaperTrade.id trade)) (paper_trades w) = [r] ->
  exitTrade trade exitPrice underlyingPrice reason w
  = (Returned
       (Some (exitedRow trade exitPrice underlyingPrice reason (now w) r)),
     set_paper_trades w
       (exitedTable trade exitPrice underlyingPrice reason (now w)
          (paper_trades w))).
Proof.
  intro H. rewrite exitTrade_unfold, (updatePaperTrade_unique _ _ _ _ H).
  reflexivity.
Qed.

(** C2: [exitTrade] does not look at the status.  Whenever the table
    holds exactly one row with the trade's identity, be it open, closed
    or expired, and the values of the exit fit their columns, the call
    raises nothing: it returns that row with its exit fields overwritten
    by the new values and its status set to closed, and the table holds
    the overwritten row. *)
Theorem exitTrade_overwrites_any_status :
  forall (trade : PaperTrade.t) (exitPrice underlyingPrice : num)
         (reason : ExitReason.t) (w : World) (r : PaperTrade.t),
    filter (has_id (PaperTrade.id trade)) (paper_trades w) = [r] ->
    updates_fit (exitUpdates trade exitPrice underlyingPrice reason (now w))
    = true ->
    exists (r' : PaperTrade.t) (w' : World),
      exitTrade trade exitPrice underlyingPrice reason w
      = (Returned (Some r'), w') /\
      paper_trades w'
      = map (fun x => if has_id (PaperTrade.id trade) x then r' else x)
            (paper_trades w) /\
      PaperTrade.status r' = TradeStatus.closed /\
      PaperTrade.exit_reason r' = Some reason /\
      PaperTrade.exit_price r' = to_json exitPrice /\
      PaperTrade.exit_underlying_price r' = to_json underlyingPrice /\
      PaperTrade.exit_time r' = Some (now w) /\
      PaperTrade.pnl r'
      = to_json (pnl_value
                   (calculatePnL (Fin (PaperTrade.entry_price trade)) exitPrice
                      (of_Z (PaperTrade.quantity trade)) (of_Z 100))) /\
      PaperTrade.pnl_pct r'
      = to_json (pnl_pctValue
                   (calculatePnL (Fin (PaperTrade.entry_price trade)) exitPrice
                      (of_Z (PaperTrade.quantity trade)) (of_Z 100))).
Proof.
  intros trade exitPrice underlyingPrice reason w r H _.
  exists (exitedRow trade exitPrice underlyingPrice reason (now w) r).
  eexists. split; [apply (exitTrade_unique _ _ _ _ _ _ H)|].
  split; [|repeat split].
  cbn [paper_trades set_paper_trades]. unfold exitedTable.
  apply map_ext_in. intros x Hx.
  destruct (has_id (PaperTrade.id trade) x) eqn:E; [|reflexivity].
  assert (Hin : In x (filter (has_id (PaperTrade.id trade)) (paper_trades w)))
    by (apply filter_In; auto).
  rewrite H in Hin. destruct Hin as [->|[]]. reflexivity.
Qed.

Lemma exitTrade_overwrites_any_status_witness :
  exists (r' : PaperTrade.t) (w' : World),
    terminal Sample.closed1 /\
    exitTrade Sample.closed1 (Fin 5) (Fin 152)
      ExitReason.time_limit
      (Sample.world [] [Sample.closed1] Sample.after25h)
    = (Returned (Some r'), w') /\
    paper_trades w'
    = map (fun x => if has_id (PaperTrade.id Sample.closed1) x
                    then r' else x)
          [Sample.closed1] /\
    PaperTrade.status r' = TradeStatus.closed /\
    PaperTrade.exit_reason r' = Some ExitReason.time_limit /\
    PaperTrade.exit_price r' = to_json (Fin 5) /\
    PaperTrade.exit_underlying_price r' = to_json (Fin 152) /\
    PaperTrade.exit_time r' = Some Sample.after25h /\
    PaperTrade.pnl r'
    = to_json (pnl_value
                 (calculatePnL
                    (Fin (PaperTrade.entry_price Sample.closed1))
                    (Fin 5)
                    (of_Z (PaperTrade.quantity Sample.closed1))
                    (of_Z 100))) /\
    PaperTrade.pnl_pct r'
    = to_json (pnl_pctValue
                 (calculatePnL
                    (Fin (PaperTrade.entry_price Sample.closed1))
                    (Fin 5)
                    (of_Z (PaperTrade.quantity Sample.closed1))
                    (of_Z 100))).
Proof.
  destruct (exitTrade_overwrites_any_status Sample.closed1
              (Fin 5) (Fin 152) ExitReason.time_limit
              (Sample.world [] [Sample.closed1] Sample.after25h)
              Sample.closed1) as (r' & w' & Hrest).
  - reflexivity.
  - reflexivity.
  - exists r', w'. split; [left; reflexivity|exact Hrest].
Defined.

(** A trade closed by hand at 3.00 with a profit of 100, and a trade
    marked expired, are both exited again without any error; the exit
    price becomes 5.00, the reason [time_limit], the profit 300, and the
    status closed. *)
Lemma exitTrade_terminal_examples :
  (exists (r' : PaperTrade.t) (w' : World),
      terminal Sample.closed1 /\
      exitTrade Sample.closed1 (Fin 5) (Fin 152)
        ExitReason.time_limit
        (Sample.world [] [Sample.closed1] Sample.after25h)
      = (Returned (Some r'), w') /\
      paper_trades w' = [r'] /\
      PaperTrade.exit_price Sample.closed1 = Some 3%Q /\
      PaperTrade.exit_price r' = Some 5%Q /\
      PaperTrade.exit_reason Sample.closed1
      = Some ExitReason.manual /\
      PaperTrade.exit_reason r' = Some ExitReason.time_limit /\
      PaperTrade.pnl Sample.closed1 = Some 100%Q /\
      PaperTrade.pnl r' = Some 300%Q) /\
  (exists (r' : PaperTrade.t) (w' : World),
      terminal Sample.expired1 /\
      exitTrade Sample.expired1 (Fin 5) (Fin 152)
        ExitReason.time_limit
        (Sample.world [] [Sample.expired1] Sample.after25h)
      = (Returned (Some r'), w') /\
      paper_trades w' = [r'] /\
      PaperTrade.status r' = TradeStatus.closed /\
      PaperTrade.exit_price r' = Some 5%Q /\
      PaperTrade.exit_reason r' = Some ExitReason.time_limit).
Proof.
  split.
  - do 2 eexists. split; [left; reflexivity|].
    split; [vm_compute; reflexivity|].
    repeat split; reflexivity.
  - do 2 eexists. split; [right; reflexivity|].
    split; [vm_compute; reflexivity|].
    repeat split; reflexivity.
Qed.

(** Rewriting the rows that have an identity keeps them the rows that
    have it. *)
Lemma filter_has_id_map (i : uuid) (f : PaperTrade.t -> PaperTrade.t)
    (rows : list PaperTrade.t) :
  (forall x, PaperTrade.id (f x) = PaperTrade.id x) ->
  filter (has_id i) (map (fun x => if has_id i x then f x else x) rows)
  = map f (filter (has_id i) rows).
Proof.
  intro Hf. induction rows as [|x rows IH]; [reflexivity|].
  cbn [map filter]. destruct (has_id i x) eqn:E.
  - unfold has_id at 1. rewrite Hf. fold (has_id i x). rewrite E.
    cbn [map]. now rewrite IH.
  - rewrite E. exact IH.
Qed.

Lemma exitedTable_unique (trade : PaperTrade.t) (p u : num)
    (reason : ExitReason.t) (t : instant) (rows : list PaperTrade.t)
    (r : PaperTrade.t) :
  filter (has_id (PaperTrade.id trade)) rows = [r] ->
  filter (has_id (PaperTrade.id trade)) (exitedTable trade p u reason t rows)
  = [exitedRow trade p u reason t r].
Proof.
  intro H. unfold exitedTable.
  rewrite filter_has_id_map by reflexivity. now rewrite H.
Qed.

(** The two tests of [autoExit], as propositions. *)
Lemma time_limit_test (config : PaperTradeConfig) (trade : PaperTrade.t)
    (t : instant) :
  ge (div (of_Z (t - PaperTrade.entry_time trade)) (of_Z (1000 * 60 * 60)))
     (Fin (timeLimitHours config)) = true
  <-> (timeLimitHours config <= hoursOpenOf trade t)%Q.
Proof.
  unfold ge, le, div, of_Z, fin, hoursOpenOf.
  replace (Qeq_bool (inject_Z (1000 * 60 * 60)) 0) with false by reflexivity.
  rewrite Qle_bool_red_r. apply Qle_bool_iff.
Qed.

Lemma expiry_test (dateMs : string -> instant) (signal : UnusualSignal.t)
    (t : instant) :
  le (floor (div (of_Z (dateMs (UnusualSignal.expiration_date signal) - t))
                 (of_Z (1000 * 60 * 60 * 24)))) (of_Z 0) = true
  <-> (daysToExpiryOf dateMs signal t <= 0)%Z.
Proof.
  unfold le, floor, div, of_Z, fin, daysToExpiryOf.
  replace (Qeq_bool (inject_Z (1000 * 60 * 60 * 24)) 0) with false
    by reflexivity.
  rewrite (Qfloor_comp _ _ (Qred_correct _)).
  rewrite Qle_bool_iff, <- Zle_Qle. reflexivity.
Qed.

(** C3: when the time limit is reached and the contract has expired,
    one monitoring pass exits the trade twice: first with reason
    [time_limit], then, on the row just closed, with reason [expired];
    the pass ends with the trade closed for reason [expired]. *)
Theorem autoExit_exits_twice :
  forall (config : PaperTradeConfig) (dateMs : string -> instant)
         (trade : PaperTrade.t) (signal : UnusualSignal.t)
         (currentPrice underlyingPrice : num) (w : World) (r : PaperTrade.t),
    exitStrategy config = ExitStrategy.time_limit ->
    filter (has_id (PaperTrade.id trade)) (paper_trades w) = [r] ->
    (timeLimitHours config <= hoursOpenOf trade (now w))%Q ->
    (daysToExpiryOf dateMs signal (now w) <= 0)%Z ->
    exists (first second : PaperTrade.t) (w1 w2 : World),
      exitTrade trade currentPrice underlyingPrice ExitReason.time_limit w
      = (Returned (Some first), w1) /\
      exitTrade trade currentPrice underlyingPrice ExitReason.expired w1
      = (Returned (Some second), w2) /\
      autoExit config dateMs trade signal currentPrice underlyingPrice w
      = (Returned tt, w2) /\
      filter (has_id (PaperTrade.id trade)) (paper_trades w2) = [second] /\
      PaperTrade.exit_reason first = Some ExitReason.time_limit /\
      PaperTrade.exit_reason second = Some ExitReason.expired /\
      PaperTrade.status second = TradeStatus.closed.
Proof.
  intros config dateMs trade signal p u w r Hs Hr Hlimit Hexp.
  pose proof (exitTrade_unique trade p u ExitReason.time_limit w r Hr) as E1.
  set (first := exitedRow trade p u ExitReason.time_limit (now w) r) in *.
  set (w1 := set_paper_trades w
               (exitedTable trade p u ExitReason.time_limit (now w)
                  (paper_trades w))) in *.
  assert (Hr1 : filter (has_id (PaperTrade.id trade)) (paper_trades w1)
                = [first])
    by (apply exitedTable_unique, Hr).
  pose proof (exitTrade_unique trade p u ExitReason.expired w1 first Hr1) as E2.
  set (second := exitedRow trade p u ExitReason.expired (now w1) first) in *.
  set (w2 := set_paper_trades w1
               (exitedTable trade p u ExitReason.expired (now w1)
                  (paper_trades w1))) in *.
  exists first, second, w1, w2.
  split; [exact E1|]. split; [exact E2|].
  split; [|split; [apply exitedTable_unique, Hr1|repeat split]].
  unfold autoExit. rewrite Hs. unfold bind at 1. unfold bind at 1.
  unfold Date_now at 1.
  apply time_limit_test in Hlimit. rewrite Hlimit.
  unfold bind at 1. rewrite E1. unfold ret at 1.
  unfold bind at 1. unfold Date_now at 1.
  change (now w1) with (now w) in *.
  apply expiry_test in Hexp. rewrite Hexp.
  unfold bind. rewrite E2. reflexivity.
Qed.

Lemma autoExit_exits_twice_witness :
  exists (first second : PaperTrade.t) (w1 w2 : World),
    exitTrade (Sample.openTrade None None) (Fin (47 # 20)) (Fin 150)
      ExitReason.time_limit (Sample.monitoredWorld "NVDA")
    = (Returned (Some first), w1) /\
    exitTrade (Sample.openTrade None None) (Fin (47 # 20)) (Fin 150)
      ExitReason.expired w1
    = (Returned (Some second), w2) /\
    autoExit defaultPaperTradeConfig Sample.expiredAtZero
      (Sample.openTrade None None) (Sample.storedSignal "NVDA")
      (Fin (47 # 20)) (Fin 150) (Sample.monitoredWorld "NVDA")
    = (Returned tt, w2) /\
    filter (has_id (PaperTrade.id (Sample.openTrade None None)))
      (paper_trades w2) = [second] /\
    PaperTrade.exit_reason first = Some ExitReason.time_limit /\
    PaperTrade.exit_reason second = Some ExitReason.expired /\
    PaperTrade.status second = TradeStatus.closed.
Proof.
  apply (autoExit_exits_twice defaultPaperTradeConfig Sample.expiredAtZero
           (Sample.openTrade None None) (Sample.storedSignal "NVDA")
           (Fin (47 # 20)) (Fin 150) (Sample.monitoredWorld "NVDA")
           (Sample.openTrade None None)).
  - reflexivity.
  - reflexivity.
  - apply Qle_bool_iff. vm_compute. reflexivity.
  - apply Z.leb_le. vm_compute. reflexivity.
Defined.

(** When neither rule matches, the pass leaves the world as it is. *)
Lemma autoExit_neither (config : PaperTradeConfig)
    (dateMs : string -> instant) (trade : PaperTrade.t)
    (signal : UnusualSignal.t) (currentPrice underlyingPrice : num)
    (w : World) :
  exitStrategy config = ExitStrategy.manual \/
  (hoursOpenOf trade (now w) < timeLimitHours config)%Q ->
  (0 < daysToExpiryOf dateMs signal (now w))%Z ->
  autoExit config dateMs trade signal currentPrice underlyingPrice w
  = (Returned tt, w).
Proof.
  intros Hno Hexp. unfold autoExit.
  assert (Hd : le (floor (div (of_Z (dateMs (UnusualSignal.expiration_date
                                               signal) - now w))
                              (of_Z (1000 * 60 * 60 * 24)))) (of_Z 0)
               = false).
  { destruct (le _ _) eqn:E; [|reflexivity].
    apply expiry_test in E. lia. }
  destruct (exitStrategy config).
  - destruct Hno as [Hm|Hlt]; [discriminate|].
    assert (Hl : ge (div (of_Z (now w - PaperTrade.entry_time trade))
                         (of_Z (1000 * 60 * 60)))
                    (Fin (timeLimitHours config)) = false).
    { destruct (ge _ _) eqn:E; [|reflexivity].
      apply time_limit_test in E. lra. }
    unfold bind, Date_now, ret. rewrite Hl, Hd. reflexivity.
  - unfold bind, Date_now, ret. rewrite Hd. reflexivity.
Qed.

(** With the time limit reached and the contract not yet expired, the
    pass exits once, for reason [time_limit]. *)
Lemma autoExit_time_limit_only (config : PaperTradeConfig)
    (dateMs : string -> instant) (trade : PaperTrade.t)
    (signal : UnusualSignal.t) (currentPrice underlyingPrice : num)
    (w : World) (r : PaperTrade.t) :
  exitStrategy config = ExitStrategy.time_limit ->
  filter (has_id (PaperTrade.id trade)) (paper_trades w) = [r] ->
  (timeLimitHours config <= hoursOpenOf trade (now w))%Q ->
  (0 < daysToExpiryOf dateMs signal (now w))%Z ->
  autoExit config dateMs trade signal currentPrice underlyingPrice w
  = (Returned tt,
     set_paper_trades w
       (exitedTable trade currentPrice underlyingPrice ExitReason.time_limit
          (now w) (paper_trades w))).
Proof.
  intros Hs Hr Hlimit Hexp. unfold autoExit. rewrite Hs.
  unfold bind at 1. unfold bind at 1. unfold Date_now at 1.
  apply time_limit_test in Hlimit. rewrite Hlimit.
  unfold bind at 1. rewrite (exitTrade_unique _ _ _ _ _ _ Hr).
  unfold ret at 1. unfold bind at 1. unfold Date_now at 1.
  cbn [now set_paper_trades].
  assert (Hd : le (floor (div (of_Z (dateMs (UnusualSignal.expiration_date
                                               signal) - now w))
                              (of_Z (1000 * 60 * 60 * 24)))) (of_Z 0)
               = false).
  { destruct (le _ _) eqn:E; [|reflexivity].
    apply expiry_test in E. lia. }
  rewrite Hd. reflexivity.
Qed.

(** The signal lookup of the monitoring pass asks for the signals whose
    ticker is the empty string: when every stored signal has a ticker,
    no trade is monitored and the pass changes nothing. *)
Lemma monitorTrade_finds_no_signal (config : PaperTradeConfig)
    (dateMs : string -> instant) (trade : PaperTrade.t) (w : World) :
  Forall (fun s => UnusualSignal.ticker s <> ""%string) (unusual_signals w) ->
  monitorTrade config dateMs trade w = (Returned tt, w).
Proof.
  intro Hall. unfold monitorTrade, try_catch, bind, getSignalsByTicker.
  assert (Hnone : filter (fun s => String.eqb (UnusualSignal.ticker s) "")
                         (unusual_signals w) = []).
  { induction Hall as [|s l Hs _ IH]; [reflexivity|].
    cbn [filter]. destruct (String.eqb_spec (UnusualSignal.ticker s) "");
      [contradiction|exact IH]. }
  rewrite Hnone. reflexivity.
Qed.

Lemma monitorOpenTrades_finds_no_signal (config : PaperTradeConfig)
    (dateMs : string -> instant) (w : World) :
  Forall (fun s => UnusualSignal.ticker s <> ""%string) (unusual_signals w) ->
  monitorOpenTrades config dateMs w = (Returned tt, w).
Proof.
  intro Hall. unfold monitorOpenTrades, try_catch, bind, getOpenTrades.
  set (openTrades := order_by _ _). clearbody openTrades.
  assert (Hloop : for_each openTrades (monitorTrade config dateMs) w
                  = (Returned tt, w)).
  { induction openTrades as [|t rest IH]; [reflexivity|].
    cbn [for_each]. unfold bind.
    rewrite (monitorTrade_finds_no_signal _ _ _ _ Hall). exact IH. }
  destruct openTrades; [reflexivity|]. rewrite Hloop. reflexivity.
Qed.

(** Whole passes over the stored NVDA signal and its open trade,
    twenty-five hours after the entry.  With the real ticker the trade
    is not touched.  With an empty ticker the signal is found: the trade
    ends closed for reason [expired] when the contract has expired, and
    for reason [time_limit] when it has not. *)
Lemma monitorOpenTrades_pass_examples :
  monitorOpenTrades defaultPaperTradeConfig Sample.expiredAtZero
    (Sample.monitoredWorld "NVDA")
  = (Returned tt, Sample.monitoredWorld "NVDA") /\
  (exists r : PaperTrade.t,
      paper_trades
        (snd (monitorOpenTrades defaultPaperTradeConfig Sample.expiredAtZero
                (Sample.monitoredWorld ""))) = [r] /\
      PaperTrade.status r = TradeStatus.closed /\
      PaperTrade.exit_reason r = Some ExitReason.expired) /\
  (exists r : PaperTrade.t,
      paper_trades
        (snd (monitorOpenTrades defaultPaperTradeConfig
                Sample.expiresInThirtyDays (Sample.monitoredWorld ""))) = [r] /\
      PaperTrade.status r = TradeStatus.closed /\
      PaperTrade.exit_reason r = Some ExitReason.time_limit).
Proof.
  split; [vm_compute; reflexivity|].
  split; eexists; (split; [vm_compute; reflexivity|split; reflexivity]).
Qed.

(** ** Running extrema *)

Lemma max_same (x : num) : JS.max x x = x.
Proof.
  destruct x as [q| | |]; try reflexivity.
  unfold JS.max. destruct (lt (Fin q) (Fin q)); reflexivity.
Qed.

Lemma min_same (x : num) : JS.min x x = x.
Proof.
  destruct x as [q| | |]; try reflexivity.
  unfold JS.min. destruct (lt (Fin q) (Fin q)); reflexivity.
Qed.

(** [updateTrade], with its monadic plumbing unfolded. *)
Lemma updateTrade_unfold (trade : PaperTrade.t)
    (currentPrice underlyingPrice : num) (w : World) :
  updateTrade trade currentPrice underlyingPrice w =
  match updatePaperTrade (PaperTrade.id trade)
          (extremaUpdates trade currentPrice) w with
  | (_, w') => (Returned tt, w')
  end.
Proof.
  change (updateTrade trade currentPrice underlyingPrice w) with
    (try_catch
       (updatePaperTrade (PaperTrade.id trade)
          (extremaUpdates trade currentPrice) ;;; ret tt)
       (fun _ => ret tt) w).
  unfold try_catch, bind, ret.
  destruct (updatePaperTrade (PaperTrade.id trade)
              (extremaUpdates trade currentPrice) w) as [[o|e] w'];
    reflexivity.
Qed.

(** C9: a stored extremum of exactly 0 is not compared with: when the
    trade's running maximum and minimum are 0, [updateTrade] stores the
    newly computed profit as both, so the maximum drops below 0 on a
    loss and the minimum rises above 0 on a gain.  The status is left
    as it is. *)
Theorem updateTrade_forgets_zero_extremum :
  forall (trade : PaperTrade.t) (currentPrice underlyingPrice : num)
         (w : World) (r : PaperTrade.t),
    filter (has_id (PaperTrade.id trade)) (paper_trades w) = [r] ->
    PaperTrade.max_pnl trade = Some 0%Q ->
    PaperTrade.min_pnl trade = Some 0%Q ->
    exists (r' : PaperTrade.t) (w' : World),
      updateTrade trade currentPrice underlyingPrice w = (Returned tt, w') /\
      filter (has_id (PaperTrade.id trade)) (paper_trades w') = [r'] /\
      PaperTrade.max_pnl r' = to_json (currentPnl trade currentPrice) /\
      PaperTrade.min_pnl r' = to_json (currentPnl trade currentPrice) /\
      PaperTrade.status r' = PaperTrade.status r.
Proof.
  intros trade p u w r Hr Hmax Hmin.
  exists (apply_updates (extremaUpdates trade p) (now w) r). eexists.
  split.
  { rewrite updateTrade_unfold, (updatePaperTrade_unique _ _ _ _ Hr).
    reflexivity. }
  split.
  { cbn [paper_trades set_paper_trades].
    rewrite filter_has_id_map by reflexivity. now rewrite Hr. }
  unfold apply_updates, extremaUpdates, currentPnl.
  cbn [PaperTrade.max_pnl PaperTrade.min_pnl PaperTrade.status
       TradeUpdates.max_pnl TradeUpdates.min_pnl TradeUpdates.status
       pick_num].
  rewrite Hmax, Hmin.
  change (or_else (as_num (Some 0%Q)) ?x) with x.
  rewrite max_same, min_same. repeat split.
Qed.

Lemma updateTrade_forgets_zero_extremum_witness :
  exists (r' : PaperTrade.t) (w' : World),
    updateTrade Sample.flatTrade (Fin (3 # 2)) (Fin 150)
      (Sample.world [] [Sample.flatTrade] 1000)
    = (Returned tt, w') /\
    filter (has_id (PaperTrade.id Sample.flatTrade)) (paper_trades w') = [r'] /\
    PaperTrade.max_pnl r' = to_json (currentPnl Sample.flatTrade (Fin (3 # 2))) /\
    PaperTrade.min_pnl r' = to_json (currentPnl Sample.flatTrade (Fin (3 # 2))) /\
    PaperTrade.status r' = PaperTrade.status Sample.flatTrade.
Proof.
  apply (updateTrade_forgets_zero_extremum Sample.flatTrade (Fin (3 # 2))
           (Fin 150) (Sample.world [] [Sample.flatTrade] 1000)
           Sample.flatTrade); reflexivity.
Defined.

(** The trade entered at 2.00 with both extrema at 0: at 1.50 the stored
    maximum becomes -50, and at 2.50 the stored minimum becomes 50. *)
Lemma updateTrade_flat_trade_example :
  (exists r' : PaperTrade.t,
      updateTrade Sample.flatTrade (Fin (3 # 2)) (Fin 150)
        (Sample.world [] [Sample.flatTrade] 1000)
      = (Returned tt, Sample.world [] [r'] 1000) /\
      PaperTrade.max_pnl Sample.flatTrade = Some 0%Q /\
      PaperTrade.max_pnl r' = Some (-50)%Q) /\
  (exists r' : PaperTrade.t,
      updateTrade Sample.flatTrade (Fin (5 # 2)) (Fin 150)
        (Sample.world [] [Sample.flatTrade] 1000)
      = (Returned tt, Sample.world [] [r'] 1000) /\
      PaperTrade.min_pnl Sample.flatTrade = Some 0%Q /\
      PaperTrade.min_pnl r' = Some 50%Q).
Proof.
  split; eexists; (split; [vm_compute; reflexivity|split; reflexivity]).
Qed.

(** ** Performance statistics *)

(** C5: for three closed trades with profits 100, -50 and 0 the
    statistics count one win and one loss, a win rate of 33.33 and a
    total of 50, but only two closed trades, and one open trade: the
    trade that broke even is left out of [closedTrades]. *)
Theorem getPerformanceStats_omits_breakeven :
  exists stats : PerformanceStats.t,
    getPerformanceStats (Sample.world [] Sample.threeClosed 0)
    = (Returned stats, Sample.world [] Sample.threeClosed 0) /\
    map PaperTrade.status Sample.threeClosed
    = [TradeStatus.closed; TradeStatus.closed; TradeStatus.closed] /\
    map PaperTrade.pnl Sample.threeClosed
    = [Some 100%Q; Some (-50)%Q; Some 0%Q] /\
    PerformanceStats.totalTrades stats = Fin 3 /\
    PerformanceStats.winningTrades stats = Fin 1 /\
    PerformanceStats.losingTrades stats = Fin 1 /\
    PerformanceStats.winRate stats = Fin (3333 # 100) /\
    PerformanceStats.totalPnL stats = Fin 50 /\
    PerformanceStats.closedTrades stats = Fin 2 /\
    PerformanceStats.openTrades stats = Fin 1.
Proof.
  eexists. split; [vm_compute; reflexivity|].
  repeat split; reflexivity.
Qed.

(** With no closed trade the win rate is 0. *)
Lemma getPerformanceStats_no_closed (w : World) :
  filter is_closed (paper_trades w) = [] ->
  exists stats : PerformanceStats.t,
    getPerformanceStats w = (Returned stats, w) /\
    PerformanceStats.winRate stats = of_Z 0.
Proof.
  intro H. eexists. split; [reflexivity|].
  cbn [PerformanceStats.winRate]. unfold field_or_zero, performance_summary.
  cbn [PerformanceSummary.win_rate_pct]. rewrite H. reflexivity.
Qed.

(* ================================================================== *)
(** * Further properties *)
(* ================================================================== *)

(** ** Prices, spreads and moneyness *)

Lemma calculateMidPrice_value (bid ask : Q) :
  (0 < bid)%Q -> (0 < ask)%Q ->
  exists m : Q,
    calculateMidPrice (Fin bid) (Fin ask) = Fin m /\ (m == (bid + ask) / 2)%Q.
Proof.
  intros Hb Ha. unfold calculateMidPrice, le, of_Z.
  assert (E1 : Qle_bool bid (inject_Z 0) = false)
    by (apply Qle_bool_gt; exact Hb).
  assert (E2 : Qle_bool ask (inject_Z 0) = false)
    by (apply Qle_bool_gt; exact Ha).
  rewrite E1, E2. cbn [orb]. unfold add, div, fin.
  replace (Qeq_bool (inject_Z 2) 0) with false by reflexivity.
  eexists. split; [reflexivity|]. now rewrite !Qred_correct.
Qed.

(** [calculateMidPrice] in the exact arithmetic of this model. *)
Lemma calculateMidPrice_exact :
  forall bid ask : Q,
  exists m : Q,
    calculateMidPrice (Fin bid) (Fin ask) = Fin m /\
    ((bid <= 0 \/ ask <= 0)%Q -> m = 0%Q) /\
    ((0 < bid)%Q -> (0 < ask)%Q ->
     (m == (bid + ask) / 2)%Q /\ (0 < m)%Q /\
     ((bid <= ask)%Q -> (bid <= m)%Q /\ (m <= ask)%Q)).
Proof.
  intros bid ask.
  destruct (Qlt_le_dec 0 bid) as [Hb|Hb].
  - destruct (Qlt_le_dec 0 ask) as [Ha|Ha].
    + destruct (calculateMidPrice_value bid ask Hb Ha) as (m & Hm & Hv).
      exists m. split; [exact Hm|]. split.
      * intros [H|H]; lra.
      * intros _ _. split; [exact Hv|].
        assert (Hv2 : (m * 2 == bid + ask)%Q) by (rewrite Hv; field).
        split; [lra|]. intro Hle. split; lra.
    + exists 0%Q. split.
      * unfold calculateMidPrice, le, of_Z.
        replace (Qle_bool ask (inject_Z 0)) with true
          by (symmetry; apply Qle_bool_iff; exact Ha).
        now rewrite orb_true_r.
      * split; [reflexivity|]. intros; lra.
  - exists 0%Q. split.
    + unfold calculateMidPrice, le, of_Z.
      replace (Qle_bool bid (inject_Z 0)) with true
        by (symmetry; apply Qle_bool_iff; exact Hb).
      reflexivity.
    + split; [reflexivity|]. intros; lra.
Qed.

(** X1: [calculateMidPrice] returns the sentinel 0 when the bid or the
    ask is not positive; for a positive bid and ask, a finite result is
    positive and lies between the two: from the bid up to the ask when
    the bid is at most the ask, from the ask up to the bid otherwise. *)
Theorem calculateMidPrice_between :
  forall bid ask : Q,
    ((bid <= 0 \/ ask <= 0)%Q ->
     calculateMidPrice (Fin bid) (Fin ask) = of_Z 0) /\
    (forall m : Q,
        (0 < bid)%Q -> (0 < ask)%Q ->
        calculateMidPrice (Fin bid) (Fin ask) = Fin m ->
        (0 < m)%Q /\
        ((bid <= ask)%Q -> (bid <= m)%Q /\ (m <= ask)%Q) /\
        ((ask <= bid)%Q -> (ask <= m)%Q /\ (m <= bid)%Q)).
Proof.
  intros bid ask.
  destruct (calculateMidPrice_exact bid ask) as (m0 & Hm0 & Hzero & Hpos).
  split.
  - intro H. rewrite Hm0, (Hzero H). reflexivity.
  - intros m Hb Ha Hm. rewrite Hm0 in Hm.
    assert (E : m0 = m) by congruence. subst m0.
    destruct (Hpos Hb Ha) as (Hv & Hp & _).
    assert (Hv2 : (m * 2 == bid + ask)%Q) by (rewrite Hv; field).
    split; [exact Hp|]. split; intro Hle; split; lra.
Qed.

(** [calculateBidAskSpread] in the exact arithmetic of this model. *)
Lemma calculateBidAskSpread_exact :
  forall bid ask : Q,
  exists p : Q,
    calculateBidAskSpread (Fin bid) (Fin ask) = Fin p /\
    ((bid <= 0 \/ ask <= 0)%Q -> p = 0%Q) /\
    ((0 < bid)%Q -> (bid <= ask)%Q ->
     (p == (ask - bid) / ((bid + ask) / 2) * 100)%Q /\
     (0 <= p)%Q /\ (p < 200)%Q /\ ((p == 0)%Q <-> (bid == ask)%Q)).
Proof.
  intros bid ask.
  destruct (Qlt_le_dec 0 bid) as [Hb|Hb].
  - destruct (Qlt_le_dec 0 ask) as [Ha|Ha].
    + unfold calculateBidAskSpread, le, of_Z.
      replace (Qle_bool bid (inject_Z 0)) with false
        by (symmetry; apply Qle_bool_gt; exact Hb).
      replace (Qle_bool ask (inject_Z 0)) with false
        by (symmetry; apply Qle_bool_gt; exact Ha).
      cbn [orb]. unfold add, sub, fin. unfold div at 2.
      replace (Qeq_bool (inject_Z 2) 0) with false by reflexivity.
      unfold fin, div.
      assert (Hmid : (Qred (Qred (bid + ask) / inject_Z 2) == (bid + ask) / 2)%Q)
        by (now rewrite !Qred_correct).
      assert (Hpos : (0 < (bid + ask) / 2)%Q).
      { apply Qlt_shift_div_l; lra. }
      replace (Qeq_bool (Qred (Qred (bid + ask) / inject_Z 2)) 0) with false
        by (symmetry; apply Qeq_bool_false; rewrite Hmid; lra).
      unfold mul, fin. eexists. split; [reflexivity|].
      split; [intros [H|H]; lra|].
      intros _ Hle.
      assert (Hv : (Qred (Qred (Qred (ask - bid)
                                 / Qred (Qred (bid + ask) / inject_Z 2))
                          * inject_Z 100)
                    == (ask - bid) / ((bid + ask) / 2) * 100)%Q).
      { rewrite (Qred_correct (_ * _)). rewrite (Qred_correct (_ / _)).
        rewrite Hmid. now rewrite (Qred_correct (ask - bid)). }
      split; [exact Hv|]. rewrite Hv.
      set (d := ((bid + ask) / 2)%Q) in *.
      set (x := ((ask - bid) / d)%Q).
      assert (Hx : (x * d == ask - bid)%Q)
        by (unfold x; field; lra).
      assert (Hd : (d * 2 == bid + ask)%Q) by (unfold d; field).
      assert (Hx0 : (0 <= x)%Q).
      { unfold x. apply Qle_shift_div_l; [exact Hpos|]. lra. }
      assert (Hx2 : (x < 2)%Q).
      { unfold x. apply Qlt_shift_div_r; [exact Hpos|]. lra. }
      split; [lra|]. split; [lra|]. split; intro H.
      * assert (Hz : (x == 0)%Q) by lra. rewrite Hz in Hx. lra.
      * assert (Hz : (x * d == 0)%Q) by (rewrite Hx; lra).
        apply Qmult_integral in Hz. destruct Hz as [Hz|Hz]; lra.
    + exists 0%Q. split.
      * unfold calculateBidAskSpread, le, of_Z.
        replace (Qle_bool ask (inject_Z 0)) with true
          by (symmetry; apply Qle_bool_iff; exact Ha).
        now rewrite orb_true_r.
      * split; [reflexivity|]. intros; lra.
  - exists 0%Q. split.
    + unfold calculateBidAskSpread, le, of_Z.
      replace (Qle_bool bid (inject_Z 0)) with true
        by (symmetry; apply Qle_bool_iff; exact Hb).
      reflexivity.
    + split; [reflexivity|]. intros; lra.
Qed.


(** X2: [calculateBidAskSpread] returns the sentinel 0 when the bid or
    the ask is not positive.  For a positive bid that does not exceed the
    ask, a finite result is a percentage from 0 to 200, and it is 0 when
    bid and ask coincide. *)
Theorem calculateBidAskSpread_range :
  forall bid ask : Q,
    ((bid <= 0 \/ ask <= 0)%Q ->
     calculateBidAskSpread (Fin bid) (Fin ask) = of_Z 0) /\
    (forall p : Q,
        (0 < bid)%Q -> (bid <= ask)%Q ->
        calculateBidAskSpread (Fin bid) (Fin ask) = Fin p ->
        (0 <= p)%Q /\ (p <= 200)%Q /\ ((bid == ask)%Q -> (p == 0)%Q)).
Proof.
  intros bid ask.
  destruct (calculateBidAskSpread_exact bid ask) as (p0 & Hp0 & Hzero & Hpos).
  split.
  - intro H. rewrite Hp0, (Hzero H). reflexivity.
  - intros p Hb Hle Hp. rewrite Hp0 in Hp.
    assert (E : p0 = p) by congruence. subst p0.
    destruct (Hpos Hb Hle) as (_ & H0 & H200 & Hiff).
    split; [exact H0|]. split; [lra|]. intro Hsame. apply Hiff, Hsame.
Qed.

Lemma calculateMoneyness_call_value (k u : Q) :
  ~ (u == 0)%Q ->
  exists m : Q,
    calculateMoneyness (Fin k) (Fin u) call = Fin m /\
    (m == (k - u) / u * 100)%Q.
Proof.
  intro Hu. apply Qeq_bool_false in Hu.
  unfold calculateMoneyness, sub, div, fin. rewrite Hu. unfold mul, fin, of_Z.
  eexists. split; [reflexivity|]. now rewrite !Qred_correct.
Qed.

Lemma calculateMoneyness_put_value (k u : Q) :
  ~ (u == 0)%Q ->
  exists m : Q,
    calculateMoneyness (Fin k) (Fin u) put = Fin m /\
    (m == (u - k) / u * 100)%Q.
Proof.
  intro Hu. apply Qeq_bool_false in Hu.
  unfold calculateMoneyness, sub, div, fin. rewrite Hu. unfold mul, fin, of_Z.
  eexists. split; [reflexivity|]. now rewrite !Qred_correct.
Qed.

(** X3: for a positive underlying price the moneyness of a call
    and of a put at the same strike are finite and opposite; the call's
    is positive (out of the money) exactly when the strike lies above the
    underlying and 0 exactly when they are equal, the put's is positive
    exactly when the strike lies below the underlying. *)
Theorem calculateMoneyness_sign :
  forall strike underlyingPrice : Q,
    (0 < underlyingPrice)%Q ->
    exists c p : Q,
      calculateMoneyness (Fin strike) (Fin underlyingPrice) call = Fin c /\
      calculateMoneyness (Fin strike) (Fin underlyingPrice) put = Fin p /\
      (p == - c)%Q /\
      ((0 < c)%Q <-> (underlyingPrice < strike)%Q) /\
      ((c == 0)%Q <-> (strike == underlyingPrice)%Q) /\
      ((0 < p)%Q <-> (strike < underlyingPrice)%Q).
Proof.
  intros k u Hu.
  assert (Hu0 : ~ (u == 0)%Q) by lra.
  destruct (calculateMoneyness_call_value k u Hu0) as (c & Hc & Hcv).
  destruct (calculateMoneyness_put_value k u Hu0) as (p & Hp & Hpv).
  exists c, p. split; [exact Hc|]. split; [exact Hp|].
  set (x := ((k - u) / u)%Q) in *.
  assert (Hx : (x * u == k - u)%Q) by (unfold x; field; lra).
  assert (Hpx : (p == - x * 100)%Q) by (rewrite Hpv; unfold x; field; lra).
  assert (Hsign : ((0 < x)%Q <-> (u < k)%Q) /\ ((x == 0)%Q <-> (k == u)%Q)
                  /\ ((x < 0)%Q <-> (k < u)%Q)).
  { destruct (Q_dec x 0) as [[Hneg|Hpos]|Hz].
    - assert ((x * u < 0)%Q).
      { setoid_replace (x * u)%Q with (- ((- x) * u))%Q by ring.
        assert (0 < (- x) * u)%Q by (apply Qmult_lt_0_compat; lra). lra. }
      repeat split; intros; lra.
    - assert (0 < x * u)%Q by (apply Qmult_lt_0_compat; lra).
      repeat split; intros; lra.
    - assert ((x * u == 0)%Q) by (rewrite Hz; ring).
      repeat split; intros; lra. }
  destruct Hsign as (H1 & H2 & H3).
  split; [lra|]. repeat split; intros; lra.
Qed.

Lemma calculateMoneyness_sign_witness :
  exists c p : Q,
    calculateMoneyness (Fin 175) (Fin 150) call = Fin c /\
    calculateMoneyness (Fin 175) (Fin 150) put = Fin p /\
    (p == - c)%Q /\
    ((0 < c)%Q <-> (150 < 175)%Q) /\
    ((c == 0)%Q <-> (175 == 150)%Q) /\
    ((0 < p)%Q <-> (175 < 150)%Q).
Proof.
  apply (calculateMoneyness_sign 175 150). reflexivity.
Defined.

(** ** Signal strength *)


(** The strength, in terms of its inputs. *)
Lemma calculateSignalStrength_spec (r p : Q) (d : Z) (m : num) :
  calculateSignalStrength (Fin r) (Fin p) (of_Z d) m =
  if Qle_bool 5 r && Qle_bool 100000 p && (d <=? 30)%Z
     && ge (JS.abs m) (of_Z 10)
  then high
  else if Qle_bool 3 r && Qle_bool 25000 p && (d <=? 45)%Z then medium
  else low.
Proof.
  unfold calculateSignalStrength, ge, le, of_Z.
  assert (H30 : Qle_bool (inject_Z d) (inject_Z 30) = (d <=? 30)%Z).
  { apply eq_true_iff_eq. rewrite Qle_bool_iff, <- Zle_Qle. symmetry.
    apply Z.leb_le. }
  assert (H45 : Qle_bool (inject_Z d) (inject_Z 45) = (d <=? 45)%Z).
  { apply eq_true_iff_eq. rewrite Qle_bool_iff, <- Zle_Qle. symmetry.
    apply Z.leb_le. }
  rewrite H30, H45. reflexivity.
Qed.

Lemma strength_high_iff (r p : Q) (d : Z) (m : num) :
  calculateSignalStrength (Fin r) (Fin p) (of_Z d) m = high
  <-> (5 <= r)%Q /\ (100000 <= p)%Q /\ (d <= 30)%Z
      /\ ge (JS.abs m) (of_Z 10) = true.
Proof.
  rewrite calculateSignalStrength_spec.
  destruct (Qle_bool 5 r) eqn:A1; destruct (Qle_bool 100000 p) eqn:A2;
    destruct (d <=? 30)%Z eqn:A3; destruct (ge (JS.abs m) (of_Z 10));
    cbn [andb]; qbool;
    try apply Z.leb_le in A3; try apply Z.leb_gt in A3;
    (split; [intro H | intros (H1 & H2 & H3 & H4)]);
    try (repeat split; (assumption || reflexivity));
    try discriminate; try lra; try lia;
    destruct (Qle_bool 3 r && Qle_bool 25000 p && (d <=? 45)%Z);
    discriminate.
Qed.

Lemma strength_low_iff (r p : Q) (d : Z) (m : num) :
  calculateSignalStrength (Fin r) (Fin p) (of_Z d) m = low
  <-> (r < 3)%Q \/ (p < 25000)%Q \/ (45 < d)%Z.
Proof.
  rewrite calculateSignalStrength_spec.
  destruct (Qle_bool 3 r) eqn:B1; destruct (Qle_bool 25000 p) eqn:B2;
    destruct (d <=? 45)%Z eqn:B3; cbn [andb]; qbool;
    try apply Z.leb_le in B3; try apply Z.leb_gt in B3.
  1: { split.
       - destruct (_ && _ && _ && _); discriminate.
       - intros [H|[H|H]]; [lra|lra|lia]. }
  all: assert (Hh : Qle_bool 5 r && Qle_bool 100000 p && (d <=? 30)%Z
                    && ge (JS.abs m) (of_Z 10) = false)
         by (destruct (Qle_bool 5 r) eqn:A1;
             destruct (Qle_bool 100000 p) eqn:A2;
             destruct (d <=? 30)%Z eqn:A3; cbn [andb]; try reflexivity;
             qbool; apply Z.leb_le in A3; try lra; lia).
  all: rewrite Hh; split; [intros _|reflexivity]; auto.
Qed.

(** X4: [calculateSignalStrength] is monotone: with the
    moneyness fixed, a larger volume/open-interest ratio, a larger
    premium and fewer days to expiration never lower the tier (low below
    medium below high). *)
Theorem calculateSignalStrength_monotone :
  forall (r r' p p' : Q) (d d' : Z) (m : num),
    (r <= r')%Q -> (p <= p')%Q -> (d' <= d)%Z ->
    (strength_rank (calculateSignalStrength (Fin r) (Fin p) (of_Z d) m)
     <= strength_rank (calculateSignalStrength (Fin r') (Fin p') (of_Z d') m))%nat.
Proof.
  intros r r' p p' d d' m Hr Hp Hd.
  destruct (calculateSignalStrength (Fin r) (Fin p) (of_Z d) m) eqn:E.
  - apply strength_high_iff in E. destruct E as (H1 & H2 & H3 & H4).
    assert (E' : calculateSignalStrength (Fin r') (Fin p') (of_Z d') m = high).
    { apply strength_high_iff. repeat split; try assumption; try lra; lia. }
    rewrite E'. apply Nat.le_refl.
  - destruct (calculateSignalStrength (Fin r') (Fin p') (of_Z d') m) eqn:E';
      cbn [strength_rank]; try lia.
    exfalso. apply strength_low_iff in E'.
    assert (Hn : calculateSignalStrength (Fin r) (Fin p) (of_Z d) m = low).
    { apply strength_low_iff. destruct E' as [H|[H|H]];
        [left; lra|right; left; lra|right; right; lia]. }
    congruence.
  - cbn [strength_rank]. lia.
Qed.

Lemma calculateSignalStrength_monotone_witness :
  (strength_rank (calculateSignalStrength (Fin 4) (Fin 30000) (of_Z 40)
                    (Fin 12))
   <= strength_rank (calculateSignalStrength (Fin 6) (Fin 120000) (of_Z 20)
                       (Fin 12)))%nat.
Proof.
  apply (calculateSignalStrength_monotone 4 6 30000 120000 40 20 (Fin 12)).
  - apply Qle_bool_iff. reflexivity.
  - apply Qle_bool_iff. reflexivity.
  - lia.
Defined.


(** X6: the database function [calculate_signal_strength] returns
    low when the ratio, the premium or the days to expiration is NULL,
    and never returns high when the moneyness is NULL: a NULL comparison
    is not TRUE, so the branch is not taken. *)
Theorem calculate_signal_strength_null :
  (forall p d m, calculate_signal_strength None p d m = low) /\
  (forall r d m, calculate_signal_strength r None d m = low) /\
  (forall r p m, calculate_signal_strength r p None m = low) /\
  (forall r p d, calculate_signal_strength r p d None <> high).
Proof.
  unfold calculate_signal_strength, sql_le, sql_ge, sql_and, sql_true,
    option_map.
  repeat split.
  - intros [p|] [d|] [m|]; cbn;
      repeat match goal with |- context [Qle_bool ?a ?b] =>
                               destruct (Qle_bool a b) end; reflexivity.
  - intros [r|] [d|] [m|]; cbn;
      repeat match goal with |- context [Qle_bool ?a ?b] =>
                               destruct (Qle_bool a b) end; reflexivity.
  - intros [r|] [p|] [m|]; cbn;
      repeat match goal with |- context [Qle_bool ?a ?b] =>
                               destruct (Qle_bool a b) end; reflexivity.
  - intros [r|] [p|] [d|]; cbn;
      repeat match goal with |- context [Qle_bool ?a ?b] =>
                               destruct (Qle_bool a b) end; discriminate.
Qed.

(** ** Profit and loss, away from a zero entry price *)

Lemma roundCents_value (q : Q) :
  roundCents (Fin q)
  = Fin (Qred (inject_Z (Qfloor (Qred (q * inject_Z 100) + (1 # 2)))
               / inject_Z 100)).
Proof. reflexivity. Qed.

Lemma cents_le (z1 z2 : Z) :
  (z1 <= z2)%Z ->
  (Qred (inject_Z z1 / inject_Z 100) <= Qred (inject_Z z2 / inject_Z 100))%Q.
Proof.
  intro H. rewrite !Qred_correct. rewrite Zle_Qle in H.
  unfold Qdiv. apply Qmult_le_compat_r; [exact H|]. discriminate.
Qed.

Lemma round_cents_monotone (a b : Q) :
  (a <= b)%Q ->
  exists ca cb : Q,
    roundCents (Fin a) = Fin ca /\ roundCents (Fin b) = Fin cb /\
    (ca <= cb)%Q.
Proof.
  intro H. rewrite !roundCents_value. do 2 eexists.
  split; [reflexivity|]. split; [reflexivity|].
  apply cents_le, Qfloor_resp_le. rewrite !Qred_correct.
  change (inject_Z 100) with 100%Q. lra.
Qed.

Lemma roundCents_zero (q : Q) : (q == 0)%Q -> roundCents (Fin q) = Fin 0.
Proof.
  intro H. rewrite roundCents_value.
  rewrite (Qfloor_comp _ (1 # 2)); [reflexivity|].
  rewrite Qred_correct, H. reflexivity.
Qed.

(** The two results of [calculatePnL] before rounding. *)
Lemma calculatePnL_finite (e x n m : Q) :
  ~ (e == 0)%Q ->
  exists d pc : Q,
    calculatePnL (Fin e) (Fin x) (Fin n) (Fin m)
    = {| pnl_value := roundCents (Fin d);
         pnl_pctValue := roundCents (Fin pc) |} /\
    (d == (x - e) * n * m)%Q /\ (pc == (x - e) / e * 100)%Q.
Proof.
  intro He. apply Qeq_bool_false in He.
  unfold calculatePnL, roundCents, sub, fin. unfold mul at 3 2. unfold fin.
  unfold div at 3. rewrite He. unfold fin. unfold mul at 3. unfold fin, of_Z.
  do 2 eexists. split; [reflexivity|].
  split; now rewrite !Qred_correct.
Qed.

(** X7: with an entry price other than 0, an exit at the entry price
    gives a profit of 0 and a percentage of 0, whatever the quantity and
    the contract size. *)
Theorem calculatePnL_break_even :
  forall entryPrice exitPrice quantity contractSize : Q,
    ~ (entryPrice == 0)%Q ->
    (exitPrice == entryPrice)%Q ->
    calculatePnL (Fin entryPrice) (Fin exitPrice) (Fin quantity)
      (Fin contractSize)
    = {| pnl_value := Fin 0; pnl_pctValue := Fin 0 |}.
Proof.
  intros e x n m He Hsame.
  destruct (calculatePnL_finite e x n m He) as (d & pc & Heq & Hd & Hpc).
  assert (Hd0 : (d == 0)%Q) by (rewrite Hd, Hsame; ring).
  assert (Hpc0 : (pc == 0)%Q) by (rewrite Hpc, Hsame; field; exact He).
  rewrite Heq, (roundCents_zero d Hd0), (roundCents_zero pc Hpc0).
  reflexivity.
Qed.

Lemma calculatePnL_break_even_witness :
  calculatePnL (Fin (47 # 20)) (Fin (235 # 100)) (Fin 3) (Fin 100)
  = {| pnl_value := Fin 0; pnl_pctValue := Fin 0 |}.
Proof.
  apply (calculatePnL_break_even (47 # 20) (235 # 100) 3 100).
  - discriminate.
  - reflexivity.
Defined.

(** X8: for a positive entry price and non-negative quantity and
    contract size, [calculatePnL] is monotone in the exit price, rounding
    included: a higher exit price never gives a lower profit or
    percentage; an exit at or above the entry price gives non-negative
    results and an exit at or below it non-positive ones. *)
Theorem calculatePnL_monotone :
  forall entryPrice exit1 exit2 quantity contractSize : Q,
    (0 < entryPrice)%Q -> (0 <= quantity)%Q -> (0 <= contractSize)%Q ->
    (exit1 <= exit2)%Q ->
    exists a b pa pb : Q,
      calculatePnL (Fin entryPrice) (Fin exit1) (Fin quantity)
        (Fin contractSize)
      = {| pnl_value := Fin a; pnl_pctValue := Fin pa |} /\
      calculatePnL (Fin entryPrice) (Fin exit2) (Fin quantity)
        (Fin contractSize)
      = {| pnl_value := Fin b; pnl_pctValue := Fin pb |} /\
      (a <= b)%Q /\ (pa <= pb)%Q /\
      ((entryPrice <= exit1)%Q -> (0 <= a)%Q /\ (0 <= pa)%Q) /\
      ((exit2 <= entryPrice)%Q -> (b <= 0)%Q /\ (pb <= 0)%Q).
Proof.
  intros e x1 x2 n m He Hn Hm Hx.
  assert (He0 : ~ (e == 0)%Q) by lra.
  destruct (calculatePnL_finite e x1 n m He0) as (d1 & p1 & E1 & Hd1 & Hp1).
  destruct (calculatePnL_finite e x2 n m He0) as (d2 & p2 & E2 & Hd2 & Hp2).
  assert (Hnm : (0 <= n * m)%Q) by (apply Qmult_le_0_compat; assumption).
  assert (Hdle : (d1 <= d2)%Q).
  { rewrite Hd1, Hd2.
    setoid_replace ((x1 - e) * n * m)%Q with ((x1 - e) * (n * m))%Q by ring.
    setoid_replace ((x2 - e) * n * m)%Q with ((x2 - e) * (n * m))%Q by ring.
    apply Qmult_le_compat_r; lra. }
  assert (Hinv : (0 < / e)%Q) by (apply Qinv_lt_0_compat; exact He).
  assert (Hple : (p1 <= p2)%Q).
  { rewrite Hp1, Hp2. unfold Qdiv.
    assert (((x1 - e) * / e <= (x2 - e) * / e)%Q)
      by (apply Qmult_le_compat_r; lra).
    lra. }
  destruct (round_cents_monotone d1 d2 Hdle) as (a & b & Ha & Hb & Hab).
  destruct (round_cents_monotone p1 p2 Hple) as (pa & pb & Hpa & Hpb & Hpab).
  exists a, b, pa, pb. rewrite E1, E2, Ha, Hb, Hpa, Hpb.
  split; [reflexivity|]. split; [reflexivity|].
  split; [exact Hab|]. split; [exact Hpab|]. split.
  - intro Hge.
    assert (H0d : (0 <= d1)%Q).
    { rewrite Hd1.
      setoid_replace ((x1 - e) * n * m)%Q with ((x1 - e) * (n * m))%Q by ring.
      apply Qmult_le_0_compat; lra. }
    assert (H0p : (0 <= p1)%Q).
    { rewrite Hp1. unfold Qdiv.
      assert (0 <= (x1 - e) * / e)%Q by (apply Qmult_le_0_compat; lra).
      lra. }
    destruct (round_cents_monotone 0 d1 H0d) as (z & a' & Hz & Ha' & Hza).
    destruct (round_cents_monotone 0 p1 H0p) as (z' & pa' & Hz' & Hpa' & Hzp).
    rewrite Ha in Ha'. rewrite Hpa in Hpa'.
    assert (a' = a) by congruence. assert (pa' = pa) by congruence.
    subst a' pa'.
    rewrite (roundCents_zero 0 (Qeq_refl 0)) in Hz, Hz'.
    assert (z = 0%Q) by congruence. assert (z' = 0%Q) by congruence.
    subst z z'. split; assumption.
  - intro Hle.
    assert (H0d : (d2 <= 0)%Q).
    { rewrite Hd2.
      setoid_replace ((x2 - e) * n * m)%Q with (- ((e - x2) * (n * m)))%Q
        by ring.
      assert (0 <= (e - x2) * (n * m))%Q by (apply Qmult_le_0_compat; lra).
      lra. }
    assert (H0p : (p2 <= 0)%Q).
    { rewrite Hp2. unfold Qdiv.
      assert (0 <= (e - x2) * / e)%Q by (apply Qmult_le_0_compat; lra).
      setoid_replace ((x2 - e) * / e * 100)%Q
        with (- ((e - x2) * / e) * 100)%Q by ring.
      lra. }
    destruct (round_cents_monotone d2 0 H0d) as (b' & z & Hb' & Hz & Hbz).
    destruct (round_cents_monotone p2 0 H0p) as (pb' & z' & Hpb' & Hz' & Hpz).
    rewrite Hb in Hb'. rewrite Hpb in Hpb'.
    assert (b' = b) by congruence. assert (pb' = pb) by congruence.
    subst b' pb'.
    rewrite (roundCents_zero 0 (Qeq_refl 0)) in Hz, Hz'.
    assert (z = 0%Q) by congruence. assert (z' = 0%Q) by congruence.
    subst z z'. split; assumption.
Qed.

Lemma calculatePnL_monotone_witness :
  exists a b pa pb : Q,
    calculatePnL (Fin 2) (Fin (3 # 2)) (Fin 1) (Fin 100)
    = {| pnl_value := Fin a; pnl_pctValue := Fin pa |} /\
    calculatePnL (Fin 2) (Fin (5 # 2)) (Fin 1) (Fin 100)
    = {| pnl_value := Fin b; pnl_pctValue := Fin pb |} /\
    (a <= b)%Q /\ (pa <= pb)%Q /\
    ((2 <= 3 # 2)%Q -> (0 <= a)%Q /\ (0 <= pa)%Q) /\
    ((5 # 2 <= 2)%Q -> (b <= 0)%Q /\ (pb <= 0)%Q).
Proof.
  apply (calculatePnL_monotone 2 (3 # 2) (5 # 2) 1 100);
    (reflexivity || discriminate).
Defined.

(** ** More on the detector *)

Section MoreDetectorProperties.

Variable calculateDTE : string -> num.

Lemma rawVolumeOiRatio_value (v oi : Q) :
  (0 < oi)%Q -> rawVolumeOiRatio v oi = Fin (Qred (v / oi)).
Proof.
  intro H. unfold rawVolumeOiRatio, gt, lt, of_Z.
  replace (Qltb (inject_Z 0) oi) with true
    by (symmetry; apply Qltb_lt; exact H).
  unfold div, fin.
  replace (Qeq_bool oi 0) with false
    by (symmetry; apply Qeq_bool_false; lra).
  reflexivity.
Qed.

(** X12: when the configured thresholds are at least the medium
    tier's (minimum ratio 3, minimum premium 25000, at most 45 days, as
    in the default configuration), a signal [analyzeQuote] returns has
    strength low only when its days to expiration are NaN (the date did
    not parse): either they are NaN and the strength is low, or they are
    a number from 0 to the maximum and the strength is high or medium. *)
Theorem analyzeQuote_low_only_without_dte :
  forall (config : SignalConfig) (oq uq : TradierQuote.t)
         (s : UnusualSignal.t),
    (3 <= minVolumeOiRatio config)%Q ->
    (25000 <= minPremium config)%Q ->
    (maxDte config <= 45)%Q ->
    analyzeQuote calculateDTE config oq uq = Some s ->
    (UnusualSignal.dte s = NaN /\
     UnusualSignal.signal_strength s = Some low) \/
    (exists d : Q,
        UnusualSignal.dte s = Fin d /\
        (0 <= d)%Q /\ (d <= maxDte config)%Q /\
        (UnusualSignal.signal_strength s = Some high \/
         UnusualSignal.signal_strength s = Some medium)).
Proof.
  intros config oq uq s Hr Hp Hd H.
  destruct (analyzeQuote_Some _ _ _ _ _ H)
    as (ot & exp & k & v & oi & _ & _ & _ & _ & _ & Hm & _ & _ & _ & _
        & Hs & Hdte & _).
  rewrite premium_finite in Hm, Hs. apply meets_iff in Hm.
  destruct Hm as (_ & Hoi & Hratio & Hprem & [Hnan|(d & Hfin & Hd0 & Hd1)]).
  - left. rewrite Hdte, Hs, Hnan. split; [reflexivity|].
    now rewrite strength_nan_dte.
  - right. exists d. rewrite Hdte. split; [exact Hfin|].
    split; [exact Hd0|]. split; [exact Hd1|].
    rewrite Hs, Hfin, (rawVolumeOiRatio_value v oi Hoi).
    unfold calculateSignalStrength, ge, le, of_Z.
    assert (E1 : Qle_bool (inject_Z 3) (Qred (v / oi)) = true)
      by (apply Qle_bool_iff; rewrite Qred_correct;
          change (inject_Z 3) with 3%Q;
          apply (Qle_trans _ _ _ Hr Hratio)).
    assert (E2 : Qle_bool (inject_Z 25000)
                   (Qred (Qred (TradierQuote.last oq * v) * contractSizeOf oq))
                 = true)
      by (apply Qle_bool_iff; change (inject_Z 25000) with 25000%Q;
          apply (Qle_trans _ _ _ Hp Hprem)).
    assert (E3 : Qle_bool d (inject_Z 45) = true)
      by (apply Qle_bool_iff; change (inject_Z 45) with 45%Q; lra).
    rewrite E1, E2, E3. cbn [andb].
    match goal with
    | |- context [if ?b then high else medium] => destruct b
    end; [left|right]; reflexivity.
Qed.

(** X13: [analyzeQuote] does not reject an underlying quoted at
    0: for a positive strike the signal it returns then has an infinite
    moneyness, plus infinity and category deep_otm for a call, minus
    infinity and category deep_itm for a put. *)
Theorem analyzeQuote_zero_underlying :
  forall (config : SignalConfig) (oq uq : TradierQuote.t)
         (s : UnusualSignal.t) (k : Q),
    (TradierQuote.last uq == 0)%Q ->
    TradierQuote.strike oq = Some k -> (0 < k)%Q ->
    analyzeQuote calculateDTE config oq uq = Some s ->
    (UnusualSignal.option_type s = call ->
     UnusualSignal.moneyness s = Some PInf /\
     UnusualSignal.moneyness_category s = Some deep_otm) /\
    (UnusualSignal.option_type s = put ->
     UnusualSignal.moneyness s = Some NInf /\
     UnusualSignal.moneyness_category s = Some deep_itm).
Proof.
  intros config oq uq s k Hu Hk Hpos H.
  assert (Hot : TradierQuote.option_type oq
                = Some (UnusualSignal.option_type s)).
  { unfold analyzeQuote in H.
    destruct (TradierQuote.option_type oq) as [ot|]; [|discriminate].
    destruct (negb (is_option_quote (TradierQuote.type oq))); [discriminate|].
    destruct (negb (is_stock_or_etf (TradierQuote.type uq))); [discriminate|].
    destruct (TradierQuote.expiration_date oq); [|discriminate].
    destruct (TradierQuote.strike oq); [|discriminate].
    destruct (TradierQuote.volume oq); [|discriminate].
    destruct (TradierQuote.open_interest oq); [|discriminate].
    destruct (TradierQuote.underlying oq); [|discriminate].
    cbv zeta in H.
    match type of H with
    | (if ?b then _ else _) = _ => destruct b; [discriminate|]
    end.
    match type of H with
    | (if ?b then _ else _) = _ => destruct b; [discriminate|]
    end.
    injection H as <-. reflexivity. }
  destruct (analyzeQuote_Some _ _ _ _ _ H)
    as (ot & exp & k' & v & oi & Hot' & _ & Hk' & _ & _ & _ & _ & _ & Hmo & Hc
        & _).
  rewrite Hot in Hot'. injection Hot' as <-.
  rewrite Hk in Hk'. injection Hk' as <-.
  assert (Hu0 : Qeq_bool (TradierQuote.last uq) 0 = true)
    by (apply Qeq_bool_iff; exact Hu).
  assert (Hcall : calculateMoneyness (Fin k) (Fin (TradierQuote.last uq)) call
                  = PInf).
  { unfold calculateMoneyness, sub, div, fin. rewrite Hu0.
    rewrite Qeq_bool_red_l.
    replace (Qeq_bool (k - TradierQuote.last uq) 0) with false
      by (symmetry; apply Qeq_bool_false; lra).
    replace (Qltb 0 (Qred (k - TradierQuote.last uq))) with true
      by (symmetry; apply Qltb_lt; rewrite Qred_correct; lra).
    reflexivity. }
  assert (Hput : calculateMoneyness (Fin k) (Fin (TradierQuote.last uq)) put
                 = NInf).
  { unfold calculateMoneyness, sub, div, fin. rewrite Hu0.
    rewrite Qeq_bool_red_l.
    replace (Qeq_bool (TradierQuote.last uq - k) 0) with false
      by (symmetry; apply Qeq_bool_false; lra).
    replace (Qltb 0 (Qred (TradierQuote.last uq - k))) with false
      by (symmetry; apply Qltb_ge; rewrite Qred_correct; lra).
    reflexivity. }
  split; intro Ht; rewrite Ht in Hmo, Hc; rewrite Hmo, Hc.
  - rewrite Hcall. split; reflexivity.
  - rewrite Hput. split; reflexivity.
Qed.

(** X11: whenever [analyzeQuote] returns a signal, the option
    quote has type option, the underlying quote is a stock or an ETF, and
    the option type, a strike other than 0, a non-empty expiration date
    and a non-empty underlying ticker were present and are copied into
    the signal with the option's symbol and the underlying's last price;
    the signal has no identity and no detection time yet. *)
Theorem analyzeQuote_validation :
  forall (config : SignalConfig) (oq uq : TradierQuote.t)
         (s : UnusualSignal.t),
    analyzeQuote calculateDTE config oq uq = Some s ->
    TradierQuote.type oq = option_ /\
    (TradierQuote.type uq = stock \/ TradierQuote.type uq = etf) /\
    TradierQuote.option_type oq = Some (UnusualSignal.option_type s) /\
    (exists k : Q, TradierQuote.strike oq = Some k /\ ~ (k == 0)%Q /\
                   UnusualSignal.strike s = Fin k) /\
    TradierQuote.expiration_date oq = Some (UnusualSignal.expiration_date s) /\
    UnusualSignal.expiration_date s <> ""%string /\
    TradierQuote.underlying oq = Some (UnusualSignal.ticker s) /\
    UnusualSignal.ticker s <> ""%string /\
    UnusualSignal.symbol s = TradierQuote.symbol oq /\
    UnusualSignal.underlying_price s = Fin (TradierQuote.last uq) /\
    UnusualSignal.id s = None /\
    UnusualSignal.detected_at s = None.
Proof.
  intros config oq uq s H. unfold analyzeQuote in H.
  destruct (TradierQuote.option_type oq) as [ot|]; [|discriminate].
  destruct (TradierQuote.type oq); try discriminate.
  cbn [is_option_quote negb] in H.
  destruct (TradierQuote.type uq) eqn:Tu; try discriminate;
    cbn [is_stock_or_etf negb] in H.
  all: destruct (TradierQuote.expiration_date oq) as [exp|]; [|discriminate].
  all: destruct (TradierQuote.strike oq) as [k|]; [|discriminate].
  all: destruct (TradierQuote.volume oq) as [v|]; [|discriminate].
  all: destruct (TradierQuote.open_interest oq) as [oi|]; [|discriminate].
  all: destruct (TradierQuote.underlying oq) as [und|]; [|discriminate].
  all: cbv zeta in H.
  all: destruct (truthy_str (Some exp)) eqn:Te; [|discriminate].
  all: destruct (truthy (Fin k)) eqn:Tk; [|discriminate].
  all: destruct (truthy_str (Some und)) eqn:Tn; [|discriminate].
  all: cbn [negb orb] in H.
  all: match type of H with
       | (if ?b then _ else _) = _ => destruct b; [discriminate|]
       end.
  all: injection H as <-.
  all: cbn [UnusualSignal.option_type UnusualSignal.strike
            UnusualSignal.expiration_date UnusualSignal.ticker
            UnusualSignal.symbol UnusualSignal.underlying_price
            UnusualSignal.id UnusualSignal.detected_at].
  all: assert (Hk0 : ~ (k == 0)%Q)
         by (cbn [truthy] in Tk; apply negb_true_iff in Tk;
             apply Qeq_bool_false; exact Tk).
  all: assert (He : exp <> ""%string) by (intros ->; discriminate).
  all: assert (Hn : und <> ""%string) by (intros ->; discriminate).
  all: repeat split; auto.
  all: exists k; repeat split; auto.
Qed.

(** X14: [analyzeMultipleQuotes] keeps the order of the quotes
    (the result for two batches in a row is the two results in a row),
    returns at most one signal per quote, and returns exactly the signals
    [analyzeQuote] gives for some quote of the batch. *)
Theorem analyzeMultipleQuotes_filters_in_order :
  forall (config : SignalConfig) (uq : TradierQuote.t)
         (quotes more : list TradierQuote.t),
    analyzeMultipleQuotes calculateDTE config (quotes ++ more) uq
    = (analyzeMultipleQuotes calculateDTE config quotes uq
       ++ analyzeMultipleQuotes calculateDTE config more uq)%list /\
    (List.length (analyzeMultipleQuotes calculateDTE config quotes uq)
     <= List.length quotes)%nat /\
    (forall s : UnusualSignal.t,
        In s (analyzeMultipleQuotes calculateDTE config quotes uq) <->
        exists q, In q quotes /\ analyzeQuote calculateDTE config q uq = Some s).
Proof.
  intros config uq quotes more. split; [|split].
  - induction quotes as [|q quotes IH]; [reflexivity|].
    cbn [app analyzeMultipleQuotes].
    destruct (analyzeQuote calculateDTE config q uq); rewrite IH; reflexivity.
  - induction quotes as [|q quotes IH]; [apply Nat.le_refl|].
    cbn [analyzeMultipleQuotes List.length].
    destruct (analyzeQuote calculateDTE config q uq); cbn [List.length]; lia.
  - intro s. induction quotes as [|q quotes IH].
    + cbn. split; [intros []|intros (q & [] & _)].
    + cbn [analyzeMultipleQuotes].
      destruct (analyzeQuote calculateDTE config q uq) as [s'|] eqn:E.
      * cbn [In]. rewrite IH. split.
        -- intros [->|(q' & Hin & Hq')].
           ++ exists q. split; [left; reflexivity|exact E].
           ++ exists q'. split; [right; exact Hin|exact Hq'].
        -- intros (q' & [->|Hin] & Hq').
           ++ left. congruence.
           ++ right. exists q'. split; assumption.
      * rewrite IH. split.
        -- intros (q' & Hin & Hq'). exists q'. split; [right; exact Hin|exact Hq'].
        -- intros (q' & [->|Hin] & Hq'); [congruence|].
           exists q'. split; assumption.
Qed.

End MoreDetectorProperties.

Lemma analyzeQuote_low_only_without_dte_witness :
  exists s : UnusualSignal.t,
    analyzeQuote Sample.isoDays Sample.config Sample.nvdaCall Sample.nvda
    = Some s /\
    ((UnusualSignal.dte s = NaN /\
      UnusualSignal.signal_strength s = Some low) \/
     (exists d : Q,
         UnusualSignal.dte s = Fin d /\
         (0 <= d)%Q /\ (d <= maxDte Sample.config)%Q /\
         (UnusualSignal.signal_strength s = Some high \/
          UnusualSignal.signal_strength s = Some medium))).
Proof.
  eexists. split; [vm_compute; reflexivity|].
  apply (analyzeQuote_low_only_without_dte Sample.isoDays Sample.config
           Sample.nvdaCall Sample.nvda).
  - discriminate.
  - discriminate.
  - discriminate.
  - vm_compute. reflexivity.
Defined.

Lemma analyzeQuote_validation_witness :
  exists s : UnusualSignal.t,
    analyzeQuote Sample.tenDays Sample.config Sample.nvdaCall Sample.nvda
    = Some s /\
    TradierQuote.type Sample.nvdaCall = option_ /\
    (TradierQuote.type Sample.nvda = stock \/
     TradierQuote.type Sample.nvda = etf) /\
    TradierQuote.option_type Sample.nvdaCall
    = Some (UnusualSignal.option_type s) /\
    (exists k : Q, TradierQuote.strike Sample.nvdaCall = Some k /\
                   ~ (k == 0)%Q /\ UnusualSignal.strike s = Fin k) /\
    TradierQuote.expiration_date Sample.nvdaCall
    = Some (UnusualSignal.expiration_date s) /\
    UnusualSignal.expiration_date s <> ""%string /\
    TradierQuote.underlying Sample.nvdaCall = Some (UnusualSignal.ticker s) /\
    UnusualSignal.ticker s <> ""%string /\
    UnusualSignal.symbol s = TradierQuote.symbol Sample.nvdaCall /\
    UnusualSignal.underlying_price s = Fin (TradierQuote.last Sample.nvda) /\
    UnusualSignal.id s = None /\
    UnusualSignal.detected_at s = None.
Proof.
  eexists. split; [vm_compute; reflexivity|].
  apply (analyzeQuote_validation Sample.tenDays Sample.config
           Sample.nvdaCall Sample.nvda).
  vm_compute. reflexivity.
Defined.

Lemma analyzeQuote_zero_underlying_witness :
  exists s : UnusualSignal.t,
    analyzeQuote Sample.tenDays Sample.config Sample.nvdaCall
      MoreSamples.nvdaAtZero
    = Some s /\
    (UnusualSignal.option_type s = call ->
     UnusualSignal.moneyness s = Some PInf /\
     UnusualSignal.moneyness_category s = Some deep_otm) /\
    (UnusualSignal.option_type s = put ->
     UnusualSignal.moneyness s = Some NInf /\
     UnusualSignal.moneyness_category s = Some deep_itm).
Proof.
  eexists. split; [vm_compute; reflexivity|].
  eapply (analyzeQuote_zero_underlying Sample.tenDays Sample.config
            Sample.nvdaCall MoreSamples.nvdaAtZero).
  - vm_compute. reflexivity.
  - reflexivity.
  - reflexivity.
  - vm_compute. reflexivity.
Defined.

(** ** OCC symbols *)

Lemma digit_cases (d : Z) :
  0 <= d < 10 ->
  d = 0 \/ d = 1 \/ d = 2 \/ d = 3 \/ d = 4 \/ d = 5 \/ d = 6 \/ d = 7
  \/ d = 8 \/ d = 9.
Proof. lia. Qed.

Lemma digit_char_facts (d : Z) :
  0 <= d < 10 ->
  is_digit (ascii_of_nat (48 + Z.to_nat d)) = true /\
  is_upper (ascii_of_nat (48 + Z.to_nat d)) = false /\
  Z.of_nat (nat_of_ascii (ascii_of_nat (48 + Z.to_nat d)) - 48) = d.
Proof.
  intro H. apply digit_cases in H.
  repeat (destruct H as [->|H]; [repeat split; reflexivity|]).
  subst d. repeat split; reflexivity.
Qed.

Lemma pow10_pos (k : nat) : 0 < 10 ^ Z.of_nat k.
Proof. apply Z.pow_pos_nonneg; lia. Qed.

Lemma pad_digit (k : nat) (n : Z) :
  0 <= (n / 10 ^ Z.of_nat k) mod 10 < 10.
Proof. apply Z.mod_pos_bound. lia. Qed.

Lemma take_digits_pad (k : nat) (n : Z) (rest : string) :
  take_digits k (pad k n ++ rest) = Some (pad k n, rest).
Proof.
  induction k as [|k IH]; [reflexivity|].
  cbn [pad take_digits append].
  destruct (digit_char_facts _ (pad_digit k n)) as (Hd & _ & _).
  rewrite Hd, IH. reflexivity.
Qed.

Lemma parseInt_from_pad (k : nat) (n acc : Z) :
  0 <= n ->
  parseInt_from acc (pad k n) = acc * 10 ^ Z.of_nat k + n mod 10 ^ Z.of_nat k.
Proof.
  intro Hn. revert acc. induction k as [|k IH]; intro acc.
  - cbn [pad parseInt_from]. change (10 ^ Z.of_nat 0) with 1.
    rewrite Z.mod_1_r. lia.
  - cbn [pad parseInt_from].
    destruct (digit_char_facts _ (pad_digit k n)) as (_ & _ & Hv).
    rewrite Hv, IH.
    replace (10 ^ Z.of_nat (S k)) with (10 ^ Z.of_nat k * 10)
      by (rewrite Nat2Z.inj_succ, Z.pow_succ_r by lia; lia).
    pose proof (pow10_pos k) as Hp.
    rewrite (Z.rem_mul_r n (10 ^ Z.of_nat k) 10) by lia.
    lia.
Qed.

Lemma parseInt_pad (k : nat) (n : Z) :
  0 <= n < 10 ^ Z.of_nat k -> parseInt (pad k n) = n.
Proof.
  intro H. unfold parseInt. rewrite parseInt_from_pad by lia.
  rewrite Z.mod_small by lia. lia.
Qed.

Lemma take_upper_run (t : string) (c : ascii) (rest : string) :
  all_upper t = true -> is_upper c = false ->
  take_upper (t ++ String c rest) = (t, String c rest).
Proof.
  intros Ht Hc. induction t as [|a t IH].
  - cbn [append take_upper]. now rewrite Hc.
  - unfold all_upper in Ht. cbn [list_ascii_of_string forallb] in Ht.
    apply andb_true_iff in Ht. destruct Ht as (Ha & Ht).
    cbn [append take_upper]. rewrite Ha, (IH Ht). reflexivity.
Qed.

Lemma pad_head (k : nat) (n : Z) (rest : string) :
  exists c tail, (pad (S k) n ++ rest)%string = String c tail /\
                 is_upper c = false.
Proof.
  cbn [pad append]. do 2 eexists. split; [reflexivity|].
  apply (digit_char_facts _ (pad_digit k n)).
Qed.

Lemma append_empty_r (s : string) : (s ++ "")%string = s.
Proof. induction s as [|c s IH]; [reflexivity|]. cbn. now rewrite IH. Qed.

Lemma take_digits_pad_end (k : nat) (n : Z) :
  take_digits k (pad k n) = Some (pad k n, EmptyString).
Proof.
  rewrite <- (append_empty_r (pad k n)) at 1. apply take_digits_pad.
Qed.

(** X9: [parseOccSymbol] decodes every well-formed OCC symbol: for
    a non-empty upper-case ticker, two-digit year, month and day, C or P,
    and a strike in thousandths on eight digits, it returns the ticker,
    the year plus 2000, the month, the day, the option type and the
    strike divided by 1000. *)
Theorem parseOccSymbol_decodes :
  forall (ticker : string) (yy mm dd : Z) (ot : OptionType)
         (strikeThousandths : Z),
    ticker <> ""%string -> all_upper ticker = true ->
    0 <= yy < 100 -> 0 <= mm < 100 -> 0 <= dd < 100 ->
    0 <= strikeThousandths < 100000000 ->
    parseOccSymbol (occSymbol ticker yy mm dd ot strikeThousandths)
    = Some {| OccSymbol.ticker := ticker;
              OccSymbol.year := 2000 + yy;
              OccSymbol.month := mm;
              OccSymbol.day := dd;
              OccSymbol.optionType := ot;
              OccSymbol.strike := fin (inject_Z strikeThousandths / 1000) |}.
Proof.
  intros ticker yy mm dd ot k Hne Hup Hyy Hmm Hdd Hk.
  unfold parseOccSymbol, occSymbol.
  destruct (pad_head 1 yy
              (pad 2 mm ++ pad 2 dd
               ++ String (match ot with call => "C" | put => "P" end)
                         (pad 8 k))) as (c & tail & Hhead & Hc).
  rewrite Hhead, (take_upper_run ticker c tail Hup Hc), <- Hhead.
  destruct ticker as [|a t]; [contradiction|].
  rewrite !take_digits_pad.
  assert (Hflag : (Ascii.eqb (match ot with call => "C" | put => "P" end) "C"
                   || Ascii.eqb (match ot with call => "C" | put => "P" end) "P")
                  = true) by (destruct ot; reflexivity).
  rewrite Hflag.
  rewrite take_digits_pad_end.
  rewrite !parseInt_pad by (cbn; lia).
  f_equal. f_equal. destruct ot; reflexivity.
Qed.

Lemma take_upper_spec (s t r : string) :
  take_upper s = (t, r) -> s = (t ++ r)%string /\ all_upper t = true.
Proof.
  revert t r. induction s as [|c s IH]; intros t r H.
  - cbn in H. injection H as <- <-. split; reflexivity.
  - cbn [take_upper] in H. destruct (is_upper c) eqn:Hc.
    + destruct (take_upper s) as [run after] eqn:E.
      injection H as <- <-. destruct (IH run after eq_refl) as (-> & Hup).
      split; [reflexivity|].
      unfold all_upper in *. cbn [list_ascii_of_string forallb].
      now rewrite Hc, Hup.
    + injection H as <- <-. split; reflexivity.
Qed.

Lemma take_digits_spec (k : nat) (s ds r : string) :
  take_digits k s = Some (ds, r) ->
  s = (ds ++ r)%string /\ String.length ds = k /\ all_digits ds = true.
Proof.
  revert s ds r. induction k as [|k IH]; intros s ds r H.
  - cbn in H. injection H as <- <-. repeat split; reflexivity.
  - cbn [take_digits] in H. destruct s as [|c s]; [discriminate|].
    destruct (is_digit c) eqn:Hc; [|discriminate].
    destruct (take_digits k s) as [[ds' r']|] eqn:E; [|discriminate].
    injection H as <- <-. destruct (IH _ _ _ E) as (-> & Hlen & Hd).
    repeat split.
    + cbn. now rewrite Hlen.
    + unfold all_digits in *. cbn [list_ascii_of_string forallb].
      now rewrite Hc, Hd.
Qed.

Lemma digit_value_bounds (c : ascii) :
  is_digit c = true ->
  0 <= Z.of_nat (nat_of_ascii c - 48) < 10 /\
  ascii_of_nat (48 + Z.to_nat (Z.of_nat (nat_of_ascii c - 48))) = c.
Proof.
  unfold is_digit. intro H. apply andb_true_iff in H.
  destruct H as (H1 & H2). apply Nat.leb_le in H1, H2.
  split; [lia|].
  rewrite Nat2Z.id. replace (48 + (nat_of_ascii c - 48))%nat
    with (nat_of_ascii c) by lia.
  apply ascii_nat_embedding.
Qed.

Lemma parseInt_from_value (ds : string) (acc : Z) :
  all_digits ds = true ->
  parseInt_from acc ds
  = acc * 10 ^ Z.of_nat (String.length ds) + parseInt_from 0 ds /\
  0 <= parseInt_from 0 ds < 10 ^ Z.of_nat (String.length ds).
Proof.
  revert acc. induction ds as [|c ds IH]; intros acc H.
  - cbn. lia.
  - unfold all_digits in H. cbn [list_ascii_of_string forallb] in H.
    apply andb_true_iff in H. destruct H as (Hc & Hds).
    destruct (digit_value_bounds c Hc) as (Hb & _).
    cbn [parseInt_from String.length].
    destruct (IH (acc * 10 + Z.of_nat (nat_of_ascii c - 48)) Hds) as (E1 & B).
    destruct (IH (0 * 10 + Z.of_nat (nat_of_ascii c - 48)) Hds) as (E2 & _).
    rewrite E1, E2.
    replace (10 ^ Z.of_nat (S (String.length ds)))
      with (10 ^ Z.of_nat (String.length ds) * 10)
      by (rewrite Nat2Z.inj_succ, Z.pow_succ_r by lia; lia).
    pose proof (pow10_pos (String.length ds)) as Hp.
    split; nia.
Qed.

Lemma pad_parseInt_from (ds : string) (acc : Z) :
  all_digits ds = true ->
  pad (String.length ds) (parseInt_from acc ds) = ds.
Proof.
  revert acc. induction ds as [|c ds IH]; intros acc H; [reflexivity|].
  pose proof H as H'.
  unfold all_digits in H. cbn [list_ascii_of_string forallb] in H.
  apply andb_true_iff in H. destruct H as (Hc & Hds).
  destruct (digit_value_bounds c Hc) as (Hb & Hch).
  cbn [String.length pad]. f_equal.
  - cbn [parseInt_from].
    destruct (parseInt_from_value ds
                (acc * 10 + Z.of_nat (nat_of_ascii c - 48)) Hds) as (E & B).
    rewrite E.
    pose proof (pow10_pos (String.length ds)) as Hp.
    rewrite Z.div_add_l by lia. rewrite Z.div_small by lia.
    rewrite Z.add_0_r.
    replace ((acc * 10 + Z.of_nat (nat_of_ascii c - 48)) mod 10)
      with (Z.of_nat (nat_of_ascii c - 48)).
    + exact Hch.
    + rewrite Z.add_comm, Z.mod_add by lia. now rewrite Z.mod_small.
  - cbn [parseInt_from]. apply IH, Hds.
Qed.

Lemma Some_eq {A} (a b : A) : Some a = Some b -> a = b.
Proof. intro H. now injection H. Qed.

Lemma length_append (a b : string) :
  String.length (a ++ b) = (String.length a + String.length b)%nat.
Proof. induction a as [|c a IH]; [reflexivity|]. cbn. now rewrite IH. Qed.

(** X10: [parseOccSymbol] accepts nothing but such encodings:
    whenever it returns a result, the ticker is non-empty and upper-case,
    the year lies in 2000..2099, month and day in 0..99 (the calendar is
    not checked), the strike is a whole number of thousandths below
    100000000 divided by 1000, the input is the symbol built from these
    fields, and it is 15 characters longer than the ticker. *)
Theorem parseOccSymbol_only_encodings :
  forall (symbol : string) (r : OccSymbol.t),
    parseOccSymbol symbol = Some r ->
    exists strikeThousandths : Z,
      OccSymbol.ticker r <> ""%string /\
      all_upper (OccSymbol.ticker r) = true /\
      2000 <= OccSymbol.year r < 2100 /\
      0 <= OccSymbol.month r < 100 /\
      0 <= OccSymbol.day r < 100 /\
      0 <= strikeThousandths < 100000000 /\
      OccSymbol.strike r = fin (inject_Z strikeThousandths / 1000) /\
      symbol = occSymbol (OccSymbol.ticker r) (OccSymbol.year r - 2000)
                 (OccSymbol.month r) (OccSymbol.day r)
                 (OccSymbol.optionType r) strikeThousandths /\
      String.length symbol = (String.length (OccSymbol.ticker r) + 15)%nat.
Proof.
  intros symbol r H. unfold parseOccSymbol in H.
  destruct (take_upper symbol) as [ticker r0] eqn:E0.
  destruct (take_upper_spec _ _ _ E0) as (-> & Hup).
  destruct ticker as [|a t]; [discriminate|].
  destruct (take_digits 2 r0) as [[yy r1]|] eqn:E1; [|discriminate].
  destruct (take_digits 2 r1) as [[mm r2]|] eqn:E2; [|discriminate].
  destruct (take_digits 2 r2) as [[dd r3]|] eqn:E3; [|discriminate].
  destruct r3 as [|type r4]; [discriminate|].
  destruct (Ascii.eqb type "C" || Ascii.eqb type "P") eqn:Ef; [|discriminate].
  destruct (take_digits 8 r4) as [[ks [|x r5]]|] eqn:E4; try discriminate.
  apply Some_eq in H. subst r.
  destruct (take_digits_spec _ _ _ _ E1) as (-> & Ly & Dy).
  destruct (take_digits_spec _ _ _ _ E2) as (-> & Lm & Dm).
  destruct (take_digits_spec _ _ _ _ E3) as (-> & Ld & Dd).
  destruct (take_digits_spec _ _ _ _ E4) as (-> & Lk & Dk).
  destruct (parseInt_from_value yy 0 Dy) as (_ & By).
  destruct (parseInt_from_value mm 0 Dm) as (_ & Bm).
  destruct (parseInt_from_value dd 0 Dd) as (_ & Bd).
  destruct (parseInt_from_value ks 0 Dk) as (_ & Bk).
  rewrite Ly in By. rewrite Lm in Bm. rewrite Ld in Bd. rewrite Lk in Bk.
  change (10 ^ Z.of_nat 2) with 100 in *.
  change (10 ^ Z.of_nat 8) with 100000000 in *.
  exists (parseInt ks).
  cbn [OccSymbol.ticker OccSymbol.year OccSymbol.month OccSymbol.day
       OccSymbol.optionType OccSymbol.strike].
  unfold parseInt in *.
  split; [discriminate|]. split; [exact Hup|].
  split; [lia|]. split; [lia|]. split; [lia|]. split; [lia|].
  split; [reflexivity|]. split.
  - unfold occSymbol.
    replace (2000 + parseInt_from 0 yy - 2000) with (parseInt_from 0 yy)
      by lia.
    rewrite <- Ly at 1. rewrite <- Lm at 1. rewrite <- Ld at 1.
    rewrite <- Lk at 1. rewrite !pad_parseInt_from by assumption.
    rewrite append_empty_r.
    assert (Hflag : type = match (if Ascii.eqb type "C" then call else put)
                           with call => "C"%char | put => "P"%char end).
    { destruct (Ascii.eqb_spec type "C") as [->|Hn]; [reflexivity|].
      cbn [orb] in Ef. apply Ascii.eqb_eq in Ef. exact Ef. }
    rewrite <- Hflag. reflexivity.
  - rewrite !length_append. cbn [String.length].
    rewrite !length_append. cbn [String.length].
    rewrite Ly, Lm, Ld, Lk. lia.
Qed.

Lemma parseOccSymbol_decodes_witness :
  parseOccSymbol (occSymbol "NVDA" 25 9 19 call 175000)
  = Some {| OccSymbol.ticker := "NVDA";
            OccSymbol.year := 2000 + 25;
            OccSymbol.month := 9;
            OccSymbol.day := 19;
            OccSymbol.optionType := call;
            OccSymbol.strike := fin (inject_Z 175000 / 1000) |}.
Proof.
  apply (parseOccSymbol_decodes "NVDA" 25 9 19 call 175000);
    try lia; try reflexivity.
  discriminate.
Defined.

Lemma parseOccSymbol_only_encodings_witness :
  exists strikeThousandths : Z,
    0 <= strikeThousandths < 100000000 /\
    "NVDA250919C00175000"%string
    = occSymbol "NVDA" 25 9 19 call strikeThousandths.
Proof.
  destruct (parseOccSymbol_only_encodings "NVDA250919C00175000"
              {| OccSymbol.ticker := "NVDA";
                 OccSymbol.year := 2025;
                 OccSymbol.month := 9;
                 OccSymbol.day := 19;
                 OccSymbol.optionType := call;
                 OccSymbol.strike := Fin 175 |})
    as (k & _ & _ & _ & _ & _ & Hk & _ & Hs & _).
  - vm_compute. reflexivity.
  - exists k. split; [exact Hk|exact Hs].
Defined.

(** ** More on the paper-trade lifecycle *)

Lemma frame_refl (i : uuid) (w : World) : frame i w w.
Proof. repeat split; auto. Qed.

Lemma updatePaperTrade_cases (i : uuid) (u : TradeUpdates.t) (w : World) :
  (exists r, filter (has_id i) (paper_trades w) = [r] /\
             updatePaperTrade i u w
             = (Returned (Some (apply_updates u (now w) r)),
                set_paper_trades w
                  (map (fun x => if has_id i x
                                 then apply_updates u (now w) x else x)
                       (paper_trades w)))) \/
  updatePaperTrade i u w = (Thrown PGRST116, w).
Proof.
  unfold updatePaperTrade.
  destruct (filter (has_id i) (paper_trades w)) as [|r [|r' l]] eqn:F.
  - right. reflexivity.
  - left. exists r. split; reflexivity.
  - right. reflexivity.
Qed.

Lemma updated_table_frame (i : uuid) (u : TradeUpdates.t) (w : World) :
  frame i w
    (set_paper_trades w
       (map (fun x => if has_id i x then apply_updates u (now w) x else x)
            (paper_trades w))).
Proof.
  repeat split; cbn [unusual_signals market now paper_trades set_paper_trades];
    auto.
  - rewrite map_map. apply map_ext. intro x.
    destruct (has_id i x); reflexivity.
  - intros r Hin Hne. apply in_map_iff. exists r. split; [|exact Hin].
    unfold has_id. destruct (N.eqb_spec (PaperTrade.id r) i); [contradiction|].
    reflexivity.
Qed.

Lemma updatePaperTrade_frame (i : uuid) (u : TradeUpdates.t) (w w' : World)
    (o : outcome (option PaperTrade.t)) :
  updatePaperTrade i u w = (o, w') -> frame i w w'.
Proof.
  intro H.
  destruct (updatePaperTrade_cases i u w) as [(r & _ & E)|E];
    rewrite E in H; injection H as _ <-.
  - apply updated_table_frame.
  - apply frame_refl.
Qed.

Lemma exitTrade_frame (trade : PaperTrade.t) (p u : num)
    (reason : ExitReason.t) (w : World) :
  exists o w', exitTrade trade p u reason w = (Returned o, w') /\
               frame (PaperTrade.id trade) w w'.
Proof.
  rewrite exitTrade_unfold.
  destruct (updatePaperTrade _ _ w) as [[o|e] w'] eqn:E;
    do 2 eexists; (split; [reflexivity|]);
    apply (updatePaperTrade_frame _ _ _ _ _ E).
Qed.

Lemma updateTrade_frame (trade : PaperTrade.t) (p u : num) (w : World) :
  exists w', updateTrade trade p u w = (Returned tt, w') /\
             frame (PaperTrade.id trade) w w'.
Proof.
  rewrite updateTrade_unfold.
  destruct (updatePaperTrade _ _ w) as [o w'] eqn:E.
  eexists. split; [reflexivity|].
  apply (updatePaperTrade_frame _ _ _ _ _ E).
Qed.

Lemma frame_trans (i : uuid) (w1 w2 w3 : World) :
  frame i w1 w2 -> frame i w2 w3 -> frame i w1 w3.
Proof.
  intros (A1 & A2 & A3 & A4 & A5) (B1 & B2 & B3 & B4 & B5).
  repeat split; try congruence. auto.
Qed.

(** X18: [updateTrade] never raises, whatever the prices; it
    leaves the stored signals, the number and order of the trades, and of
    every trade the columns fixed at entry and the outcome columns (exit
    price, time and reason, profit, status) unchanged; every row with
    another identity is kept as it is. *)
Theorem updateTrade_touches_extrema_only :
  forall (trade : PaperTrade.t) (currentPrice underlyingPrice : num)
         (w : World),
  exists w' : World,
    updateTrade trade currentPrice underlyingPrice w = (Returned tt, w') /\
    unusual_signals w' = unusual_signals w /\
    map entry_columns (paper_trades w') = map entry_columns (paper_trades w) /\
    map outcome_columns (paper_trades w')
    = map outcome_columns (paper_trades w) /\
    (forall r, In r (paper_trades w) ->
               PaperTrade.id r <> PaperTrade.id trade ->
               In r (paper_trades w')).
Proof.
  intros trade p u w.
  destruct (updateTrade_frame trade p u w) as (w' & E & F1 & _ & _ & F4 & F5).
  exists w'. split; [exact E|]. split; [exact F1|]. split; [exact F4|].
  split; [|exact F5].
  rewrite updateTrade_unfold in E.
  destruct (updatePaperTrade_cases (PaperTrade.id trade)
              (extremaUpdates trade p) w) as [(r & _ & E')|E'];
    rewrite E' in E; injection E as <-; [|reflexivity].
  cbn [paper_trades set_paper_trades]. rewrite map_map. apply map_ext.
  intro x. destruct (has_id (PaperTrade.id trade) x); reflexivity.
Qed.

(** X20: when the table holds no row with the trade's identity,
    [exitTrade] returns null and [updateTrade] returns normally, the
    storage error being caught in both; nothing is stored. *)
Theorem missing_trade_is_skipped :
  forall (trade : PaperTrade.t) (price underlyingPrice : num)
         (reason : ExitReason.t) (w : World),
    filter (has_id (PaperTrade.id trade)) (paper_trades w) = [] ->
    exitTrade trade price underlyingPrice reason w = (Returned None, w) /\
    updateTrade trade price underlyingPrice w = (Returned tt, w).
Proof.
  intros trade p u reason w H.
  rewrite exitTrade_unfold, updateTrade_unfold. unfold updatePaperTrade.
  rewrite H. split; reflexivity.
Qed.

Lemma missing_trade_is_skipped_witness :
  exitTrade Sample.closed1 (Fin 5) (Fin 150) ExitReason.manual
    (Sample.world [] [] 0)
  = (Returned None, Sample.world [] [] 0) /\
  updateTrade Sample.closed1 (Fin 5) (Fin 150) (Sample.world [] [] 0)
  = (Returned tt, Sample.world [] [] 0).
Proof.
  apply (missing_trade_is_skipped Sample.closed1 (Fin 5) (Fin 150)
           ExitReason.manual (Sample.world [] [] 0)).
  reflexivity.
Defined.

(** *** Running extrema that are kept *)

Lemma or_else_kept (prior : option Q) (pnl : Q) :
  kept_extremum prior ->
  JS.max (or_else (as_num prior) (Fin pnl)) (Fin pnl)
  = Fin (running_max prior pnl) /\
  JS.min (or_else (as_num prior) (Fin pnl)) (Fin pnl)
  = Fin (running_min prior pnl).
Proof.
  destruct prior as [m|]; cbn [kept_extremum as_num option_map or_else
                               running_max running_min].
  - intro Hm. apply Qeq_bool_false in Hm. cbn [truthy]. rewrite Hm.
    cbn [negb]. unfold JS.max, JS.min, lt.
    destruct (Qltb m pnl); destruct (Qltb pnl m); split; reflexivity.
  - intros _. rewrite max_same, min_same. split; reflexivity.
Qed.

Lemma running_max_bounds (prior : option Q) (pnl : Q) :
  (pnl <= running_max prior pnl)%Q /\
  (forall m, prior = Some m -> (m <= running_max prior pnl)%Q).
Proof.
  destruct prior as [m|]; cbn [running_max].
  - destruct (Qltb m pnl) eqn:E; qbool; split;
      try (intros m' Hm'; injection Hm' as <-); lra.
  - split; [lra|]. intros m' Hm'. discriminate.
Qed.

Lemma running_min_bounds (prior : option Q) (pnl : Q) :
  (running_min prior pnl <= pnl)%Q /\
  (forall m, prior = Some m -> (running_min prior pnl <= m)%Q).
Proof.
  destruct prior as [m|]; cbn [running_min].
  - destruct (Qltb pnl m) eqn:E; qbool; split;
      try (intros m' Hm'; injection Hm' as <-); lra.
  - split; [lra|]. intros m' Hm'. discriminate.
Qed.

(** X19: for a trade stored once whose recorded maximum and minimum
    profit are each absent or different from 0, when the current profit
    is a finite number and the values sent fit their columns,
    [updateTrade] stores the running maximum and minimum: the new maximum
    is the larger of the recorded one and the current profit (the current
    profit when none was recorded), the new minimum the smaller, so the
    maximum never decreases, the minimum never increases, and the current
    profit lies between them. *)
Theorem updateTrade_keeps_nonzero_extrema :
  forall (trade : PaperTrade.t) (currentPrice underlyingPrice : num)
         (w : World) (r : PaperTrade.t) (pnl : Q),
    filter (has_id (PaperTrade.id trade)) (paper_trades w) = [r] ->
    currentPnl trade currentPrice = Fin pnl ->
    kept_extremum (PaperTrade.max_pnl trade) ->
    kept_extremum (PaperTrade.min_pnl trade) ->
    updates_fit (extremaUpdates trade currentPrice) = true ->
    exists (r' : PaperTrade.t) (w' : World),
      updateTrade trade currentPrice underlyingPrice w = (Returned tt, w') /\
      filter (has_id (PaperTrade.id trade)) (paper_trades w') = [r'] /\
      PaperTrade.max_pnl r'
      = Some (running_max (PaperTrade.max_pnl trade) pnl) /\
      PaperTrade.min_pnl r'
      = Some (running_min (PaperTrade.min_pnl trade) pnl) /\
      (forall m, PaperTrade.max_pnl trade = Some m ->
                 (m <= running_max (PaperTrade.max_pnl trade) pnl)%Q) /\
      (forall m, PaperTrade.min_pnl trade = Some m ->
                 (running_min (PaperTrade.min_pnl trade) pnl <= m)%Q) /\
      (running_min (PaperTrade.min_pnl trade) pnl <= pnl)%Q /\
      (pnl <= running_max (PaperTrade.max_pnl trade) pnl)%Q.
Proof.
  intros trade p u w r pnl Hr Hcur Hmax Hmin _.
  exists (apply_updates (extremaUpdates trade p) (now w) r).
  eexists.
  split.
  { rewrite updateTrade_unfold, (updatePaperTrade_unique _ _ _ _ Hr).
    reflexivity. }
  split.
  { cbn [paper_trades set_paper_trades].
    rewrite filter_has_id_map by reflexivity. now rewrite Hr. }
  destruct (or_else_kept _ pnl Hmax) as (Emax & _).
  destruct (or_else_kept _ pnl Hmin) as (_ & Emin).
  destruct (running_max_bounds (PaperTrade.max_pnl trade) pnl) as (B1 & B2).
  destruct (running_min_bounds (PaperTrade.min_pnl trade) pnl) as (B3 & B4).
  unfold currentPnl in Hcur.
  split.
  { unfold apply_updates, extremaUpdates.
    cbn [PaperTrade.max_pnl TradeUpdates.max_pnl pick_num].
    rewrite Hcur, Emax. reflexivity. }
  split.
  { unfold apply_updates, extremaUpdates.
    cbn [PaperTrade.min_pnl TradeUpdates.min_pnl pick_num].
    rewrite Hcur, Emin. reflexivity. }
  repeat split; assumption.
Qed.

Lemma updateTrade_keeps_nonzero_extrema_witness :
  exists (r' : PaperTrade.t) (w' : World),
    updateTrade MoreSamples.trackedTrade (Fin (3 # 2)) (Fin 150)
      (Sample.world [] [MoreSamples.trackedTrade] 1000)
    = (Returned tt, w') /\
    filter (has_id (PaperTrade.id MoreSamples.trackedTrade)) (paper_trades w')
    = [r'] /\
    PaperTrade.max_pnl r'
    = Some (running_max (PaperTrade.max_pnl MoreSamples.trackedTrade) (-50)) /\
    PaperTrade.min_pnl r'
    = Some (running_min (PaperTrade.min_pnl MoreSamples.trackedTrade) (-50)) /\
    (forall m, PaperTrade.max_pnl MoreSamples.trackedTrade = Some m ->
               (m <= running_max (PaperTrade.max_pnl MoreSamples.trackedTrade)
                       (-50))%Q) /\
    (forall m, PaperTrade.min_pnl MoreSamples.trackedTrade = Some m ->
               (running_min (PaperTrade.min_pnl MoreSamples.trackedTrade) (-50)
                <= m)%Q) /\
    (running_min (PaperTrade.min_pnl MoreSamples.trackedTrade) (-50) <= -50)%Q /\
    (-50 <= running_max (PaperTrade.max_pnl MoreSamples.trackedTrade) (-50))%Q.
Proof.
  apply (updateTrade_keeps_nonzero_extrema MoreSamples.trackedTrade (Fin (3 # 2))
           (Fin 150) (Sample.world [] [MoreSamples.trackedTrade] 1000)
           MoreSamples.trackedTrade (-50)).
  - reflexivity.
  - reflexivity.
  - discriminate.
  - discriminate.
  - reflexivity.
Defined.

(** *** Entering *)

Lemma fresh_uuid_new (rows : list PaperTrade.t) :
  ~ In (fresh_uuid rows) (map PaperTrade.id rows).
Proof.
  assert (H : forall i, In i (map PaperTrade.id rows) ->
                        (i <= fold_right N.max 0 (map PaperTrade.id rows))%N).
  { induction rows as [|r rows IH]; [intros i []|].
    cbn [map fold_right]. intros i [<-|Hin]; [lia|].
    specialize (IH i Hin). lia. }
  intro Hin. apply H in Hin. unfold fresh_uuid in Hin. lia.
Qed.

Lemma existsb_signal_id_false (sid : uuid) (rows : list PaperTrade.t) :
  existsb (has_signal_id sid) rows = false ->
  ~ In sid (map PaperTrade.signal_id rows).
Proof.
  intros H Hin. apply in_map_iff in Hin. destruct Hin as (r & <- & Hr).
  assert (existsb (has_signal_id (PaperTrade.signal_id r)) rows = true).
  { apply existsb_exists. exists r. split; [exact Hr|].
    unfold has_signal_id. apply N.eqb_refl. }
  congruence.
Qed.

(** The row a successful insert adds. *)
Lemma createPaperTrade_row (trade : NewPaperTrade.t) (w w1 : World)
    (o : option PaperTrade.t) :
  createPaperTrade trade w = (Returned o, w1) ->
  exists row : PaperTrade.t,
    o = Some row /\
    w1 = set_paper_trades w (paper_trades w ++ [row]) /\
    NewPaperTrade.signal_id trade = Some (PaperTrade.signal_id row) /\
    NewPaperTrade.entry_price trade = Fin (PaperTrade.entry_price row) /\
    PaperTrade.id row = fresh_uuid (paper_trades w) /\
    existsb (has_signal_id (PaperTrade.signal_id row)) (paper_trades w)
    = false /\
    PaperTrade.status row = NewPaperTrade.status trade /\
    PaperTrade.direction row = NewPaperTrade.direction trade /\
    PaperTrade.quantity row = NewPaperTrade.quantity trade /\
    PaperTrade.entry_time row = now w /\
    PaperTrade.exit_price row = json_opt (NewPaperTrade.exit_price trade) /\
    PaperTrade.exit_time row = NewPaperTrade.exit_time trade /\
    PaperTrade.exit_reason row = NewPaperTrade.exit_reason trade /\
    PaperTrade.pnl row = json_opt (NewPaperTrade.pnl trade) /\
    PaperTrade.max_pnl row = json_opt (NewPaperTrade.max_pnl trade) /\
    PaperTrade.min_pnl row = json_opt (NewPaperTrade.min_pnl trade) /\
    PaperTrade.exit_underlying_price row
    = json_opt (NewPaperTrade.exit_underlying_price trade) /\
    PaperTrade.pnl_pct row = json_opt (NewPaperTrade.pnl_pct trade) /\
    PaperTrade.max_pnl_pct row = json_opt (NewPaperTrade.max_pnl_pct trade) /\
    PaperTrade.min_pnl_pct row = json_opt (NewPaperTrade.min_pnl_pct trade).
Proof.
  unfold createPaperTrade.
  destruct (NewPaperTrade.signal_id trade) as [sid|]; [|discriminate].
  destruct (NewPaperTrade.entry_price trade) as [price| | |];
    try discriminate.
  cbn [to_json].
  destruct (existsb (signal_has_id sid) (unusual_signals w)); [|discriminate].
  destruct (existsb (has_signal_id sid) (paper_trades w)) eqn:Hun;
    [discriminate|].
  cbn [negb]. intro H. apply (f_equal fst) in H as Ho.
  apply (f_equal snd) in H as Hw. cbn [fst snd] in Ho, Hw.
  eexists. split; [symmetry; apply (f_equal (fun x =>
    match x with Returned a => a | Thrown _ => None end) Ho)|].
  split; [symmetry; exact Hw|].
  repeat split; try reflexivity. exact Hun.
Qed.

Lemma enterTrade_unchanged_parts (config : PaperTradeConfig)
    (signal : UnusualSignal.t) (w : World) :
  exists o w', enterTrade config signal w = (Returned o, w') /\
               unusual_signals w' = unusual_signals w /\
               now w' = now w /\ market w' = market w /\
               (paper_trades w' = paper_trades w \/
                exists t, o = Some t /\
                          createPaperTrade (newTradeOf config signal) w
                          = (Returned (Some t), w')).
Proof.
  rewrite enterTrade_unfold.
  destruct (match UnusualSignal.id signal with
            | Some sid =>
                match filter (has_signal_id sid) (paper_trades w) with
                | [r] => Some r
                | _ => None
                end
            | None => None
            end) as [existing|].
  - do 2 eexists. split; [reflexivity|]. repeat split; auto.
  - destruct (createPaperTrade (newTradeOf config signal) w) as [[o|e] w']
      eqn:C.
    + destruct (createPaperTrade_row _ _ _ _ C) as (row & -> & -> & _).
      do 2 eexists. split; [reflexivity|]. repeat split; auto.
      right. exists row. split; reflexivity.
    + do 2 eexists. split; [reflexivity|].
      unfold createPaperTrade in C.
      destruct (NewPaperTrade.signal_id (newTradeOf config signal));
        [|injection C as _ <-; repeat split; auto].
      destruct (to_json (NewPaperTrade.entry_price (newTradeOf config signal)));
        [|injection C as _ <-; repeat split; auto].
      destruct (negb (existsb _ (unusual_signals w)));
        [injection C as _ <-; repeat split; auto|].
      destruct (existsb _ (paper_trades w));
        [injection C as _ <-; repeat split; auto|discriminate].
Qed.

(** X16: [enterTrade] never raises and never touches the stored
    signals or the clock; it keeps identities and signal ids unique in
    the table; and it either leaves the table unchanged or appends
    exactly one row, which it returns: a long, open trade for the
    signal, with a fresh identity and a signal id not in the table
    before, the configured quantity, the current time as entry time, and
    every exit and profit field null (exit price, time, underlying price
    and reason; profit, running maximum and minimum, in dollars and in
    percent).  The entry price computed from the signal (mid price, or
    last price without a bid and an ask) is then a finite number, and it
    is the row's entry price when it fits NUMERIC(10,4). *)
Theorem enterTrade_adds_at_most_one_open_trade :
  forall (config : PaperTradeConfig) (signal : UnusualSignal.t) (w : World),
  exists (o : option PaperTrade.t) (w' : World),
    enterTrade config signal w = (Returned o, w') /\
    unusual_signals w' = unusual_signals w /\
    now w' = now w /\
    (well_keyed (paper_trades w) -> well_keyed (paper_trades w')) /\
    (paper_trades w' = paper_trades w \/
     exists (t : PaperTrade.t) (price : Q),
       o = Some t /\
       paper_trades w' = (paper_trades w ++ [t])%list /\
       UnusualSignal.id signal = Some (PaperTrade.signal_id t) /\
       ~ In (PaperTrade.id t) (map PaperTrade.id (paper_trades w)) /\
       ~ In (PaperTrade.signal_id t)
            (map PaperTrade.signal_id (paper_trades w)) /\
       PaperTrade.status t = TradeStatus.open /\
       PaperTrade.direction t = long /\
       PaperTrade.quantity t = defaultQuantity config /\
       entryPriceOf signal = Fin price /\
       (fits_numeric 10 4 price = true -> PaperTrade.entry_price t = price) /\
       PaperTrade.entry_time t = now w /\
       PaperTrade.exit_price t = None /\
       PaperTrade.exit_time t = None /\
       PaperTrade.exit_underlying_price t = None /\
       PaperTrade.exit_reason t = None /\
       PaperTrade.pnl t = None /\
       PaperTrade.pnl_pct t = None /\
       PaperTrade.max_pnl t = None /\
       PaperTrade.max_pnl_pct t = None /\
       PaperTrade.min_pnl t = None /\
       PaperTrade.min_pnl_pct t = None).
Proof.
  intros config signal w.
  destruct (enterTrade_unchanged_parts config signal w)
    as (o & w' & E & Hs & Hn & _ & Hrows).
  exists o, w'. split; [exact E|]. split; [exact Hs|]. split; [exact Hn|].
  destruct Hrows as [Hsame|(t & Ho' & C)].
  - split; [now rewrite Hsame|left; exact Hsame].
  - destruct (createPaperTrade_row _ _ _ _ C)
      as (row & Ho & Hw & Hsid & Hp & Hid & Hun & Hst & Hdir & Hq & Ht & Hx
          & Hxt & Hxr & Hpnl & Hmax & Hmin & Hxu & Hpct & Hmaxp & Hminp).
    apply Some_eq in Ho. subst row.
    assert (Hrows : paper_trades w' = (paper_trades w ++ [t])%list)
      by (rewrite Hw; reflexivity).
    assert (Hfresh : ~ In (PaperTrade.id t) (map PaperTrade.id (paper_trades w)))
      by (rewrite Hid; apply fresh_uuid_new).
    assert (Hnew : ~ In (PaperTrade.signal_id t)
                        (map PaperTrade.signal_id (paper_trades w)))
      by (apply existsb_signal_id_false, Hun).
    split.
    + intros (K1 & K2). rewrite Hrows. unfold well_keyed.
      rewrite !map_app. cbn [map]. split.
      * apply NoDup_app; [exact K1|repeat constructor; intros []|].
        intros a Ha [<-|[]]. contradiction.
      * apply NoDup_app; [exact K2|repeat constructor; intros []|].
        intros a Ha [<-|[]]. contradiction.
    + right. exists t, (PaperTrade.entry_price t). split; [exact Ho'|].
      repeat split; auto.
Qed.

(** X15: a row returned by [createPaperTrade] is the one
    [getTradeBySignalId] finds for its signal right after, and inserting
    the same trade again is refused by the unique constraint on
    signal_id, leaving the table as it is. *)
Theorem createPaperTrade_then_lookup :
  forall (trade : NewPaperTrade.t) (w w1 : World) (row : PaperTrade.t),
    createPaperTrade trade w = (Returned (Some row), w1) ->
    getTradeBySignalId (PaperTrade.signal_id row) w1
    = (Returned (Some row), w1) /\
    createPaperTrade trade w1 = (Thrown UniqueViolation, w1).
Proof.
  intros trade w w1 row C.
  destruct (createPaperTrade_row _ _ _ _ C)
    as (row' & Ho & -> & Hsid & Hp & _ & Hun & _).
  apply Some_eq in Ho. subst row'.
  assert (Hone : filter (has_signal_id (PaperTrade.signal_id row))
                        (paper_trades w ++ [row]) = [row]).
  { rewrite filter_app, (existsb_false_filter _ _ Hun). cbn.
    unfold has_signal_id. now rewrite N.eqb_refl. }
  split.
  - unfold getTradeBySignalId. cbn [paper_trades set_paper_trades].
    now rewrite Hone.
  - unfold createPaperTrade in *. rewrite Hsid, Hp. cbn [to_json].
    cbn [paper_trades unusual_signals set_paper_trades].
    rewrite Hsid, Hp in C. cbn [to_json] in C.
    destruct (existsb (signal_has_id (PaperTrade.signal_id row))
                      (unusual_signals w)); [|discriminate].
    cbn [negb].
    rewrite (filter_cons_existsb _ _ _ _ Hone). reflexivity.
Qed.

Lemma createPaperTrade_then_lookup_witness :
  exists (row : PaperTrade.t) (w1 : World),
    createPaperTrade
      (newTradeOf defaultPaperTradeConfig (Sample.storedSignal "NVDA"))
      (Sample.world [Sample.storedSignal "NVDA"] [] 1000)
    = (Returned (Some row), w1) /\
    getTradeBySignalId (PaperTrade.signal_id row) w1
    = (Returned (Some row), w1) /\
    createPaperTrade
      (newTradeOf defaultPaperTradeConfig (Sample.storedSignal "NVDA")) w1
    = (Thrown UniqueViolation, w1).
Proof.
  do 2 eexists. split; [vm_compute; reflexivity|].
  apply (createPaperTrade_then_lookup
           (newTradeOf defaultPaperTradeConfig (Sample.storedSignal "NVDA"))
           (Sample.world [Sample.storedSignal "NVDA"] [] 1000)).
  vm_compute. reflexivity.
Defined.

(** *** Entering a batch *)

Lemma enterEach_without_identity (config : PaperTradeConfig)
    (signals : list UnusualSignal.t) (w : World) :
  Forall (fun s => UnusualSignal.id s = None) signals ->
  enterEach config signals w = (Returned [], w).
Proof.
  induction 1 as [|s signals Hs _ IH]; [reflexivity|].
  cbn [enterEach]. rewrite Hs. exact IH.
Qed.

Section BatchProperties.

Variable calculateDTE : string -> num.

Lemma analyzeQuote_unsaved (config : SignalConfig) (oq uq : TradierQuote.t)
    (s : UnusualSignal.t) :
  analyzeQuote calculateDTE config oq uq = Some s -> UnusualSignal.id s = None.
Proof.
  unfold analyzeQuote. intro H.
  destruct (TradierQuote.option_type oq) as [ot|]; [|discriminate].
  destruct (negb (is_option_quote (TradierQuote.type oq))); [discriminate|].
  destruct (negb (is_stock_or_etf (TradierQuote.type uq))); [discriminate|].
  destruct (TradierQuote.expiration_date oq) as [exp|]; [|discriminate].
  destruct (TradierQuote.strike oq) as [k|]; [|discriminate].
  destruct (TradierQuote.volume oq) as [v|]; [|discriminate].
  destruct (TradierQuote.open_interest oq) as [oi|]; [|discriminate].
  destruct (TradierQuote.underlying oq) as [und|]; [|discriminate].
  cbv zeta in H.
  match type of H with
  | (if ?b then _ else _) = _ => destruct b; [discriminate|]
  end.
  match type of H with
  | (if ?b then _ else _) = _ => destruct b; [discriminate|]
  end.
  apply Some_eq in H. subst s. reflexivity.
Qed.

Lemma analyzeMultipleQuotes_unsaved (config : SignalConfig)
    (quotes : list TradierQuote.t) (uq : TradierQuote.t) :
  Forall (fun s => UnusualSignal.id s = None)
         (analyzeMultipleQuotes calculateDTE config quotes uq).
Proof.
  induction quotes as [|q quotes IH]; [constructor|].
  cbn [analyzeMultipleQuotes].
  destruct (analyzeQuote calculateDTE config q uq) as [s|] eqn:E; [|exact IH].
  constructor; [apply (analyzeQuote_unsaved _ _ _ _ E)|exact IH].
Qed.

(** X17: [autoEnterSignals] enters nothing for signals that come
    straight from the detector: they carry no identity, so each one is
    skipped, the result is empty and the storage is unchanged; the same
    holds with any further signals without identity. *)
Theorem autoEnterSignals_needs_stored_signals :
  forall (tradeConfig : PaperTradeConfig) (config : SignalConfig)
         (quotes : list TradierQuote.t) (uq : TradierQuote.t)
         (others : list UnusualSignal.t) (w : World),
    autoEnterSignals tradeConfig
      (analyzeMultipleQuotes calculateDTE config quotes uq) w
    = (Returned [], w) /\
    (Forall (fun s => UnusualSignal.id s = None) others ->
     autoEnterSignals tradeConfig
       (analyzeMultipleQuotes calculateDTE config quotes uq ++ others) w
     = (Returned [], w)).
Proof.
  intros tradeConfig config quotes uq others w. unfold autoEnterSignals.
  destruct (negb (autoEnter tradeConfig)); [split; reflexivity|].
  split.
  - apply enterEach_without_identity, analyzeMultipleQuotes_unsaved.
  - intro Ho. apply enterEach_without_identity, Forall_app.
    split; [apply analyzeMultipleQuotes_unsaved|exact Ho].
Qed.

End BatchProperties.

(** *** Exits and the list of open trades *)

Lemma insert_sorted_In {A} (before : A -> A -> bool) (x y : A) (l : list A) :
  In y (insert_sorted before x l) <-> y = x \/ In y l.
Proof.
  induction l as [|z l IH]; cbn [insert_sorted].
  - cbn. intuition.
  - destruct (before x z); cbn [In]; [intuition|].
    rewrite IH. intuition.
Qed.

Lemma order_by_In {A} (before : A -> A -> bool) (y : A) (l : list A) :
  In y (order_by before l) <-> In y l.
Proof.
  unfold order_by. induction l as [|x l IH]; [reflexivity|].
  cbn [fold_right In]. rewrite insert_sorted_In, IH. intuition.
Qed.

(** X21: after [exitTrade] on a trade stored once, with exit values
    that fit their columns, the trade is no longer among the open trades:
    [getOpenTrades] then returns exactly the rows that were open before
    and have another identity; no row is added or removed. *)
Theorem exitTrade_leaves_open_list :
  forall (trade : PaperTrade.t) (exitPrice underlyingPrice : num)
         (reason : ExitReason.t) (w : World) (r : PaperTrade.t),
    filter (has_id (PaperTrade.id trade)) (paper_trades w) = [r] ->
    updates_fit (exitUpdates trade exitPrice underlyingPrice reason (now w))
    = true ->
    exists (r' : PaperTrade.t) (w' : World) (stillOpen : list PaperTrade.t),
      exitTrade trade exitPrice underlyingPrice reason w
      = (Returned (Some r'), w') /\
      getOpenTrades w' = (Returned stillOpen, w') /\
      (forall x, In x stillOpen <->
                 In x (paper_trades w) /\ is_open x = true /\
                 PaperTrade.id x <> PaperTrade.id trade) /\
      List.length (paper_trades w') = List.length (paper_trades w).
Proof.
  intros trade p u reason w r Hr _.
  do 3 eexists. split; [apply (exitTrade_unique _ _ _ _ _ _ Hr)|].
  split; [reflexivity|]. split.
  - intro x. rewrite order_by_In, filter_In.
    cbn [paper_trades set_paper_trades]. unfold exitedTable.
    rewrite in_map_iff. split.
    + intros ((y & Hy & Hin) & Hopen).
      destruct (has_id (PaperTrade.id trade) y) eqn:E.
      * subst x. discriminate.
      * subst y. repeat split; auto. intro Heq.
        unfold has_id in E. rewrite Heq, N.eqb_refl in E. discriminate.
    + intros (Hin & Hopen & Hne). split; [|exact Hopen].
      exists x. split; [|exact Hin].
      unfold has_id. destruct (N.eqb_spec (PaperTrade.id x) (PaperTrade.id trade));
        [contradiction|reflexivity].
  - cbn [paper_trades set_paper_trades]. unfold exitedTable.
    apply length_map.
Qed.

Lemma exitTrade_leaves_open_list_witness :
  exists (r' : PaperTrade.t) (w' : World) (stillOpen : list PaperTrade.t),
    exitTrade (Sample.openTrade None None) (Fin 3) (Fin 150)
      ExitReason.manual (Sample.world [] MoreSamples.openAndClosed 1000)
    = (Returned (Some r'), w') /\
    getOpenTrades w' = (Returned stillOpen, w') /\
    (forall x, In x stillOpen <->
               In x (paper_trades (Sample.world [] MoreSamples.openAndClosed
                                     1000)) /\
               is_open x = true /\
               PaperTrade.id x <> PaperTrade.id (Sample.openTrade None None)) /\
    List.length (paper_trades w')
    = List.length (paper_trades (Sample.world [] MoreSamples.openAndClosed
                                   1000)).
Proof.
  apply (exitTrade_leaves_open_list (Sample.openTrade None None) (Fin 3)
           (Fin 150) ExitReason.manual
           (Sample.world [] MoreSamples.openAndClosed 1000)
           (Sample.openTrade None None)).
  - reflexivity.
  - reflexivity.
Defined.

(** *** Monitoring *)

Lemma bind_Returned {A B} (m : IO A) (k : A -> IO B) (w w1 : World) (a : A) :
  m w = (Returned a, w1) -> bind m k w = k a w1.
Proof. intro H. unfold bind. now rewrite H. Qed.

Lemma exit_if_frame (b : bool) (trade : PaperTrade.t) (p u : num)
    (reason : ExitReason.t) (w : World) :
  exists w',
    (if b then exitTrade trade p u reason ;;; ret tt else ret tt) w
    = (Returned tt, w') /\
    frame (PaperTrade.id trade) w w'.
Proof.
  destruct b.
  - destruct (exitTrade_frame trade p u reason w) as (o & w' & E & F).
    exists w'. split; [|exact F]. now rewrite (bind_Returned _ _ _ _ _ E).
  - exists w. split; [reflexivity|apply frame_refl].
Qed.

Lemma autoExit_frame (config : PaperTradeConfig) (dateMs : string -> instant)
    (trade : PaperTrade.t) (signal : UnusualSignal.t) (p u : num)
    (w : World) :
  exists w',
    autoExit config dateMs trade signal p u w = (Returned tt, w') /\
    frame (PaperTrade.id trade) w w'.
Proof.
  unfold autoExit.
  assert (H1 : exists w1,
             match exitStrategy config with
             | ExitStrategy.time_limit =>
                 now <- Date_now ;;
                 (if ge (div (of_Z (now - PaperTrade.entry_time trade))
                             (of_Z (1000 * 60 * 60)))
                        (Fin (timeLimitHours config))
                  then exitTrade trade p u ExitReason.time_limit ;;; ret tt
                  else ret tt)
             | ExitStrategy.manual => ret tt
             end w = (Returned tt, w1) /\
             frame (PaperTrade.id trade) w w1).
  { destruct (exitStrategy config).
    - unfold bind at 1. unfold Date_now at 1. apply exit_if_frame.
    - exists w. split; [reflexivity|apply frame_refl]. }
  destruct H1 as (w1 & E1 & F1).
  rewrite (bind_Returned _ _ _ _ _ E1).
  unfold bind at 1. unfold Date_now at 1.
  destruct (exit_if_frame
              (le (floor (div (of_Z (dateMs (UnusualSignal.expiration_date
                                               signal) - now w1))
                              (of_Z (1000 * 60 * 60 * 24)))) (of_Z 0))
              trade p u ExitReason.expired w1) as (w2 & E2 & F2).
  exists w2. split; [exact E2|]. apply (frame_trans _ _ _ _ F1 F2).
Qed.

Lemma monitored_refl (i : uuid) (w : World) : monitored i w w.
Proof. repeat split; auto. lia. Qed.

Lemma monitorTrade_monitored (config : PaperTradeConfig)
    (dateMs : string -> instant) (trade : PaperTrade.t) (w : World) :
  exists w',
    monitorTrade config dateMs trade w = (Returned tt, w') /\
    monitored (PaperTrade.id trade) w w'.
Proof.
  unfold monitorTrade, try_catch. unfold bind at 1.
  unfold getSignalsByTicker at 1.
  destruct (find _ _) as [signal|];
    [|exists w; split; [reflexivity|apply monitored_refl]].
  unfold bind at 1. unfold getQuotes at 1.
  destruct (market w (UnusualSignal.symbol signal)) as [quotes|];
    [|exists w; split; [reflexivity|apply monitored_refl]].
  destruct quotes as [|quote quotes];
    [exists w; split; [reflexivity|apply monitored_refl]|].
  unfold bind at 1. unfold getQuotes at 1.
  destruct (market w (UnusualSignal.ticker signal)) as [underlyingQuotes|];
    [|exists w; split; [reflexivity|apply monitored_refl]].
  match goal with
  | |- context [updateTrade trade ?p ?u] =>
      set (currentPrice := p); set (underlyingPrice := u)
  end.
  destruct (updateTrade_frame trade currentPrice underlyingPrice w)
    as (w1 & E1 & F1).
  rewrite (bind_Returned _ _ _ _ _ E1).
  destruct (autoExit_frame config dateMs trade signal currentPrice
              underlyingPrice w1) as (w2 & E2 & F2).
  rewrite (bind_Returned _ _ _ _ _ E2).
  exists (set_now w2 (now w2 + 500)). split; [reflexivity|].
  destruct (frame_trans _ _ _ _ F1 F2) as (A1 & A2 & A3 & A4 & A5).
  repeat split; cbn [unusual_signals market now paper_trades set_now]; auto.
  lia.
Qed.

Lemma for_each_monitored (config : PaperTradeConfig)
    (dateMs : string -> instant) (trades : list PaperTrade.t) (w : World) :
  exists w',
    for_each trades (monitorTrade config dateMs) w = (Returned tt, w') /\
    unusual_signals w' = unusual_signals w /\
    market w' = market w /\
    now w <= now w' /\
    map entry_columns (paper_trades w') = map entry_columns (paper_trades w) /\
    (forall r, In r (paper_trades w) ->
               ~ In (PaperTrade.id r) (map PaperTrade.id trades) ->
               In r (paper_trades w')).
Proof.
  revert w. induction trades as [|t trades IH]; intro w.
  - exists w. split; [reflexivity|]. repeat split; auto. lia.
  - destruct (monitorTrade_monitored config dateMs t w)
      as (w1 & E1 & A1 & A2 & A3 & A4 & A5).
    destruct (IH w1) as (w2 & E2 & B1 & B2 & B3 & B4 & B5).
    exists w2. cbn [for_each]. rewrite (bind_Returned _ _ _ _ _ E1).
    split; [exact E2|]. repeat split; try congruence; try lia.
    intros r Hin Hnot. apply B5.
    + apply A5; [exact Hin|]. intro Heq. apply Hnot. left. now symmetry.
    + intro Hin'. apply Hnot. right. exact Hin'.
Qed.

Lemma NoDup_map_eq {A B} (f : A -> B) (l : list A) (x y : A) :
  NoDup (map f l) -> In x l -> In y l -> f x = f y -> x = y.
Proof.
  induction l as [|a l IH]; [intros _ []|].
  cbn [map]. intros Hnd Hx Hy Heq. inversion Hnd as [|? ? Hnot Hnd']. subst.
  destruct Hx as [->|Hx]; destruct Hy as [->|Hy]; auto.
  - exfalso. apply Hnot. rewrite Heq. now apply in_map.
  - exfalso. apply Hnot. rewrite <- Heq. now apply in_map.
Qed.

(** X22: a monitoring pass never raises; it leaves the stored
    signals unchanged, never moves the clock back, adds and removes no
    trade and changes no column fixed at entry; and, identities being
    unique, every trade that was not open before the pass is untouched. *)
Theorem monitorOpenTrades_keeps_the_book :
  forall (config : PaperTradeConfig) (dateMs : string -> instant) (w : World),
  exists w' : World,
    monitorOpenTrades config dateMs w = (Returned tt, w') /\
    unusual_signals w' = unusual_signals w /\
    now w <= now w' /\
    map entry_columns (paper_trades w') = map entry_columns (paper_trades w) /\
    (NoDup (map PaperTrade.id (paper_trades w)) ->
     forall r, In r (paper_trades w) -> is_open r = false ->
               In r (paper_trades w')).
Proof.
  intros config dateMs w.
  unfold monitorOpenTrades, try_catch. unfold bind at 1.
  unfold getOpenTrades at 1.
  set (openTrades := order_by _ (filter is_open (paper_trades w))).
  destruct (for_each_monitored config dateMs openTrades w)
    as (w' & E & A1 & A2 & A3 & A4 & A5).
  assert (Hres : match openTrades with
                 | [] => ret tt
                 | _ :: _ => for_each openTrades (monitorTrade config dateMs)
                 end w = (Returned tt, w')).
  { destruct openTrades; [exact E|exact E]. }
  rewrite Hres. exists w'. split; [reflexivity|].
  split; [exact A1|]. split; [exact A3|]. split; [exact A4|].
  intros Hnd r Hin Hclosed. apply A5; [exact Hin|].
  intro Hid. apply in_map_iff in Hid. destruct Hid as (x & Hx & Hxin).
  unfold openTrades in Hxin. apply order_by_In in Hxin.
  apply filter_In in Hxin. destruct Hxin as (Hxin & Hopen).
  assert (x = r) by (apply (NoDup_map_eq _ _ _ _ Hnd Hxin Hin Hx)).
  subst x. congruence.
Qed.

(** X23: when the market API returns no quote for any symbol, a
    monitoring pass changes nothing at all: every open trade is skipped
    before its update, its exits and the pause between trades. *)
Theorem monitorOpenTrades_market_down :
  forall (config : PaperTradeConfig) (dateMs : string -> instant) (w : World),
    (forall symbol, market w symbol = None) ->
    monitorOpenTrades config dateMs w = (Returned tt, w).
Proof.
  intros config dateMs w Hdown.
  assert (Hone : forall trade,
             monitorTrade config dateMs trade w = (Returned tt, w)).
  { intro trade. unfold monitorTrade, try_catch. unfold bind at 1.
    unfold getSignalsByTicker at 1.
    destruct (find _ _) as [signal|]; [|reflexivity].
    unfold bind at 1. unfold getQuotes at 1. rewrite Hdown. reflexivity. }
  unfold monitorOpenTrades, try_catch. unfold bind at 1.
  unfold getOpenTrades at 1.
  set (openTrades := order_by _ _). clearbody openTrades.
  assert (Hloop : for_each openTrades (monitorTrade config dateMs) w
                  = (Returned tt, w)).
  { induction openTrades as [|t rest IH]; [reflexivity|].
    cbn [for_each]. rewrite (bind_Returned _ _ _ _ _ (Hone t)). exact IH. }
  destruct openTrades; [reflexivity|]. rewrite Hloop. reflexivity.
Qed.

Lemma monitorOpenTrades_market_down_witness :
  monitorOpenTrades defaultPaperTradeConfig Sample.expiredAtZero
    MoreSamples.marketDown
  = (Returned tt, MoreSamples.marketDown).
Proof.
  apply (monitorOpenTrades_market_down defaultPaperTradeConfig
           Sample.expiredAtZero MoreSamples.marketDown).
  reflexivity.
Defined.

(** ** More on the performance statistics *)

Lemma or_else_count (n : Z) : or_else (Some (of_Z n)) (of_Z 0) = of_Z n.
Proof.
  unfold or_else, truthy, of_Z.
  destruct (Qeq_bool (inject_Z n) 0) eqn:E; [|reflexivity].
  apply Qeq_bool_iff in E. unfold Qeq in E. cbn in E.
  assert (n = 0) by lia. subst n. reflexivity.
Qed.

Lemma count_closed_cons (test : Q -> bool) (r : PaperTrade.t)
    (rows : list PaperTrade.t) :
  count_closed test (r :: rows)
  = (if is_closed r && match PaperTrade.pnl r with
                       | Some p => test p
                       | None => false
                       end then 1 else 0)
    + count_closed test rows.
Proof.
  unfold count_closed. cbn [filter].
  destruct (is_closed r && _); cbn [List.length]; lia.
Qed.

Lemma count_rows_cons (test : PaperTrade.t -> bool) (r : PaperTrade.t)
    (rows : list PaperTrade.t) :
  count_rows test (r :: rows)
  = (if test r then 1 else 0) + count_rows test rows.
Proof.
  unfold count_rows. cbn [filter].
  destruct (test r); cbn [List.length]; lia.
Qed.

Lemma wins_and_losses_bound (rows : list PaperTrade.t) :
  0 <= count_closed (fun p => Qltb 0 p) rows /\
  0 <= count_closed (fun p => Qltb p 0) rows /\
  count_closed (fun p => Qltb 0 p) rows
  + count_closed (fun p => Qltb p 0) rows
  <= count_rows is_closed rows /\
  count_closed (fun p => Qltb 0 p) rows <= count_rows is_closed rows /\
  count_rows is_closed rows <= Z.of_nat (List.length rows).
Proof.
  induction rows as [|r rows IH].
  - unfold count_closed, count_rows. cbn. lia.
  - rewrite !count_closed_cons, count_rows_cons. cbn [List.length].
    destruct (is_closed r); cbn [andb]; [|lia].
    destruct (PaperTrade.pnl r) as [p|]; [|lia].
    destruct (Qltb 0 p) eqn:E1; destruct (Qltb p 0) eqn:E2; try lia.
    qbool. lra.
Qed.

Lemma wins_and_losses_exact (rows : list PaperTrade.t) :
  Forall (fun r => is_open r = true \/
                   (is_closed r = true /\
                    exists p, PaperTrade.pnl r = Some p /\ ~ (p == 0)%Q))
         rows ->
  count_closed (fun p => Qltb 0 p) rows
  + count_closed (fun p => Qltb p 0) rows
  = count_rows is_closed rows /\
  Z.of_nat (List.length rows) - count_rows is_closed rows
  = count_rows is_open rows.
Proof.
  induction 1 as [|r rows Hr _ IH].
  - unfold count_closed, count_rows. cbn. lia.
  - rewrite !count_closed_cons, !count_rows_cons. cbn [List.length].
    destruct Hr as [Hopen|(Hclosed & p & Hp & Hne)].
    + assert (Hc : is_closed r = false)
        by (unfold is_open, is_closed in *;
            destruct (PaperTrade.status r); congruence).
      rewrite Hopen, Hc. cbn [andb]. lia.
    + assert (Ho : is_open r = false)
        by (unfold is_open, is_closed in *;
            destruct (PaperTrade.status r); congruence).
      rewrite Hclosed, Ho, Hp. cbn [andb].
      destruct (Qltb 0 p) eqn:E1; destruct (Qltb p 0) eqn:E2; qbool;
        try lia; exfalso; lra.
Qed.

Lemma sql_round2_percent (x : Q) :
  (0 <= x)%Q -> (x <= 100)%Q ->
  (0 <= sql_round2 x)%Q /\ (sql_round2 x <= 100)%Q.
Proof.
  intros H0 H1. unfold sql_round2.
  replace (Qle_bool 0 x) with true by (symmetry; apply Qle_bool_iff; exact H0).
  rewrite Qred_correct.
  assert (Hlo : (0 <= Qfloor (x * 100 + (1 # 2)))%Z).
  { change 0%Z with (Qfloor 0). apply Qfloor_resp_le. lra. }
  assert (Hhi : (Qfloor (x * 100 + (1 # 2)) <= 10000)%Z).
  { change 10000%Z with (Qfloor (10000 + (1 # 2))).
    apply Qfloor_resp_le. lra. }
  rewrite Zle_Qle in Hlo, Hhi.
  set (f := inject_Z (Qfloor (x * 100 + (1 # 2)))) in *.
  change (inject_Z 0) with 0%Q in Hlo.
  change (inject_Z 10000) with 10000%Q in Hhi.
  assert (Hf : (f / 100 * 100 == f)%Q) by (field; discriminate).
  split; lra.
Qed.

Lemma win_rate_range (rows : list PaperTrade.t) (rate : Q) :
  PerformanceSummary.win_rate_pct (performance_summary rows) = Some rate ->
  (0 <= rate)%Q /\ (rate <= 100)%Q.
Proof.
  unfold performance_summary. cbn [PerformanceSummary.win_rate_pct].
  destruct (wins_and_losses_bound rows) as (W0 & _ & _ & Wle & _).
  unfold count_rows in Wle.
  destruct (List.length (filter is_closed rows)) as [|n] eqn:En;
    [discriminate|].
  intro H. apply Some_eq in H. subst rate.
  set (wins := count_closed (fun p => Qltb 0 p) rows) in *.
  assert (Hn : (0 < inject_Z (Z.of_nat (S n)))%Q).
  { change 0%Q with (inject_Z 0). rewrite <- Zlt_Qlt. lia. }
  assert (Hw0 : (0 <= inject_Z wins)%Q).
  { change 0%Q with (inject_Z 0). rewrite <- Zle_Qle. exact W0. }
  assert (Hw1 : (inject_Z wins <= inject_Z (Z.of_nat (S n)))%Q)
    by (rewrite <- Zle_Qle; exact Wle).
  set (q := (inject_Z wins / inject_Z (Z.of_nat (S n)))%Q).
  assert (Hq0 : (0 <= q)%Q) by (apply Qle_shift_div_l; [exact Hn|lra]).
  assert (Hq1 : (q <= 1)%Q) by (apply Qle_shift_div_r; [exact Hn|lra]).
  apply sql_round2_percent; lra.
Qed.

Lemma Qred_whole (q : Q) (n : Z) : (q == inject_Z n)%Q -> Qred q = inject_Z n.
Proof.
  intro H. rewrite (Qred_complete _ _ H).
  unfold Qred, inject_Z.
  pose proof (Z.ggcd_gcd n 1) as Hg.
  pose proof (Z.ggcd_correct_divisors n 1) as Hd.
  destruct (Z.ggcd n 1) as (g & a & b). cbn [fst snd] in *.
  rewrite Z.gcd_1_r in Hg. subst g. destruct Hd as (Ha & Hb).
  assert (a = n) by lia. assert (b = 1) by lia. subst a b. reflexivity.
Qed.

Lemma getPerformanceStats_value (w : World) :
  exists (stats : PerformanceStats.t) (rate : Q),
    getPerformanceStats w = (Returned stats, w) /\
    PerformanceStats.totalTrades stats
    = of_Z (Z.of_nat (List.length (paper_trades w))) /\
    PerformanceStats.winningTrades stats
    = of_Z (count_closed (fun p => Qltb 0 p) (paper_trades w)) /\
    PerformanceStats.losingTrades stats
    = of_Z (count_closed (fun p => Qltb p 0) (paper_trades w)) /\
    PerformanceStats.closedTrades stats
    = of_Z (count_closed (fun p => Qltb 0 p) (paper_trades w)
            + count_closed (fun p => Qltb p 0) (paper_trades w)) /\
    PerformanceStats.openTrades stats
    = of_Z (Z.of_nat (List.length (paper_trades w))
            - (count_closed (fun p => Qltb 0 p) (paper_trades w)
               + count_closed (fun p => Qltb p 0) (paper_trades w))) /\
    PerformanceStats.winRate stats = Fin rate /\
    (0 <= rate)%Q /\ (rate <= 100)%Q.
Proof.
  set (rows := paper_trades w).
  set (wins := count_closed (fun p => Qltb 0 p) rows).
  set (losses := count_closed (fun p => Qltb p 0) rows).
  set (total := Z.of_nat (List.length rows)).
  assert (Hrate : exists rate : Q,
             field_or_zero (Some (performance_summary rows))
               (fun s => as_num (PerformanceSummary.win_rate_pct s))
             = Fin rate /\ (0 <= rate)%Q /\ (rate <= 100)%Q).
  { unfold field_or_zero, as_num.
    destruct (PerformanceSummary.win_rate_pct (performance_summary rows))
      as [q|] eqn:E.
    - destruct (win_rate_range rows q E) as (Q0 & Q1).
      cbn [option_map or_else truthy].
      destruct (Qeq_bool q 0); cbn [negb].
      + exists 0%Q. repeat split; lra.
      + exists q. repeat split; assumption.
    - exists 0%Q. repeat split; lra. }
  destruct Hrate as (rate & Erate & R0 & R1).
  exists {| PerformanceStats.totalTrades := of_Z total;
            PerformanceStats.openTrades :=
              sub (sub (of_Z total) (of_Z wins)) (of_Z losses);
            PerformanceStats.closedTrades := add (of_Z wins) (of_Z losses);
            PerformanceStats.winningTrades := of_Z wins;
            PerformanceStats.losingTrades := of_Z losses;
            PerformanceStats.winRate := Fin rate;
            PerformanceStats.totalPnL :=
              field_or_zero (Some (performance_summary rows))
                (fun s => as_num (PerformanceSummary.total_pnl s));
            PerformanceStats.avgPnL :=
              field_or_zero (Some (performance_summary rows))
                (fun s => as_num (PerformanceSummary.avg_pnl s));
            PerformanceStats.bestTrade :=
              field_or_zero (Some (performance_summary rows))
                (fun s => as_num (PerformanceSummary.max_pnl s));
            PerformanceStats.worstTrade :=
              field_or_zero (Some (performance_summary rows))
                (fun s => as_num (PerformanceSummary.min_pnl s)) |}.
  exists rate.
  split.
  { unfold getPerformanceStats, try_catch, bind, getPerformanceSummary, ret.
    fold rows. rewrite <- Erate.
    unfold field_or_zero at 1 2 3 4 5 6 7 8 9.
    cbn [PerformanceSummary.total_trades PerformanceSummary.winning_trades
         PerformanceSummary.losing_trades performance_summary].
    fold wins losses total. rewrite !or_else_count. reflexivity. }
  cbn [PerformanceStats.totalTrades PerformanceStats.winningTrades
       PerformanceStats.losingTrades PerformanceStats.closedTrades
       PerformanceStats.openTrades PerformanceStats.winRate].
  do 3 (split; [reflexivity|]).
  split.
  { unfold add, of_Z, fin. f_equal. apply Qred_whole.
    rewrite inject_Z_plus. reflexivity. }
  split.
  { unfold sub, of_Z, fin. f_equal. apply Qred_whole.
    rewrite !Qred_correct. unfold Z.sub.
    rewrite !inject_Z_plus, inject_Z_opp, inject_Z_plus. ring. }
  split; [reflexivity|]. split; [exact R0|exact R1].
Qed.

(** X24: [getPerformanceStats] never raises and changes nothing.
    Its totalTrades is the number of rows; closedTrades and openTrades
    are whole numbers that add up to totalTrades, closedTrades between 0
    and the number of rows with status closed, openTrades at least the
    number of rows with another status; winRate lies between 0 and
    100. *)
Theorem getPerformanceStats_bounds :
  forall w : World,
  exists (stats : PerformanceStats.t) (closed open : Z) (rate : Q),
    getPerformanceStats w = (Returned stats, w) /\
    PerformanceStats.totalTrades stats
    = of_Z (Z.of_nat (List.length (paper_trades w))) /\
    PerformanceStats.closedTrades stats = of_Z closed /\
    PerformanceStats.openTrades stats = of_Z open /\
    PerformanceStats.winRate stats = Fin rate /\
    0 <= closed <= count_rows is_closed (paper_trades w) /\
    count_rows (fun r => negb (is_closed r)) (paper_trades w) <= open /\
    closed + open = Z.of_nat (List.length (paper_trades w)) /\
    (0 <= rate)%Q /\ (rate <= 100)%Q.
Proof.
  intro w.
  destruct (getPerformanceStats_value w)
    as (stats & rate & Hrun & Ht & _ & _ & Hc & Ho & Hr & R0 & R1).
  destruct (wins_and_losses_bound (paper_trades w))
    as (W0 & L0 & WL & _ & Ctot).
  assert (Hneg : count_rows (fun r => negb (is_closed r)) (paper_trades w)
                 = Z.of_nat (List.length (paper_trades w))
                   - count_rows is_closed (paper_trades w)).
  { clear. induction (paper_trades w) as [|r rows IH].
    - reflexivity.
    - rewrite !count_rows_cons, IH. cbn [List.length].
      destruct (is_closed r); cbn [negb]; lia. }
  eexists stats, _, _, rate.
  repeat (split; [eassumption|]).
  split; [lia|]. split; [lia|]. split; [lia|]. split; assumption.
Qed.

(** X25: when every row is open, or closed with a recorded
    profit other than 0, [getPerformanceStats] reports as closedTrades
    the number of closed rows and as openTrades the number of open
    rows. *)
Theorem getPerformanceStats_exact_without_breakeven :
  forall w : World,
    Forall (fun r => is_open r = true \/
                     (is_closed r = true /\
                      exists p, PaperTrade.pnl r = Some p /\ ~ (p == 0)%Q))
           (paper_trades w) ->
    exists stats : PerformanceStats.t,
      getPerformanceStats w = (Returned stats, w) /\
      PerformanceStats.closedTrades stats
      = of_Z (count_rows is_closed (paper_trades w)) /\
      PerformanceStats.openTrades stats
      = of_Z (count_rows is_open (paper_trades w)).
Proof.
  intros w Hall.
  destruct (getPerformanceStats_value w)
    as (stats & rate & Hrun & _ & _ & _ & Hc & Ho & _).
  destruct (wins_and_losses_exact (paper_trades w) Hall) as (Ec & Eo).
  exists stats. split; [exact Hrun|].
  rewrite Hc, Ho, Ec, Eo. split; reflexivity.
Qed.

Lemma getPerformanceStats_exact_without_breakeven_witness :
  exists stats : PerformanceStats.t,
    getPerformanceStats
      (Sample.world [] MoreSamples.openAndClosed Sample.after25h)
    = (Returned stats,
       Sample.world [] MoreSamples.openAndClosed Sample.after25h) /\
    PerformanceStats.closedTrades stats = of_Z 1 /\
    PerformanceStats.openTrades stats = of_Z 1.
Proof.
  apply (getPerformanceStats_exact_without_breakeven
           (Sample.world [] MoreSamples.openAndClosed Sample.after25h)).
  apply Forall_cons; [left; reflexivity|].
  apply Forall_cons; [|apply Forall_nil].
  right. split; [reflexivity|]. exists 100%Q. split; [reflexivity|].
  intro H. discriminate H.
Defined.
